(** * Bolometric-correction utility: a shallow embedding of [bc_util.py]

    The development follows the Python source top-down:

    - [Float64]: numpy's [float64] scalars as IEEE-754 binary64 values
      (the standard library's [spec_float] with 53 bits of precision),
      so that comparisons involving NaN and the infinities behave as they
      do in numpy;
    - [Pandas]: the little part of pandas the program uses: a data frame
      with the four named columns, [read_csv] on whitespace-separated
      text, [sort_values], column minimum and maximum;
    - [Py]: a small monad for Python's effects: a heap of objects,
      exceptions, and the lines printed on standard output;
    - [Scipy]: the interface of [scipy.interpolate.interp1d], and a
      reference interpolator written from the specification's words;
    - the program itself: [load_bolometric_data] and the class
      [BolometricCorrection];
    - the console programs [interactive_mode], [batch_process] and
      [main], over what they take from outside (the built-in [float],
      the file system, standard input, the plots);
    - the properties. *)

From Stdlib Require Import ZArith Lia Ascii String.
From Stdlib.Floats Require Import SpecFloat.
From stdpp Require Import base option list strings gmap.

Local Open Scope Z_scope.

(** ** IEEE-754 binary64 *)

Module Float64.

Definition prec : Z := 53.
Definition emax : Z := 1024.

Definition float64 : Type := spec_float.

Definition nan : float64 := S754_nan.
Definition inf : float64 := S754_infinity false.
Definition zero : float64 := S754_zero false.

(** Conversion of an integer, rounding to nearest even when the integer
    has more than 53 significant bits. *)
Definition of_int (z : Z) : float64 := binary_normalize prec emax z 0 false.

Definition add : float64 -> float64 -> float64 := SFadd prec emax.
Definition sub : float64 -> float64 -> float64 := SFsub prec emax.
Definition mul : float64 -> float64 -> float64 := SFmul prec emax.
Definition div : float64 -> float64 -> float64 := SFdiv prec emax.
Definition opp : float64 -> float64 := SFopp.
Definition abs : float64 -> float64 := SFabs.

(** numpy's [<], [>], [<=]: false as soon as an operand is NaN. *)
Definition ltb (x y : float64) : bool := SFltb x y.
Definition gtb (x y : float64) : bool := SFltb y x.
Definition leb (x y : float64) : bool := SFleb x y.

Definition isnan (x : float64) : bool :=
  match x with S754_nan => true | _ => false end.

Definition isfinite (x : float64) : bool :=
  match x with
  | S754_zero _ | S754_finite _ _ _ => true
  | S754_infinity _ | S754_nan => false
  end.

(** The binary64 value nearest to the decimal [(+/-) m / 10^k]: what a
    correctly rounding decimal parser returns for the literal, as long
    as [m] and [10^k] are themselves representable ([m < 2^53],
    [k <= 22]). *)
Definition of_decimal (negative : bool) (m : Z) (k : nat) : float64 :=
  let q := div (of_int m) (of_int (10 ^ Z.of_nat k)) in
  if negative then opp q else q.

End Float64.

Export Float64.

Declare Scope float64_scope.
Delimit Scope float64_scope with f64.
Infix "<?" := Float64.ltb : float64_scope.
Infix ">?" := Float64.gtb : float64_scope.
Infix "<=?" := Float64.leb : float64_scope.

(** ** The part of pandas the program uses *)

Module Pandas.

(** The frame of the program has the four columns given to [read_csv]
    by [names=['B_V', 'logT', 'BC', 'T']].  In the embedded text the
    first three columns hold decimals and are read as [float64]; the
    last one holds integers only and is read as [int64]. *)
Inductive column : Set := B_V | logT | BC | T.

Record Row : Type := mkRow {
  val_B_V : float64;
  val_logT : float64;
  val_BC : float64;
  val_T : Z
}.

Definition DataFrame : Type := list Row.

(** A numpy scalar, as returned by a reduction over a column. *)
Inductive scalar : Type :=
| Int64 (z : Z)
| Float64 (x : float64).

(** The value a scalar takes when numpy compares it with a [float64]
    array: an [int64] is promoted to [float64]. *)
Definition as_float64 (s : scalar) : float64 :=
  match s with
  | Int64 z => of_int z
  | Float64 x => x
  end.

Inductive Series : Type :=
| Int64Series (v : list Z)
| Float64Series (v : list float64).

(** [df[c]] *)
Definition getitem (df : DataFrame) (c : column) : Series :=
  match c with
  | B_V => Float64Series (map val_B_V df)
  | logT => Float64Series (map val_logT df)
  | BC => Float64Series (map val_BC df)
  | T => Int64Series (map val_T df)
  end.

(** The values of a column as a [float64] array (what a numerical
    routine makes of a column it is handed). *)
Definition to_float_array (s : Series) : list float64 :=
  match s with
  | Int64Series v => map of_int v
  | Float64Series v => v
  end.

(** [Series.min()] and [Series.max()] skip NaN, and give NaN on a column
    with no value left. *)
Definition nanmin (v : list float64) : float64 :=
  fold_left (fun acc x =>
               if isnan x then acc
               else if isnan acc then x
               else if (x <? acc)%f64 then x else acc) v nan.

Definition nanmax (v : list float64) : float64 :=
  fold_left (fun acc x =>
               if isnan x then acc
               else if isnan acc then x
               else if (x >? acc)%f64 then x else acc) v nan.

Definition Series_min (s : Series) : scalar :=
  match s with
  | Int64Series [] => Float64 nan
  | Int64Series (z :: v) => Int64 (fold_left Z.min v z)
  | Float64Series v => Float64 (nanmin v)
  end.

Definition Series_max (s : Series) : scalar :=
  match s with
  | Int64Series [] => Float64 nan
  | Int64Series (z :: v) => Int64 (fold_left Z.max v z)
  | Float64Series v => Float64 (nanmax v)
  end.

(** *** [sort_values] *)

(** Ascending order on the keys of a column, NaN last
    ([na_position='last']). *)
Definition float_le_nan_last (x y : float64) : bool :=
  if isnan y then true
  else if isnan x then false
  else (x <=? y)%f64.

Definition key_le (by_ : column) (r1 r2 : Row) : bool :=
  match by_ with
  | B_V => float_le_nan_last (val_B_V r1) (val_B_V r2)
  | logT => float_le_nan_last (val_logT r1) (val_logT r2)
  | BC => float_le_nan_last (val_BC r1) (val_BC r2)
  | T => val_T r1 <=? val_T r2
  end.

Fixpoint insert_row (by_ : column) (r : Row) (sorted : list Row) : list Row :=
  match sorted with
  | [] => [r]
  | r' :: rest =>
      if key_le by_ r r' then r :: r' :: rest
      else r' :: insert_row by_ r rest
  end.

(** [df.sort_values(by)]: a new frame with the rows in ascending order of
    the key.  Rows with equal keys keep their relative order here; pandas'
    default sort does not promise that, but every frame the program sorts
    has distinct keys, for which the sorted order is unique. *)
Definition sort_values (df : DataFrame) (by_ : column) : DataFrame :=
  fold_right (insert_row by_) [] df.

(** *** [read_csv] on whitespace-separated text *)

Definition is_space (c : ascii) : bool :=
  match c with
  | " "%char | "009"%char | "010"%char | "011"%char | "012"%char | "013"%char => true
  | _ => false
  end.

Definition is_newline (c : ascii) : bool :=
  match c with "010"%char => true | _ => false end.

(** The value of a decimal digit: its code, counted from the code of
    the digit zero. *)
Definition digit_of (c : ascii) : option Z :=
  let n := Z.of_N (N_of_ascii c) - 48 in
  if (0 <=? n) && (n <=? 9) then Some n else None.

(** [str.strip()] *)
Fixpoint lstrip (s : list ascii) : list ascii :=
  match s with
  | c :: s' => if is_space c then lstrip s' else s
  | [] => []
  end.

Definition strip (s : list ascii) : list ascii :=
  reverse (lstrip (reverse (lstrip s))).

(** Cut a text at every character satisfying [sep]. *)
Fixpoint split_at (sep : ascii -> bool) (cur : list ascii) (s : list ascii)
  : list (list ascii) :=
  match s with
  | [] => [reverse cur]
  | c :: s' =>
    if sep c then reverse cur :: split_at sep [] s'
    else split_at sep (c :: cur) s'
  end.

(** The fields of a line under [sep=r'\s+']: the maximal runs of
    characters that are not white space. *)
Fixpoint fields_from (cur : list ascii) (s : list ascii) : list (list ascii) :=
  match s with
  | [] => match cur with [] => [] | _ => [reverse cur] end
  | c :: s' =>
    if is_space c then
      match cur with
      | [] => fields_from [] s'
      | _ => reverse cur :: fields_from [] s'
      end
    else fields_from (c :: cur) s'
  end.

Definition fields (line : list ascii) : list (list ascii) := fields_from [] line.

(** A run of decimal digits: its value and its length. *)
Fixpoint digits (acc : Z) (n : nat) (s : list ascii) : option (Z * nat * list ascii) :=
  match s with
  | [] => Some (acc, n, [])
  | c :: s' =>
      match digit_of c with
      | Some d => digits (10 * acc + d) (S n) s'
      | None => if n is O then None else Some (acc, n, s)
      end
  end.

(** A numeric field [-?[0-9]+(.[0-9]+)?]: its sign, the integer its
    digits spell once the point is removed, and the number of digits
    after the point ([None] when the field has no point). *)
Definition parse_number (f : list ascii) : option (bool * Z * option nat) :=
  let '(negative, f) :=
    match f with
    | "-"%char :: f' => (true, f')
    | _ => (false, f)
    end in
  match f with
  | [] => None
  | _ =>
      '(i, _, rest) ← digits 0 0 f;
      match rest with
      | [] => Some (negative, i, None)
      | "."%char :: frac =>
          match frac with
          | [] => None
          | _ =>
              '(m, k, rest') ← digits i 0 frac;
              match rest' with
              | [] => Some (negative, m, Some k)
              | _ => None
              end
          end
      | _ => None
      end
  end.

(** A parsed numeric field: sign, digits, number of decimals. *)
Definition number : Type := bool * Z * option nat.

Definition float_of_number (n : number) : float64 :=
  let '(negative, m, k) := n in of_decimal negative m (default O k).

Definition int_of_number (n : number) : option Z :=
  let '(negative, m, k) := n in
  match k with
  | None => Some (if negative : bool then - m else m)
  | Some _ => None
  end.

Definition row_of_record (r : list number) : option Row :=
  match r with
  | [n1; n2; n3; n4] =>
      t ← int_of_number n4;
      Some (mkRow (float_of_number n1) (float_of_number n2) (float_of_number n3) t)
  | _ => None
  end.

(** The records of a text: the numeric fields of each line that is not
    blank. *)
Definition records (text : list ascii) : option (list (list number)) :=
  mapM (mapM parse_number)
       (List.filter (fun fs => match fs with [] => false | _ => true end)
                    (map fields (split_at is_newline [] text))).

(** [pd.read_csv(StringIO(text), sep=r'\s+', names=['B_V', 'logT', 'BC',
    'T'])], for the texts whose non-blank lines all have four numeric
    fields, the last one an integer; [None] for any other text, which
    this model does not cover. *)
Definition read_csv (text : list ascii) : option DataFrame :=
  rs ← records text;
  mapM row_of_record rs.

End Pandas.

Export Pandas.

(** ** Python's effects *)

Module Py.

(** The exceptions: the built-in ones the program and its libraries
    raise, and [InsufficientDataError], the error the specification names
    for a table that is too small.  The program defines no such class:
    only the interpolator written from the specification raises it. *)
Inductive exception : Type :=
| ValueError (msg : string)
| TypeError (msg : string)
| NotImplementedError (msg : string)
| InsufficientDataError (msg : string).

Inductive result (A : Type) : Type :=
| Ok (a : A)
| Raise (e : exception).
Arguments Ok {A} a.
Arguments Raise {A} e.

(** A reference to an object. *)
Definition loc : Type := positive.

(** A computation runs from a heap of objects; it ends with a value or
    an exception, in a heap, having printed some lines. *)
Record outcome (Obj Line A : Type) : Type := Outcome {
  value : result A;
  heap : gmap loc Obj;
  output : list Line
}.
Arguments Outcome {Obj Line A} value heap output.
Arguments value {Obj Line A} o.
Arguments heap {Obj Line A} o.
Arguments output {Obj Line A} o.

Definition M (Obj Line A : Type) : Type := gmap loc Obj -> outcome Obj Line A.

Section Operations.
Context {Obj Line : Type}.

Definition ret {A} (a : A) : M Obj Line A :=
  fun h => Outcome (Ok a) h [].

Definition bind {A B} (m : M Obj Line A) (k : A -> M Obj Line B) : M Obj Line B :=
  fun h =>
    let o := m h in
    match value o with
    | Ok a =>
        let o' := k a (heap o) in
        Outcome (value o') (heap o') (output o ++ output o')
    | Raise e => Outcome (Raise e) (heap o) (output o)
    end.

Definition raise {A} (e : exception) : M Obj Line A :=
  fun h => Outcome (Raise e) h [].

(** A call into a library that returns or raises, and touches nothing. *)
Definition lift {A} (r : result A) : M Obj Line A :=
  fun h => Outcome r h [].

Definition print (l : Line) : M Obj Line unit :=
  fun h => Outcome (Ok tt) h [l].

(** A new object, at a reference that is not in use. *)
Definition alloc (o : Obj) : M Obj Line loc :=
  fun h => let l := fresh (dom h) in Outcome (Ok l) (<[l := o]> h) [].

Definition deref (l : loc) : M Obj Line Obj :=
  fun h =>
    match h !! l with
    | Some o => Outcome (Ok o) h []
    | None => Outcome (Raise (TypeError "no object at this reference")) h []
    end.

End Operations.

#[global] Instance M_ret {Obj Line} : MRet (M Obj Line) := @ret Obj Line.
#[global] Instance M_bind {Obj Line} : MBind (M Obj Line) :=
  fun A B k m => bind m k.

End Py.

Export Py.

(** ** numpy arrays of dimension 0 and 1 *)

Module Numpy.

(** [np.asarray] of a Python float is an array of dimension 0; of a
    sequence of floats, an array of dimension 1. *)
Inductive ndarray : Type :=
| Scalar (x : float64)
| Vector (v : list float64).

Definition elements (a : ndarray) : list float64 :=
  match a with
  | Scalar x => [x]
  | Vector v => v
  end.

(** A function applied element by element keeps the shape. *)
Definition apply (f : float64 -> float64) (a : ndarray) : ndarray :=
  match a with
  | Scalar x => Scalar (f x)
  | Vector v => Vector (map f v)
  end.

(** [np.any(a < s)] and [np.any(a > s)] *)
Definition any_lt (a : ndarray) (s : scalar) : bool :=
  existsb (fun x => (x <? as_float64 s)%f64) (elements a).

Definition any_gt (a : ndarray) (s : scalar) : bool :=
  existsb (fun x => (x >? as_float64 s)%f64) (elements a).

End Numpy.

Export Numpy.

(** ** scipy's [interp1d] *)

Module Scipy.

(** [interp1d(x, y, kind=..., bounds_error=..., fill_value=...)] builds an
    interpolant from two arrays, or raises.  The interpolant is a
    function of one number: called on an array, it is applied to each
    element.  scipy is not part of the repository: the program is
    modelled over any implementation of this interface. *)
Class Interp1d : Type :=
  interp1d : list float64 -> list float64 -> string -> bool -> string ->
             result (float64 -> float64).

End Scipy.

Export Scipy.

(** ** A reference interpolator *)

Module NaturalSpline.

(** One polynomial piece [a + b dx + c dx^2 + d dx^3], [dx = x - knot]. *)
Record piece : Type := Piece {
  knot : float64;
  coef_a : float64;
  coef_b : float64;
  coef_c : float64;
  coef_d : float64
}.

Definition two : float64 := of_int 2.
Definition three : float64 := of_int 3.

(** Differences of consecutive elements. *)
Fixpoint diffs (xs : list float64) : list float64 :=
  match xs with
  | x0 :: ((x1 :: _) as rest) => sub x1 x0 :: diffs rest
  | _ => []
  end.

(** Elimination for the tridiagonal system of the second-derivative
    coefficients [c_1 .. c_(n-1)], with [c_0 = c_n = 0]:
    [h_(i-1) c_(i-1) + 2 (h_(i-1) + h_i) c_i + h_i c_(i+1) = alpha_i]. *)
Fixpoint sweep (mu z : float64) (hs alphas : list float64) {struct hs}
  : list (float64 * float64) :=
  match hs, alphas with
  | h_prev :: ((h :: _) as hs'), alpha :: alphas' =>
      let l := sub (mul two (add h_prev h)) (mul h_prev mu) in
      let mu' := div h l in
      let z' := div (sub alpha (mul h_prev z)) l in
      (mu', z') :: sweep mu' z' hs' alphas'
  | _, _ => []
  end.

(** Back substitution: [c_j = z_j - mu_j c_(j+1)], from [c_n = 0]. *)
Definition back (mz : list (float64 * float64)) : list float64 :=
  fold_right (fun '(mu, z) cs => sub z (mul mu (hd zero cs)) :: cs) [zero] mz.

Fixpoint pieces (xs ys hs slopes cs : list float64) {struct xs} : list piece :=
  match xs, ys, hs, slopes, cs with
  | x :: xs', y :: ys', h :: hs', s :: slopes', c :: ((c' :: _) as cs') =>
      Piece x y
            (sub s (div (mul h (add c' (mul two c))) three))
            c
            (div (sub c' c) (mul three h))
        :: pieces xs' ys' hs' slopes' cs'
  | _, _, _, _, _ => []
  end.

Definition build (xs ys : list float64) : list piece :=
  let hs := diffs xs in
  let slopes := zip_with div (diffs ys) hs in
  let alphas := map (mul three) (diffs slopes) in
  let cs := zero :: back (sweep zero zero hs alphas) in
  pieces xs ys hs slopes cs.

(** The piece that governs [x]: the last one whose knot is not above
    [x]; the first piece below the first knot, the last piece beyond the
    last knot. *)
Fixpoint locate (x : float64) (current : piece) (rest : list piece) : piece :=
  match rest with
  | [] => current
  | p :: rest' => if (knot p <=? x)%f64 then locate x p rest' else current
  end.

Definition horner (p : piece) (x : float64) : float64 :=
  let dx := sub x (knot p) in
  add (coef_a p)
      (mul dx (add (coef_b p) (mul dx (add (coef_c p) (mul dx (coef_d p)))))).

Definition eval (ps : list piece) (x : float64) : float64 :=
  match ps with
  | [] => nan
  | p :: rest => horner (locate x p rest) x
  end.

(** The points in ascending order of abscissa. *)
Fixpoint insert_point (p : float64 * float64) (sorted : list (float64 * float64))
  : list (float64 * float64) :=
  match sorted with
  | [] => [p]
  | q :: rest =>
      if (p.1 <=? q.1)%f64 then p :: q :: rest
      else q :: insert_point p rest
  end.

Definition sort_points (ps : list (float64 * float64)) : list (float64 * float64) :=
  fold_right insert_point [] ps.

Fixpoint strictly_increasing (xs : list float64) : bool :=
  match xs with
  | x0 :: ((x1 :: _) as rest) => (x0 <? x1)%f64 && strictly_increasing rest
  | _ => true
  end.

(** Modelled from the spec: [scipy.interpolate.interp1d] is a library
    routine that the repository calls and does not contain.  This
    interpolator is written from section 4.2 of the specification: a
    natural cubic spline through the points (second derivative zero at
    the two end knots, the tridiagonal system solved by elimination),
    extended beyond the outermost knots by the boundary piece, on a
    strictly ordered axis.  With fewer than 4 points it fails with the
    error the specification names, [InsufficientDataError] (sections 4.2
    and 7); the program defines no such error.  It computes in binary64
    arithmetic.  Only the configuration the program uses is covered:
    [kind='cubic'], [bounds_error=False], [fill_value='extrapolate']. *)
Definition reference : Interp1d :=
  fun x y kind bounds_error fill_value =>
    if negb (String.eqb kind "cubic") || bounds_error
       || negb (String.eqb fill_value "extrapolate")
    then Raise (NotImplementedError "configuration not covered")
    else if negb (length x =? length y)%nat
    then Raise (ValueError "x and y arrays must be equal in length")
    else if (length x <? 4)%nat
    then Raise (InsufficientDataError "fewer points than cubic interpolation requires")
    else
      let points := sort_points (zip x y) in
      if strictly_increasing points.*1
      then Ok (eval (build points.*1 points.*2))
      else Raise (ValueError "Expect x to not have duplicates").

End NaturalSpline.

(** ** The program *)

(** The text embedded in [load_bolometric_data] (its local [data]), as it
    stands between the triple quotes: one row per line, the fields
    [B_V logT BC T]. *)
Definition data_text : string := "
-0.35 4.7538 -4.720 56728
-0.34 4.7031 -4.506 50477
-0.33 4.6551 -4.197 45196
-0.32 4.6098 -3.861 40719
-0.31 4.5670 -3.534 36897
-0.30 4.5266 -3.234 33620
-0.29 4.4884 -2.966 30789
-0.28 4.4523 -2.730 28333
-0.27 4.4183 -2.523 26199
-0.26 4.3863 -2.341 24338
-0.25 4.3561 -2.177 22703
-0.24 4.3276 -2.028 21261
-0.23 4.3008 -1.891 19989
-0.22 4.2755 -1.762 18858
-0.21 4.2517 -1.641 17852
-0.20 4.2294 -1.525 16958
-0.19 4.2083 -1.414 16154
-0.18 4.1885 -1.307 15434
-0.17 4.1699 -1.205 14787
-0.16 4.1524 -1.107 14203
-0.15 4.1360 -1.013 13677
-0.14 4.1205 -0.923 13197
-0.13 4.1060 -0.839 12764
-0.12 4.0923 -0.759 12368
-0.11 4.0795 -0.684 12008
-0.10 4.0674 -0.614 11678
-0.09 4.0560 -0.549 11376
-0.08 4.0453 -0.488 11099
-0.07 4.0353 -0.432 10846
-0.06 4.0258 -0.381 10612
-0.05 4.0169 -0.334 10396
-0.04 4.0084 -0.290 10195
-0.03 4.0005 -0.252 10011
-0.02 3.9930 -0.216 9840
-0.01 3.9859 -0.184 9680
0.00 3.9791 -0.155 9530
0.01 3.9728 -0.129 9392
0.02 3.9667 -0.106 9261
0.03 3.9609 -0.085 9139
0.04 3.9555 -0.067 9026
0.05 3.9502 -0.050 8916
0.06 3.9452 -0.036 8814
0.07 3.9404 -0.024 8717
0.08 3.9358 -0.013 8625
0.09 3.9314 -0.004 8538
0.10 3.9271 0.004 8454
0.11 3.9229 0.010 8373
0.12 3.9189 0.015 8296
0.13 3.9150 0.019 8222
0.14 3.9113 0.022 8152
0.15 3.9076 0.024 8083
0.16 3.9040 0.026 8016
0.17 3.9004 0.028 7950
0.18 3.8969 0.029 7886
0.19 3.8935 0.031 7825
0.20 3.8902 0.032 7766
0.21 3.8869 0.033 7707
0.22 3.8836 0.033 7648
0.23 3.8804 0.034 7592
0.24 3.8771 0.034 7535
0.25 3.8740 0.035 7481
0.26 3.8708 0.035 7426
0.27 3.8676 0.035 7372
0.28 3.8645 0.035 7319
0.29 3.8614 0.035 7267
0.30 3.8583 0.034 7216
0.31 3.8552 0.034 7164
0.32 3.8521 0.033 7113
0.33 3.8490 0.032 7063
0.34 3.8460 0.031 7014
0.35 3.8429 0.030 6964
0.36 3.8399 0.028 6916
0.37 3.8368 0.026 6867
0.38 3.8338 0.025 6820
0.39 3.8307 0.022 6771
0.40 3.8277 0.020 6725
0.41 3.8247 0.018 6678
0.42 3.8217 0.015 6632
0.43 3.8187 0.012 6587
0.44 3.8157 0.009 6541
0.45 3.8127 0.006 6496
0.46 3.8098 0.003 6453
0.47 3.8068 -0.001 6409
0.48 3.8039 -0.004 6366
0.49 3.8010 -0.008 6324
0.50 3.7981 -0.012 6282
0.51 3.7952 -0.016 6240
0.52 3.7923 -0.021 6198
0.53 3.7895 -0.025 6158
0.54 3.7866 -0.030 6117
0.55 3.7838 -0.035 6078
0.56 3.7811 -0.039 6040
0.57 3.7783 -0.045 6002
0.58 3.7756 -0.050 5964
0.59 3.7729 -0.055 5927
0.60 3.7702 -0.061 5891
0.61 3.7676 -0.067 5855
0.62 3.7649 -0.073 5819
0.63 3.7623 -0.079 5784
0.64 3.7598 -0.085 5751
0.65 3.7572 -0.091 5717
0.66 3.7547 -0.098 5684
0.67 3.7523 -0.104 5653
0.68 3.7498 -0.111 5620
0.69 3.7474 -0.117 5589
0.70 3.7450 -0.124 5559
0.71 3.7426 -0.132 5528
0.72 3.7403 -0.139 5499
0.73 3.7380 -0.146 5470
0.74 3.7358 -0.153 5442
0.75 3.7335 -0.161 5413
0.76 3.7313 -0.168 5386
0.77 3.7291 -0.176 5359
0.78 3.7270 -0.184 5333
0.79 3.7249 -0.192 5307
0.80 3.7228 -0.200 5282
0.81 3.7207 -0.208 5256
0.82 3.7186 -0.216 5231
0.83 3.7166 -0.225 5207
0.84 3.7146 -0.233 5183
0.85 3.7126 -0.242 5159
0.86 3.7107 -0.250 5136
0.87 3.7088 -0.259 5114
0.88 3.7068 -0.268 5090
0.89 3.7049 -0.277 5068
0.90 3.7031 -0.285 5047
0.91 3.7012 -0.295 5025
0.92 3.6994 -0.304 5004
0.93 3.6976 -0.313 4984
0.94 3.6958 -0.322 4963
0.95 3.6940 -0.332 4943
0.96 3.6922 -0.342 4922
0.97 3.6904 -0.352 4902
0.98 3.6887 -0.361 4883
0.99 3.6869 -0.372 4862
1.00 3.6852 -0.382 4843
1.01 3.6835 -0.392 4825
1.02 3.6818 -0.403 4806
1.03 3.6800 -0.414 4786
1.04 3.6783 -0.426 4767
1.05 3.6766 -0.437 4748
1.06 3.6750 -0.448 4731
1.07 3.6733 -0.459 4713
1.08 3.6716 -0.471 4694
1.09 3.6699 -0.482 4676
1.10 3.6682 -0.494 4658
1.11 3.6666 -0.505 4640
1.12 3.6649 -0.517 4622
1.13 3.6633 -0.528 4605
1.14 3.6616 -0.540 4587
1.15 3.6599 -0.552 4569
1.16 3.6583 -0.564 4553
1.17 3.6566 -0.576 4535
1.18 3.6550 -0.588 4518
1.19 3.6533 -0.601 4500
1.20 3.6516 -0.614 4483
1.21 3.6500 -0.626 4466
1.22 3.6483 -0.640 4449
1.23 3.6467 -0.652 4433
1.24 3.6450 -0.666 4415
1.25 3.6434 -0.679 4399
1.26 3.6417 -0.694 4382
1.27 3.6401 -0.707 4366
1.28 3.6384 -0.722 4349
1.29 3.6368 -0.736 4333
1.30 3.6351 -0.752 4316
1.31 3.6335 -0.766 4300
1.32 3.6318 -0.782 4283
1.33 3.6301 -0.798 4266
1.34 3.6285 -0.814 4251
1.35 3.6268 -0.831 4234
1.36 3.6251 -0.848 4217
1.37 3.6235 -0.865 4202
1.38 3.6218 -0.883 4186
1.39 3.6201 -0.901 4169
1.40 3.6184 -0.920 4153
1.41 3.6167 -0.939 4137
1.42 3.6149 -0.960 4120
1.43 3.6132 -0.980 4103
1.44 3.6114 -1.002 4086
1.45 3.6096 -1.024 4070
1.46 3.6078 -1.047 4053
1.47 3.6060 -1.071 4036
1.48 3.6041 -1.096 4018
1.49 3.6022 -1.122 4001
1.50 3.6002 -1.150 3982
1.51 3.5982 -1.178 3964
1.52 3.5961 -1.209 3945
1.53 3.5940 -1.241 3926
1.54 3.5918 -1.276 3906
1.55 3.5895 -1.312 3885
1.56 3.5872 -1.350 3865
1.57 3.5847 -1.393 3843
1.58 3.5822 -1.437 3821
1.59 3.5795 -1.486 3797
1.60 3.5767 -1.539 3773
1.61 3.5738 -1.595 3748
1.62 3.5707 -1.658 3721
1.63 3.5674 -1.728 3693
1.64 3.5640 -1.802 3664
1.65 3.5604 -1.885 3634
1.66 3.5565 -1.978 3601
1.67 3.5525 -2.078 3568
1.68 3.5482 -2.191 3533
1.69 3.5436 -2.318 3496
1.70 3.5387 -2.460 3457
1.71 3.5335 -2.620 3415
1.72 3.5279 -2.803 3372
1.73 3.5220 -3.007 3326
1.74 3.5157 -3.239 3278
1.75 3.5090 -3.502 3228
1.76 3.5018 -3.805 3175
1.77 3.4941 -4.152 3119
1.78 3.4860 -4.544 3061
1.79 3.4772 -5.004 3000
1.80 3.4678 -5.535 2936
".

(** The lines the class prints.  The numbers a line shows are kept as they
    are, not formatted. *)
Inductive line : Type :=
| Warning_Temperature_outside_range (lo hi : scalar)
| Warning_logT_outside_range (lo hi : scalar)
| Warning_BV_outside_range (lo hi : scalar)
| Extrapolation_will_be_used.

(** The attributes of an instance of the class [BolometricCorrection]. *)
Record BolometricCorrection : Type := {
  data : loc;
  bc_from_T : float64 -> float64;
  bc_from_logT : float64 -> float64;
  bc_from_BV : float64 -> float64;
  T_min : scalar;
  T_max : scalar;
  logT_min : scalar;
  logT_max : scalar;
  BV_min : scalar;
  BV_max : scalar
}.

Inductive object : Type :=
| DataFrameObj (df : DataFrame)
| BolometricCorrectionObj (self : BolometricCorrection).

Abbreviation Py := (M object line).

Definition get_frame (l : loc) : Py DataFrame :=
  o ← deref l;
  match o with
  | DataFrameObj df => mret df
  | _ => raise (TypeError "not a DataFrame")
  end.

Definition get_self (l : loc) : Py BolometricCorrection :=
  o ← deref l;
  match o with
  | BolometricCorrectionObj self => mret self
  | _ => raise (TypeError "not a BolometricCorrection")
  end.

(** [data.copy()]: a new frame with the same rows. *)
Definition DataFrame_copy (d : loc) : Py loc :=
  df ← get_frame d;
  alloc (DataFrameObj df).

(** [data.sort_values(by)]: a new frame; the frame it is called on is
    left as it is ([inplace=False]). *)
Definition DataFrame_sort_values (d : loc) (by_ : column) : Py loc :=
  df ← get_frame d;
  alloc (DataFrameObj (sort_values df by_)).

(** [data[c]] *)
Definition DataFrame_getitem (d : loc) (c : column) : Py Series :=
  df ← get_frame d;
  mret (getitem df c).

(** [pd.read_csv(StringIO(text.strip()), ...)], as a new frame. *)
Definition read_frame (text : string) : Py loc :=
  match read_csv (strip (list_ascii_of_string text)) with
  | Some df => alloc (DataFrameObj df)
  | None => raise (ValueError "text not covered by the model of read_csv")
  end.

Definition load_bolometric_data : Py loc := read_frame data_text.

Section Program.

Context `{Interp1d}.

(** [BolometricCorrection(data)]: the attributes are computed in the
    order of [__init__], and the instance is returned once all of them
    are set; an exception on the way leaves no instance. *)
Definition __init__ (data : loc) : Py loc :=
  self_data ← DataFrame_copy data;
  self_data ← DataFrame_sort_values self_data T;
  x ← DataFrame_getitem self_data T;
  y ← DataFrame_getitem self_data BC;
  bc_from_T ← lift (interp1d (to_float_array x) (to_float_array y)
                             "cubic" false "extrapolate");
  x ← DataFrame_getitem self_data logT;
  y ← DataFrame_getitem self_data BC;
  bc_from_logT ← lift (interp1d (to_float_array x) (to_float_array y)
                                "cubic" false "extrapolate");
  x ← DataFrame_getitem self_data B_V;
  y ← DataFrame_getitem self_data BC;
  bc_from_BV ← lift (interp1d (to_float_array x) (to_float_array y)
                              "cubic" false "extrapolate");
  t ← DataFrame_getitem self_data T;
  logt ← DataFrame_getitem self_data logT;
  b_v ← DataFrame_getitem self_data B_V;
  alloc (BolometricCorrectionObj
           {| data := self_data;
              bc_from_T := bc_from_T;
              bc_from_logT := bc_from_logT;
              bc_from_BV := bc_from_BV;
              T_min := Series_min t; T_max := Series_max t;
              logT_min := Series_min logt; logT_max := Series_max logt;
              BV_min := Series_min b_v; BV_max := Series_max b_v |}).

End Program.

(** The three query methods.  The argument is the array that
    [np.asarray] makes of what the caller passes: of dimension 0 for a
    number, of dimension 1 for a sequence. *)
Definition get_BC_from_T (self : loc) (temperature : ndarray) (verbose : bool)
  : Py ndarray :=
  me ← get_self self;
  let T := temperature in
  (if verbose && (any_lt T (T_min me) || any_gt T (T_max me)) then
     print (Warning_Temperature_outside_range (T_min me) (T_max me));;
     print Extrapolation_will_be_used
   else mret ());;
  mret (apply (bc_from_T me) T).

Definition get_BC_from_logT (self : loc) (log_temperature : ndarray) (verbose : bool)
  : Py ndarray :=
  me ← get_self self;
  let logT := log_temperature in
  (if verbose && (any_lt logT (logT_min me) || any_gt logT (logT_max me)) then
     print (Warning_logT_outside_range (logT_min me) (logT_max me));;
     print Extrapolation_will_be_used
   else mret ());;
  mret (apply (bc_from_logT me) logT).

Definition get_BC_from_BV (self : loc) (b_v_color : ndarray) (verbose : bool)
  : Py ndarray :=
  me ← get_self self;
  let BV := b_v_color in
  (if verbose && (any_lt BV (BV_min me) || any_gt BV (BV_max me)) then
     print (Warning_BV_outside_range (BV_min me) (BV_max me));;
     print Extrapolation_will_be_used
   else mret ());;
  mret (apply (bc_from_BV me) BV).

(** ** Vocabulary of the properties *)

(** The specification's [extrapolated] flag of a query is the warning of
    the source: the query, called with [verbose=True], printed it. *)
Definition extrapolated {A} (o : outcome object line A) : bool :=
  match output o with
  | [] => false
  | _ :: _ => true
  end.

(** [|x - y| <= tol] *)
Definition within (tol x y : float64) : bool :=
  (Float64.abs (sub x y) <=? tol)%f64.

(** The attributes [__init__] computes from the sorted frame stored at
    [self_data]. *)
Definition attributes `{Interp1d} (self_data : loc) (sorted : DataFrame)
  : result BolometricCorrection :=
  let t := getitem sorted T in
  let logt := getitem sorted logT in
  let b_v := getitem sorted B_V in
  let bc := to_float_array (getitem sorted BC) in
  match interp1d (to_float_array t) bc "cubic" false "extrapolate" with
  | Raise e => Raise e
  | Ok f_T =>
      match interp1d (to_float_array logt) bc "cubic" false "extrapolate" with
      | Raise e => Raise e
      | Ok f_logT =>
          match interp1d (to_float_array b_v) bc "cubic" false "extrapolate" with
          | Raise e => Raise e
          | Ok f_BV =>
              Ok {| data := self_data;
                    bc_from_T := f_T;
                    bc_from_logT := f_logT;
                    bc_from_BV := f_BV;
                    T_min := Series_min t; T_max := Series_max t;
                    logT_min := Series_min logt; logT_max := Series_max logt;
                    BV_min := Series_min b_v; BV_max := Series_max b_v |}
          end
      end
  end.

(** The embedded table as [read_csv] returns it, in the order of the
    text ([read_csv_data_text] below): each decimal is the binary64 value
    nearest to it. *)
Definition embedded_table : DataFrame :=
  [
    mkRow (of_decimal true 35 2) (of_decimal false 47538 4) (of_decimal true 4720 3) 56728;
    mkRow (of_decimal true 34 2) (of_decimal false 47031 4) (of_decimal true 4506 3) 50477;
    mkRow (of_decimal true 33 2) (of_decimal false 46551 4) (of_decimal true 4197 3) 45196;
    mkRow (of_decimal true 32 2) (of_decimal false 46098 4) (of_decimal true 3861 3) 40719;
    mkRow (of_decimal true 31 2) (of_decimal false 45670 4) (of_decimal true 3534 3) 36897;
    mkRow (of_decimal true 30 2) (of_decimal false 45266 4) (of_decimal true 3234 3) 33620;
    mkRow (of_decimal true 29 2) (of_decimal false 44884 4) (of_decimal true 2966 3) 30789;
    mkRow (of_decimal true 28 2) (of_decimal false 44523 4) (of_decimal true 2730 3) 28333;
    mkRow (of_decimal true 27 2) (of_decimal false 44183 4) (of_decimal true 2523 3) 26199;
    mkRow (of_decimal true 26 2) (of_decimal false 43863 4) (of_decimal true 2341 3) 24338;
    mkRow (of_decimal true 25 2) (of_decimal false 43561 4) (of_decimal true 2177 3) 22703;
    mkRow (of_decimal true 24 2) (of_decimal false 43276 4) (of_decimal true 2028 3) 21261;
    mkRow (of_decimal true 23 2) (of_decimal false 43008 4) (of_decimal true 1891 3) 19989;
    mkRow (of_decimal true 22 2) (of_decimal false 42755 4) (of_decimal true 1762 3) 18858;
    mkRow (of_decimal true 21 2) (of_decimal false 42517 4) (of_decimal true 1641 3) 17852;
    mkRow (of_decimal true 20 2) (of_decimal false 42294 4) (of_decimal true 1525 3) 16958;
    mkRow (of_decimal true 19 2) (of_decimal false 42083 4) (of_decimal true 1414 3) 16154;
    mkRow (of_decimal true 18 2) (of_decimal false 41885 4) (of_decimal true 1307 3) 15434;
    mkRow (of_decimal true 17 2) (of_decimal false 41699 4) (of_decimal true 1205 3) 14787;
    mkRow (of_decimal true 16 2) (of_decimal false 41524 4) (of_decimal true 1107 3) 14203;
    mkRow (of_decimal true 15 2) (of_decimal false 41360 4) (of_decimal true 1013 3) 13677;
    mkRow (of_decimal true 14 2) (of_decimal false 41205 4) (of_decimal true 923 3) 13197;
    mkRow (of_decimal true 13 2) (of_decimal false 41060 4) (of_decimal true 839 3) 12764;
    mkRow (of_decimal true 12 2) (of_decimal false 40923 4) (of_decimal true 759 3) 12368;
    mkRow (of_decimal true 11 2) (of_decimal false 40795 4) (of_decimal true 684 3) 12008;
    mkRow (of_decimal true 10 2) (of_decimal false 40674 4) (of_decimal true 614 3) 11678;
    mkRow (of_decimal true 9 2) (of_decimal false 40560 4) (of_decimal true 549 3) 11376;
    mkRow (of_decimal true 8 2) (of_decimal false 40453 4) (of_decimal true 488 3) 11099;
    mkRow (of_decimal true 7 2) (of_decimal false 40353 4) (of_decimal true 432 3) 10846;
    mkRow (of_decimal true 6 2) (of_decimal false 40258 4) (of_decimal true 381 3) 10612;
    mkRow (of_decimal true 5 2) (of_decimal false 40169 4) (of_decimal true 334 3) 10396;
    mkRow (of_decimal true 4 2) (of_decimal false 40084 4) (of_decimal true 290 3) 10195;
    mkRow (of_decimal true 3 2) (of_decimal false 40005 4) (of_decimal true 252 3) 10011;
    mkRow (of_decimal true 2 2) (of_decimal false 39930 4) (of_decimal true 216 3) 9840;
    mkRow (of_decimal true 1 2) (of_decimal false 39859 4) (of_decimal true 184 3) 9680;
    mkRow (of_decimal false 0 2) (of_decimal false 39791 4) (of_decimal true 155 3) 9530;
    mkRow (of_decimal false 1 2) (of_decimal false 39728 4) (of_decimal true 129 3) 9392;
    mkRow (of_decimal false 2 2) (of_decimal false 39667 4) (of_decimal true 106 3) 9261;
    mkRow (of_decimal false 3 2) (of_decimal false 39609 4) (of_decimal true 85 3) 9139;
    mkRow (of_decimal false 4 2) (of_decimal false 39555 4) (of_decimal true 67 3) 9026;
    mkRow (of_decimal false 5 2) (of_decimal false 39502 4) (of_decimal true 50 3) 8916;
    mkRow (of_decimal false 6 2) (of_decimal false 39452 4) (of_decimal true 36 3) 8814;
    mkRow (of_decimal false 7 2) (of_decimal false 39404 4) (of_decimal true 24 3) 8717;
    mkRow (of_decimal false 8 2) (of_decimal false 39358 4) (of_decimal true 13 3) 8625;
    mkRow (of_decimal false 9 2) (of_decimal false 39314 4) (of_decimal true 4 3) 8538;
    mkRow (of_decimal false 10 2) (of_decimal false 39271 4) (of_decimal false 4 3) 8454;
    mkRow (of_decimal false 11 2) (of_decimal false 39229 4) (of_decimal false 10 3) 8373;
    mkRow (of_decimal false 12 2) (of_decimal false 39189 4) (of_decimal false 15 3) 8296;
    mkRow (of_decimal false 13 2) (of_decimal false 39150 4) (of_decimal false 19 3) 8222;
    mkRow (of_decimal false 14 2) (of_decimal false 39113 4) (of_decimal false 22 3) 8152;
    mkRow (of_decimal false 15 2) (of_decimal false 39076 4) (of_decimal false 24 3) 8083;
    mkRow (of_decimal false 16 2) (of_decimal false 39040 4) (of_decimal false 26 3) 8016;
    mkRow (of_decimal false 17 2) (of_decimal false 39004 4) (of_decimal false 28 3) 7950;
    mkRow (of_decimal false 18 2) (of_decimal false 38969 4) (of_decimal false 29 3) 7886;
    mkRow (of_decimal false 19 2) (of_decimal false 38935 4) (of_decimal false 31 3) 7825;
    mkRow (of_decimal false 20 2) (of_decimal false 38902 4) (of_decimal false 32 3) 7766;
    mkRow (of_decimal false 21 2) (of_decimal false 38869 4) (of_decimal false 33 3) 7707;
    mkRow (of_decimal false 22 2) (of_decimal false 38836 4) (of_decimal false 33 3) 7648;
    mkRow (of_decimal false 23 2) (of_decimal false 38804 4) (of_decimal false 34 3) 7592;
    mkRow (of_decimal false 24 2) (of_decimal false 38771 4) (of_decimal false 34 3) 7535;
    mkRow (of_decimal false 25 2) (of_decimal false 38740 4) (of_decimal false 35 3) 7481;
    mkRow (of_decimal false 26 2) (of_decimal false 38708 4) (of_decimal false 35 3) 7426;
    mkRow (of_decimal false 27 2) (of_decimal false 38676 4) (of_decimal false 35 3) 7372;
    mkRow (of_decimal false 28 2) (of_decimal false 38645 4) (of_decimal false 35 3) 7319;
    mkRow (of_decimal false 29 2) (of_decimal false 38614 4) (of_decimal false 35 3) 7267;
    mkRow (of_decimal false 30 2) (of_decimal false 38583 4) (of_decimal false 34 3) 7216;
    mkRow (of_decimal false 31 2) (of_decimal false 38552 4) (of_decimal false 34 3) 7164;
    mkRow (of_decimal false 32 2) (of_decimal false 38521 4) (of_decimal false 33 3) 7113;
    mkRow (of_decimal false 33 2) (of_decimal false 38490 4) (of_decimal false 32 3) 7063;
    mkRow (of_decimal false 34 2) (of_decimal false 38460 4) (of_decimal false 31 3) 7014;
    mkRow (of_decimal false 35 2) (of_decimal false 38429 4) (of_decimal false 30 3) 6964;
    mkRow (of_decimal false 36 2) (of_decimal false 38399 4) (of_decimal false 28 3) 6916;
    mkRow (of_decimal false 37 2) (of_decimal false 38368 4) (of_decimal false 26 3) 6867;
    mkRow (of_decimal false 38 2) (of_decimal false 38338 4) (of_decimal false 25 3) 6820;
    mkRow (of_decimal false 39 2) (of_decimal false 38307 4) (of_decimal false 22 3) 6771;
    mkRow (of_decimal false 40 2) (of_decimal false 38277 4) (of_decimal false 20 3) 6725;
    mkRow (of_decimal false 41 2) (of_decimal false 38247 4) (of_decimal false 18 3) 6678;
    mkRow (of_decimal false 42 2) (of_decimal false 38217 4) (of_decimal false 15 3) 6632;
    mkRow (of_decimal false 43 2) (of_decimal false 38187 4) (of_decimal false 12 3) 6587;
    mkRow (of_decimal false 44 2) (of_decimal false 38157 4) (of_decimal false 9 3) 6541;
    mkRow (of_decimal false 45 2) (of_decimal false 38127 4) (of_decimal false 6 3) 6496;
    mkRow (of_decimal false 46 2) (of_decimal false 38098 4) (of_decimal false 3 3) 6453;
    mkRow (of_decimal false 47 2) (of_decimal false 38068 4) (of_decimal true 1 3) 6409;
    mkRow (of_decimal false 48 2) (of_decimal false 38039 4) (of_decimal true 4 3) 6366;
    mkRow (of_decimal false 49 2) (of_decimal false 38010 4) (of_decimal true 8 3) 6324;
    mkRow (of_decimal false 50 2) (of_decimal false 37981 4) (of_decimal true 12 3) 6282;
    mkRow (of_decimal false 51 2) (of_decimal false 37952 4) (of_decimal true 16 3) 6240;
    mkRow (of_decimal false 52 2) (of_decimal false 37923 4) (of_decimal true 21 3) 6198;
    mkRow (of_decimal false 53 2) (of_decimal false 37895 4) (of_decimal true 25 3) 6158;
    mkRow (of_decimal false 54 2) (of_decimal false 37866 4) (of_decimal true 30 3) 6117;
    mkRow (of_decimal false 55 2) (of_decimal false 37838 4) (of_decimal true 35 3) 6078;
    mkRow (of_decimal false 56 2) (of_decimal false 37811 4) (of_decimal true 39 3) 6040;
    mkRow (of_decimal false 57 2) (of_decimal false 37783 4) (of_decimal true 45 3) 6002;
    mkRow (of_decimal false 58 2) (of_decimal false 37756 4) (of_decimal true 50 3) 5964;
    mkRow (of_decimal false 59 2) (of_decimal false 37729 4) (of_decimal true 55 3) 5927;
    mkRow (of_decimal false 60 2) (of_decimal false 37702 4) (of_decimal true 61 3) 5891;
    mkRow (of_decimal false 61 2) (of_decimal false 37676 4) (of_decimal true 67 3) 5855;
    mkRow (of_decimal false 62 2) (of_decimal false 37649 4) (of_decimal true 73 3) 5819;
    mkRow (of_decimal false 63 2) (of_decimal false 37623 4) (of_decimal true 79 3) 5784;
    mkRow (of_decimal false 64 2) (of_decimal false 37598 4) (of_decimal true 85 3) 5751;
    mkRow (of_decimal false 65 2) (of_decimal false 37572 4) (of_decimal true 91 3) 5717;
    mkRow (of_decimal false 66 2) (of_decimal false 37547 4) (of_decimal true 98 3) 5684;
    mkRow (of_decimal false 67 2) (of_decimal false 37523 4) (of_decimal true 104 3) 5653;
    mkRow (of_decimal false 68 2) (of_decimal false 37498 4) (of_decimal true 111 3) 5620;
    mkRow (of_decimal false 69 2) (of_decimal false 37474 4) (of_decimal true 117 3) 5589;
    mkRow (of_decimal false 70 2) (of_decimal false 37450 4) (of_decimal true 124 3) 5559;
    mkRow (of_decimal false 71 2) (of_decimal false 37426 4) (of_decimal true 132 3) 5528;
    mkRow (of_decimal false 72 2) (of_decimal false 37403 4) (of_decimal true 139 3) 5499;
    mkRow (of_decimal false 73 2) (of_decimal false 37380 4) (of_decimal true 146 3) 5470;
    mkRow (of_decimal false 74 2) (of_decimal false 37358 4) (of_decimal true 153 3) 5442;
    mkRow (of_decimal false 75 2) (of_decimal false 37335 4) (of_decimal true 161 3) 5413;
    mkRow (of_decimal false 76 2) (of_decimal false 37313 4) (of_decimal true 168 3) 5386;
    mkRow (of_decimal false 77 2) (of_decimal false 37291 4) (of_decimal true 176 3) 5359;
    mkRow (of_decimal false 78 2) (of_decimal false 37270 4) (of_decimal true 184 3) 5333;
    mkRow (of_decimal false 79 2) (of_decimal false 37249 4) (of_decimal true 192 3) 5307;
    mkRow (of_decimal false 80 2) (of_decimal false 37228 4) (of_decimal true 200 3) 5282;
    mkRow (of_decimal false 81 2) (of_decimal false 37207 4) (of_decimal true 208 3) 5256;
    mkRow (of_decimal false 82 2) (of_decimal false 37186 4) (of_decimal true 216 3) 5231;
    mkRow (of_decimal false 83 2) (of_decimal false 37166 4) (of_decimal true 225 3) 5207;
    mkRow (of_decimal false 84 2) (of_decimal false 37146 4) (of_decimal true 233 3) 5183;
    mkRow (of_decimal false 85 2) (of_decimal false 37126 4) (of_decimal true 242 3) 5159;
    mkRow (of_decimal false 86 2) (of_decimal false 37107 4) (of_decimal true 250 3) 5136;
    mkRow (of_decimal false 87 2) (of_decimal false 37088 4) (of_decimal true 259 3) 5114;
    mkRow (of_decimal false 88 2) (of_decimal false 37068 4) (of_decimal true 268 3) 5090;
    mkRow (of_decimal false 89 2) (of_decimal false 37049 4) (of_decimal true 277 3) 5068;
    mkRow (of_decimal false 90 2) (of_decimal false 37031 4) (of_decimal true 285 3) 5047;
    mkRow (of_decimal false 91 2) (of_decimal false 37012 4) (of_decimal true 295 3) 5025;
    mkRow (of_decimal false 92 2) (of_decimal false 36994 4) (of_decimal true 304 3) 5004;
    mkRow (of_decimal false 93 2) (of_decimal false 36976 4) (of_decimal true 313 3) 4984;
    mkRow (of_decimal false 94 2) (of_decimal false 36958 4) (of_decimal true 322 3) 4963;
    mkRow (of_decimal false 95 2) (of_decimal false 36940 4) (of_decimal true 332 3) 4943;
    mkRow (of_decimal false 96 2) (of_decimal false 36922 4) (of_decimal true 342 3) 4922;
    mkRow (of_decimal false 97 2) (of_decimal false 36904 4) (of_decimal true 352 3) 4902;
    mkRow (of_decimal false 98 2) (of_decimal false 36887 4) (of_decimal true 361 3) 4883;
    mkRow (of_decimal false 99 2) (of_decimal false 36869 4) (of_decimal true 372 3) 4862;
    mkRow (of_decimal false 100 2) (of_decimal false 36852 4) (of_decimal true 382 3) 4843;
    mkRow (of_decimal false 101 2) (of_decimal false 36835 4) (of_decimal true 392 3) 4825;
    mkRow (of_decimal false 102 2) (of_decimal false 36818 4) (of_decimal true 403 3) 4806;
    mkRow (of_decimal false 103 2) (of_decimal false 36800 4) (of_decimal true 414 3) 4786;
    mkRow (of_decimal false 104 2) (of_decimal false 36783 4) (of_decimal true 426 3) 4767;
    mkRow (of_decimal false 105 2) (of_decimal false 36766 4) (of_decimal true 437 3) 4748;
    mkRow (of_decimal false 106 2) (of_decimal false 36750 4) (of_decimal true 448 3) 4731;
    mkRow (of_decimal false 107 2) (of_decimal false 36733 4) (of_decimal true 459 3) 4713;
    mkRow (of_decimal false 108 2) (of_decimal false 36716 4) (of_decimal true 471 3) 4694;
    mkRow (of_decimal false 109 2) (of_decimal false 36699 4) (of_decimal true 482 3) 4676;
    mkRow (of_decimal false 110 2) (of_decimal false 36682 4) (of_decimal true 494 3) 4658;
    mkRow (of_decimal false 111 2) (of_decimal false 36666 4) (of_decimal true 505 3) 4640;
    mkRow (of_decimal false 112 2) (of_decimal false 36649 4) (of_decimal true 517 3) 4622;
    mkRow (of_decimal false 113 2) (of_decimal false 36633 4) (of_decimal true 528 3) 4605;
    mkRow (of_decimal false 114 2) (of_decimal false 36616 4) (of_decimal true 540 3) 4587;
    mkRow (of_decimal false 115 2) (of_decimal false 36599 4) (of_decimal true 552 3) 4569;
    mkRow (of_decimal false 116 2) (of_decimal false 36583 4) (of_decimal true 564 3) 4553;
    mkRow (of_decimal false 117 2) (of_decimal false 36566 4) (of_decimal true 576 3) 4535;
    mkRow (of_decimal false 118 2) (of_decimal false 36550 4) (of_decimal true 588 3) 4518;
    mkRow (of_decimal false 119 2) (of_decimal false 36533 4) (of_decimal true 601 3) 4500;
    mkRow (of_decimal false 120 2) (of_decimal false 36516 4) (of_decimal true 614 3) 4483;
    mkRow (of_decimal false 121 2) (of_decimal false 36500 4) (of_decimal true 626 3) 4466;
    mkRow (of_decimal false 122 2) (of_decimal false 36483 4) (of_decimal true 640 3) 4449;
    mkRow (of_decimal false 123 2) (of_decimal false 36467 4) (of_decimal true 652 3) 4433;
    mkRow (of_decimal false 124 2) (of_decimal false 36450 4) (of_decimal true 666 3) 4415;
    mkRow (of_decimal false 125 2) (of_decimal false 36434 4) (of_decimal true 679 3) 4399;
    mkRow (of_decimal false 126 2) (of_decimal false 36417 4) (of_decimal true 694 3) 4382;
    mkRow (of_decimal false 127 2) (of_decimal false 36401 4) (of_decimal true 707 3) 4366;
    mkRow (of_decimal false 128 2) (of_decimal false 36384 4) (of_decimal true 722 3) 4349;
    mkRow (of_decimal false 129 2) (of_decimal false 36368 4) (of_decimal true 736 3) 4333;
    mkRow (of_decimal false 130 2) (of_decimal false 36351 4) (of_decimal true 752 3) 4316;
    mkRow (of_decimal false 131 2) (of_decimal false 36335 4) (of_decimal true 766 3) 4300;
    mkRow (of_decimal false 132 2) (of_decimal false 36318 4) (of_decimal true 782 3) 4283;
    mkRow (of_decimal false 133 2) (of_decimal false 36301 4) (of_decimal true 798 3) 4266;
    mkRow (of_decimal false 134 2) (of_decimal false 36285 4) (of_decimal true 814 3) 4251;
    mkRow (of_decimal false 135 2) (of_decimal false 36268 4) (of_decimal true 831 3) 4234;
    mkRow (of_decimal false 136 2) (of_decimal false 36251 4) (of_decimal true 848 3) 4217;
    mkRow (of_decimal false 137 2) (of_decimal false 36235 4) (of_decimal true 865 3) 4202;
    mkRow (of_decimal false 138 2) (of_decimal false 36218 4) (of_decimal true 883 3) 4186;
    mkRow (of_decimal false 139 2) (of_decimal false 36201 4) (of_decimal true 901 3) 4169;
    mkRow (of_decimal false 140 2) (of_decimal false 36184 4) (of_decimal true 920 3) 4153;
    mkRow (of_decimal false 141 2) (of_decimal false 36167 4) (of_decimal true 939 3) 4137;
    mkRow (of_decimal false 142 2) (of_decimal false 36149 4) (of_decimal true 960 3) 4120;
    mkRow (of_decimal false 143 2) (of_decimal false 36132 4) (of_decimal true 980 3) 4103;
    mkRow (of_decimal false 144 2) (of_decimal false 36114 4) (of_decimal true 1002 3) 4086;
    mkRow (of_decimal false 145 2) (of_decimal false 36096 4) (of_decimal true 1024 3) 4070;
    mkRow (of_decimal false 146 2) (of_decimal false 36078 4) (of_decimal true 1047 3) 4053;
    mkRow (of_decimal false 147 2) (of_decimal false 36060 4) (of_decimal true 1071 3) 4036;
    mkRow (of_decimal false 148 2) (of_decimal false 36041 4) (of_decimal true 1096 3) 4018;
    mkRow (of_decimal false 149 2) (of_decimal false 36022 4) (of_decimal true 1122 3) 4001;
    mkRow (of_decimal false 150 2) (of_decimal false 36002 4) (of_decimal true 1150 3) 3982;
    mkRow (of_decimal false 151 2) (of_decimal false 35982 4) (of_decimal true 1178 3) 3964;
    mkRow (of_decimal false 152 2) (of_decimal false 35961 4) (of_decimal true 1209 3) 3945;
    mkRow (of_decimal false 153 2) (of_decimal false 35940 4) (of_decimal true 1241 3) 3926;
    mkRow (of_decimal false 154 2) (of_decimal false 35918 4) (of_decimal true 1276 3) 3906;
    mkRow (of_decimal false 155 2) (of_decimal false 35895 4) (of_decimal true 1312 3) 3885;
    mkRow (of_decimal false 156 2) (of_decimal false 35872 4) (of_decimal true 1350 3) 3865;
    mkRow (of_decimal false 157 2) (of_decimal false 35847 4) (of_decimal true 1393 3) 3843;
    mkRow (of_decimal false 158 2) (of_decimal false 35822 4) (of_decimal true 1437 3) 3821;
    mkRow (of_decimal false 159 2) (of_decimal false 35795 4) (of_decimal true 1486 3) 3797;
    mkRow (of_decimal false 160 2) (of_decimal false 35767 4) (of_decimal true 1539 3) 3773;
    mkRow (of_decimal false 161 2) (of_decimal false 35738 4) (of_decimal true 1595 3) 3748;
    mkRow (of_decimal false 162 2) (of_decimal false 35707 4) (of_decimal true 1658 3) 3721;
    mkRow (of_decimal false 163 2) (of_decimal false 35674 4) (of_decimal true 1728 3) 3693;
    mkRow (of_decimal false 164 2) (of_decimal false 35640 4) (of_decimal true 1802 3) 3664;
    mkRow (of_decimal false 165 2) (of_decimal false 35604 4) (of_decimal true 1885 3) 3634;
    mkRow (of_decimal false 166 2) (of_decimal false 35565 4) (of_decimal true 1978 3) 3601;
    mkRow (of_decimal false 167 2) (of_decimal false 35525 4) (of_decimal true 2078 3) 3568;
    mkRow (of_decimal false 168 2) (of_decimal false 35482 4) (of_decimal true 2191 3) 3533;
    mkRow (of_decimal false 169 2) (of_decimal false 35436 4) (of_decimal true 2318 3) 3496;
    mkRow (of_decimal false 170 2) (of_decimal false 35387 4) (of_decimal true 2460 3) 3457;
    mkRow (of_decimal false 171 2) (of_decimal false 35335 4) (of_decimal true 2620 3) 3415;
    mkRow (of_decimal false 172 2) (of_decimal false 35279 4) (of_decimal true 2803 3) 3372;
    mkRow (of_decimal false 173 2) (of_decimal false 35220 4) (of_decimal true 3007 3) 3326;
    mkRow (of_decimal false 174 2) (of_decimal false 35157 4) (of_decimal true 3239 3) 3278;
    mkRow (of_decimal false 175 2) (of_decimal false 35090 4) (of_decimal true 3502 3) 3228;
    mkRow (of_decimal false 176 2) (of_decimal false 35018 4) (of_decimal true 3805 3) 3175;
    mkRow (of_decimal false 177 2) (of_decimal false 34941 4) (of_decimal true 4152 3) 3119;
    mkRow (of_decimal false 178 2) (of_decimal false 34860 4) (of_decimal true 4544 3) 3061;
    mkRow (of_decimal false 179 2) (of_decimal false 34772 4) (of_decimal true 5004 3) 3000;
    mkRow (of_decimal false 180 2) (of_decimal false 34678 4) (of_decimal true 5535 3) 2936
  ].

(** A heap that holds the embedded table and nothing else, as after
    [data = load_bolometric_data()]. *)
Definition loaded : outcome object line loc := load_bolometric_data ∅.

(** The three query methods differ by their axis only. *)
Inductive axis : Set := Temperature | LogTemperature | ColorIndex.

Definition query (ax : axis) : loc -> ndarray -> bool -> Py ndarray :=
  match ax with
  | Temperature => get_BC_from_T
  | LogTemperature => get_BC_from_logT
  | ColorIndex => get_BC_from_BV
  end.

Definition interpolant (ax : axis) (me : BolometricCorrection) : float64 -> float64 :=
  match ax with
  | Temperature => bc_from_T me
  | LogTemperature => bc_from_logT me
  | ColorIndex => bc_from_BV me
  end.

Definition lower (ax : axis) (me : BolometricCorrection) : scalar :=
  match ax with
  | Temperature => T_min me
  | LogTemperature => logT_min me
  | ColorIndex => BV_min me
  end.

Definition upper (ax : axis) (me : BolometricCorrection) : scalar :=
  match ax with
  | Temperature => T_max me
  | LogTemperature => logT_max me
  | ColorIndex => BV_max me
  end.

Definition warning (ax : axis) (me : BolometricCorrection) : list line :=
  [match ax with
   | Temperature => Warning_Temperature_outside_range (T_min me) (T_max me)
   | LogTemperature => Warning_logT_outside_range (logT_min me) (logT_max me)
   | ColorIndex => Warning_BV_outside_range (BV_min me) (BV_max me)
   end;
   Extrapolation_will_be_used].

(** A value lies outside the bounds an instance records for an axis. *)
Definition outside (ax : axis) (me : BolometricCorrection) (x : float64) : bool :=
  (x <? as_float64 (lower ax me))%f64 || (x >? as_float64 (upper ax me))%f64.

(** The heap after the utility is built from the embedded table with the
    reference interpolator: the table at reference 1, the instance at
    reference 4. *)
Definition reference_heap : gmap loc object :=
  heap (__init__ (H := NaturalSpline.reference) 1%positive (heap loaded)).

(** The number a query on one value returns, if it returns one. *)
Definition scalar_value (o : outcome object line ndarray) : option float64 :=
  match value o with
  | Ok (Scalar y) => Some y
  | _ => None
  end.

(** The abscissa of a row on an axis, as a query value. *)
Definition abscissa (ax : axis) (r : Row) : float64 :=
  match ax with
  | Temperature => of_int (val_T r)
  | LogTemperature => val_logT r
  | ColorIndex => val_B_V r
  end.

(** The tolerance of the specification, [1e-9]. *)
Definition tolerance : float64 := of_decimal false 1 9.

(** Queried at the values of row [r], the three axes give the tabulated
    correction of the row within [tol], hence the same number within
    [tol], and none of the three queries is flagged. *)
Definition reproduced (h : gmap loc object) (self : loc) (tol : float64) (r : Row) : bool :=
  let q ax := query ax self (Scalar (abscissa ax r)) true h in
  match scalar_value (q Temperature), scalar_value (q LogTemperature),
        scalar_value (q ColorIndex) with
  | Some y1, Some y2, Some y3 =>
      within tol y1 (val_BC r) && within tol y2 (val_BC r) && within tol y3 (val_BC r)
      && within tol y1 y2 && within tol y2 y3 && within tol y1 y3
      && negb (extrapolated (q Temperature))
      && negb (extrapolated (q LogTemperature))
      && negb (extrapolated (q ColorIndex))
  | _, _, _ => false
  end.

(** The records of the embedded text, before the decimals are turned
    into binary64 values. *)
Definition embedded_records : list (list number) :=
  default [] (records (strip (list_ascii_of_string data_text))).

(** Row [r1] comes strictly before row [r2] on the three axes at once:
    lower temperature, lower log-temperature, higher colour index. *)
Definition row_lt (r1 r2 : Row) : bool :=
  (val_T r1 <? val_T r2) && (val_logT r1 <? val_logT r2)%f64
  && (val_B_V r2 <? val_B_V r1)%f64.

(** Every element is related to the next one. *)
Fixpoint chain {A : Type} (R : A -> A -> bool) (l : list A) : bool :=
  match l with
  | x :: ((y :: _) as l') => R x y && chain R l'
  | _ => true
  end.

(** Bounds on large powers, computed on a few decimal digits. *)
Module DecimalBounds.

(** A number [v] known by [lo * 10^ex <= v <= hi * 10^ex]. *)
Record bounds : Type := Bounds { lo : Z; hi : Z; ex : Z }.

Definition contains (b : bounds) (v : Z) : Prop :=
  0 <= lo b /\ 0 <= ex b /\ lo b * 10 ^ ex b <= v <= hi b * 10 ^ ex b.

Definition digits_kept : Z := 16.

(** Drop the low digits beyond those kept, rounding [lo] down and [hi]
    up. *)
Definition trim (b : bounds) : bounds :=
  let s := Z.max 0 (Z.log2 (hi b) * 3 / 10 - digits_kept) in
  Bounds (lo b / 10 ^ s) ((hi b + 10 ^ s - 1) / 10 ^ s) (ex b + s).

Definition times (a b : bounds) : bounds :=
  trim (Bounds (lo a * lo b) (hi a * hi b) (ex a + ex b)).

Definition exactly (t : Z) : bounds := Bounds t t 0.

Fixpoint power (t : Z) (n : positive) : bounds :=
  match n with
  | xH => exactly t
  | xO n' => let h := power t n' in times h h
  | xI n' => let h := power t n' in times (times h h) (exactly t)
  end.

(** Sufficient tests for [t^n <= 10^m] and for [10^m < t^n]. *)
Definition power_le_power10 (t : Z) (n : positive) (m : Z) : bool :=
  let b := power t n in (ex b <=? m) && (hi b <=? 10 ^ (m - ex b)).

Definition power10_lt_power (m : Z) (t : Z) (n : positive) : bool :=
  let b := power t n in (ex b <=? m) && (10 ^ (m - ex b) <? lo b).

End DecimalBounds.

(** A record [B_V logT BC T] whose log-temperature is [m / 10^4] and
    whose temperature [t] is the integer part of [10^(m / 10^4)], that is
    [t^10000 <= 10^m < (t + 1)^10000]. *)
Definition temperature_is_floor (rec : list number) : bool :=
  match rec with
  | [_; (false, m, Some 4%nat); _; (false, t, None)] =>
      (0 <=? t)
      && DecimalBounds.power_le_power10 t 10000 m
      && DecimalBounds.power10_lt_power m (t + 1) 10000
  | _ => false
  end.

(** ** The console programs: [interactive_mode], [batch_process], [main] *)

(** Python's [str] methods the console programs use, on texts whose
    characters are code points below 256. *)
Module Str.

(** [str.isspace] on one character: the white space of [strip()] and
    [split()] called without argument. *)
Definition isspace (c : ascii) : bool :=
  match N_of_ascii c with
  | 9%N | 10%N | 11%N | 12%N | 13%N | 28%N | 29%N | 30%N | 31%N | 32%N
  | 133%N | 160%N => true
  | _ => false
  end.

Fixpoint lstrip (s : list ascii) : list ascii :=
  match s with
  | c :: s' => if isspace c then lstrip s' else s
  | [] => []
  end.

(** [s.strip()] *)
Definition strip (s : list ascii) : list ascii :=
  reverse (lstrip (reverse (lstrip s))).

Fixpoint split_from (cur : list ascii) (s : list ascii) : list (list ascii) :=
  match s with
  | [] => match cur with [] => [] | _ => [reverse cur] end
  | c :: s' =>
      if isspace c then
        match cur with
        | [] => split_from [] s'
        | _ => reverse cur :: split_from [] s'
        end
      else split_from (c :: cur) s'
  end.

(** [s.split()]: the maximal runs of characters that are not white
    space. *)
Definition split (s : list ascii) : list (list ascii) := split_from [] s.

(** [str.lower] on one character: the capital letters A to Z and the
    capital letters of Latin-1 (192 to 222, but the multiplication sign
    215) go 32 code points up. *)
Definition lower_char (c : ascii) : ascii :=
  let n := N_of_ascii c in
  if ((65 <=? n) && (n <=? 90) || (192 <=? n) && (n <=? 222) && negb (n =? 215))%N
  then ascii_of_N (n + 32)
  else c.

(** [s.lower()] *)
Definition lower (s : list ascii) : list ascii := map lower_char s.

(** [s.startswith(p)] *)
Fixpoint startswith (p s : list ascii) : bool :=
  match p, s with
  | [], _ => true
  | c :: p', d :: s' => Ascii.eqb c d && startswith p' s'
  | _ :: _, [] => false
  end.

(** [s == t] *)
Definition eqb (s t : list ascii) : bool := bool_decide (s = t).

(** [s in words], for a list of literals *)
Definition among (s : list ascii) (words : list string) : bool :=
  existsb (fun w => eqb s (list_ascii_of_string w)) words.

(** [c * n] *)
Definition times (c : ascii) (n : nat) : string :=
  string_of_list_ascii (replicate n c).

(** ["\n" + s] *)
Definition newline_then (s : string) : string := String "010"%char s.

End Str.

(** What a formatted line shows: the values are kept as they are handed
    to the format, not formatted. *)
Inductive arg : Type :=
| Arg_float (x : float64)
| Arg_array (a : ndarray)
| Arg_scalar (s : scalar)
| Arg_int (n : Z)
| Arg_str (s : list ascii)
| Arg_exception (e : exception).

(** What the console programs write on standard output: the lines of the
    class, the lines they print themselves (the text of the source, with
    the values its fields are filled with), the prompt of [input], and
    the help of the argument parser. *)
Inductive console : Type :=
| From_class (l : line)
| Print (text : string) (args : list arg)
| Prompt (text : string)
| Parser_help.

Abbreviation Con := (M object console).

(** A method of the class, called from a console program. *)
Definition in_class {A : Type} (m : Py A) : Con A :=
  fun h => let o := m h in Outcome (value o) (heap o) (map From_class (output o)).

(** [try: body except <caught>: handler] *)
Definition try_except {A : Type} (body : Con A) (caught : exception -> bool)
           (handler : exception -> Con A) : Con A :=
  fun h =>
    let o := body h in
    match value o with
    | Ok _ => o
    | Raise e =>
        if caught e then
          let o' := handler e (heap o) in
          Outcome (value o') (heap o') (output o ++ output o')
        else o
    end.

Definition is_ValueError (e : exception) : bool :=
  match e with ValueError _ => true | _ => false end.

(** Every exception of the model is an [Exception]. *)
Definition is_Exception (e : exception) : bool := true.

(** How a console program ends: it returns, or [sys.exit(code)] ends the
    process. *)
Inductive completion : Type :=
| Returned
| SystemExit (code : Z).

(** What the program meets where it waits in [input]: a line (without its
    end of line), or an interrupt from the keyboard; the end of the list
    is the end of the input. *)
Inductive stdin_event : Type :=
| Line (s : list ascii)
| KeyboardInterrupt.

(** What [open(filename, 'r')] followed by [readlines()] meets. *)
Inductive opened : Type :=
| Opened (content : list ascii)
| FileNotFoundError
| OpenFailed (e : exception).

(** The namespace [parser.parse_args()] returns. *)
Module Namespace.
Record t : Type := {
  temp : option float64;
  logt : option float64;
  bv : option float64;
  interactive : bool;
  plot : bool;
  save_plots : bool;
  batch : option (list ascii);
  info : bool;
  output : list ascii
}.
End Namespace.

(** What the console programs take from outside the repository: the
    built-in [float] on a text ([None] for its [ValueError]), the file
    system, and the plotting of [main] and [save_plots] (matplotlib). *)
Class Environment : Type := {
  float : list ascii -> option float64;
  open_ : list ascii -> opened;
  plots : bool -> loc -> Con unit
}.

(** [f.readlines()] in text mode: the three ends of line are read as one,
    and each line keeps its end. *)
Fixpoint readlines_from (cur : list ascii) (s : list ascii) : list (list ascii) :=
  match s with
  | [] => match cur with [] => [] | _ => [reverse cur] end
  | c :: s' =>
      if Ascii.eqb c "010" then reverse ("010"%char :: cur) :: readlines_from [] s'
      else if Ascii.eqb c "013" then
        match s' with
        | d :: s'' =>
            if Ascii.eqb d "010" then reverse ("010"%char :: cur) :: readlines_from [] s''
            else reverse ("010"%char :: cur) :: readlines_from [] s'
        | [] => [reverse ("010"%char :: cur)]
        end
      else readlines_from (c :: cur) s'
  end.

Definition readlines (content : list ascii) : list (list ascii) :=
  readlines_from [] content.

(** [for i, x in enumerate(l, i0): body] *)
Fixpoint for_enumerate {A : Type} (body : nat -> A -> Con unit) (i : nat) (l : list A)
  : Con unit :=
  match l with
  | [] => mret ()
  | x :: l' => body i x;; for_enumerate body (S i) l'
  end.

Fixpoint print_all (ls : list console) : Con unit :=
  match ls with
  | [] => mret ()
  | l :: ls' => print l;; print_all ls'
  end.

(** The result lines, with the value asked and the correction. *)
Definition result_line (ax : axis) (value : float64) (bc : ndarray) : console :=
  Print match ax with
        | Temperature => "T = {value:.0f} K  →  BC = {bc:.3f}"
        | LogTemperature => "log(T) = {value:.3f}  →  BC = {bc:.3f}"
        | ColorIndex => "B-V = {value:.2f}  →  BC = {bc:.3f}"
        end
        [Arg_float value; Arg_array bc].

(** [float(text)], raising [ValueError] where the built-in does. *)
Definition float_or_raise `{Environment} (text : list ascii) : Con float64 :=
  match float text with
  | Some value => mret value
  | None => raise (ValueError "could not convert string to float")
  end.

(** The six lines that list the commands, printed by the banner of
    [interactive_mode] and by its [help] command. *)
Definition commands_help : list console :=
  [Print (Str.newline_then "Commands:") [];
   Print "  temp <value>     - Get BC from temperature (K)" [];
   Print "  logt <value>     - Get BC from log(temperature)" [];
   Print "  bv <value>       - Get BC from B-V color" [];
   Print "  info             - Show data range information" [];
   Print "  help             - Show this help" [];
   Print "  quit             - Exit" []].

Section Console.

Context `{Interp1d} `{Environment}.

(** The body of the loop of [batch_process], for line number [i]. *)
Definition batch_body (bc_util : loc) (i : nat) (line : list ascii) : Con unit :=
  let line := Str.strip line in
  if Str.eqb line [] || Str.startswith ["#"%char] line then mret ()
  else
    match Str.split line with
    | part0 :: part1 :: _ =>
        let cmd := Str.lower part0 in
        try_except
          (value ← float_or_raise part1;
           if Str.among cmd ["temp"; "t"; "temperature"] then
             bc ← in_class (get_BC_from_T bc_util (Scalar value) false);
             print (Print "T = {value:.0f} K  →  BC = {bc:.3f}"
                          [Arg_float value; Arg_array bc])
           else if Str.among cmd ["logt"; "log"; "logtemp"] then
             bc ← in_class (get_BC_from_logT bc_util (Scalar value) false);
             print (Print "log(T) = {value:.3f}  →  BC = {bc:.3f}"
                          [Arg_float value; Arg_array bc])
           else if Str.among cmd ["bv"; "color"; "b-v"] then
             bc ← in_class (get_BC_from_BV bc_util (Scalar value) false);
             print (Print "B-V = {value:.2f}  →  BC = {bc:.3f}"
                          [Arg_float value; Arg_array bc])
           else
             print (Print "Line {i}: Unknown command '{cmd}' - {line}"
                          [Arg_int (Z.of_nat i); Arg_str cmd; Arg_str line]))
          is_ValueError
          (fun _ =>
             print (Print "Line {i}: Invalid value '{parts[1]}' - {line}"
                          [Arg_int (Z.of_nat i); Arg_str part1; Arg_str line]))
    | _ =>
        print (Print "Line {i}: Invalid format - {line}"
                     [Arg_int (Z.of_nat i); Arg_str line])
    end.

Definition batch_process (filename : list ascii) (bc_util : loc) : Con completion :=
  match open_ filename with
  | FileNotFoundError =>
      print (Print "Error: File '{filename}' not found" [Arg_str filename]);;
      mret (SystemExit 1)
  | OpenFailed e =>
      print (Print "Error processing file: {e}" [Arg_exception e]);;
      mret (SystemExit 1)
  | Opened content =>
      try_except
        (let lines := readlines content in
         print (Print (Str.newline_then "Processing batch file: {filename}")
                      [Arg_str filename]);;
         print (Print (Str.times "-" 50) []);;
         for_enumerate (batch_body bc_util) 1 lines;;
         mret Returned)
        is_Exception
        (fun e =>
           print (Print "Error processing file: {e}" [Arg_exception e]);;
           mret (SystemExit 1))
  end.

(** The [info] command of [interactive_mode]. *)
Definition interactive_info (bc_util : loc) : Con unit :=
  print (Print (Str.newline_then "Data ranges:") []);;
  me ← in_class (get_self bc_util);
  print (Print "  Temperature: {bc_util.T_min:.0f} - {bc_util.T_max:.0f} K"
               [Arg_scalar (T_min me); Arg_scalar (T_max me)]);;
  print (Print "  log(T):      {bc_util.logT_min:.3f} - {bc_util.logT_max:.3f}"
               [Arg_scalar (logT_min me); Arg_scalar (logT_max me)]);;
  print (Print "  B-V:         {bc_util.BV_min:.2f} - {bc_util.BV_max:.2f}"
               [Arg_scalar (BV_min me); Arg_scalar (BV_max me)]);;
  bc ← in_class (DataFrame_getitem (data me) BC);
  print (Print "  BC:          {bc_util.data['BC'].min():.3f} - {bc_util.data['BC'].max():.3f}"
               [Arg_scalar (Series_min bc); Arg_scalar (Series_max bc)]);;
  df ← in_class (get_frame (data me));
  print (Print "  Data points: {len(bc_util.data)}" [Arg_int (Z.of_nat (length df))]).

(** A command that asks a value on one axis: [cmd.split()[1]] is turned
    into a number and the query is called with its default
    [verbose=True]; [ValueError] and [IndexError] are caught. *)
Definition interactive_query (get_BC : loc -> ndarray -> bool -> Py ndarray)
           (text error : string) (bc_util : loc) (cmd : list ascii) : Con unit :=
  match Str.split cmd with
  | _ :: part1 :: _ =>
      try_except
        (value ← float_or_raise part1;
         bc ← in_class (get_BC bc_util (Scalar value) true);
         print (Print text [Arg_float value; Arg_array bc]))
        is_ValueError
        (fun _ => print (Print error []))
  | _ => print (Print error [])
  end.

(** One command of [interactive_mode], other than the commands that
    leave. *)
Definition interactive_command (bc_util : loc) (cmd : list ascii) : Con unit :=
  if Str.eqb cmd (list_ascii_of_string "help") then print_all commands_help
  else if Str.eqb cmd (list_ascii_of_string "info") then interactive_info bc_util
  else if Str.startswith (list_ascii_of_string "temp ") cmd then
    interactive_query get_BC_from_T "T = {value:.0f} K  →  BC = {bc:.3f}"
                      "Error: Please provide a valid temperature value" bc_util cmd
  else if Str.startswith (list_ascii_of_string "logt ") cmd then
    interactive_query get_BC_from_logT "log(T) = {value:.3f}  →  BC = {bc:.3f}"
                      "Error: Please provide a valid log(T) value" bc_util cmd
  else if Str.startswith (list_ascii_of_string "bv ") cmd then
    interactive_query get_BC_from_BV "B-V = {value:.2f}  →  BC = {bc:.3f}"
                      "Error: Please provide a valid B-V value" bc_util cmd
  else if Str.eqb cmd [] then mret ()
  else
    print (Print "Unknown command: {cmd}" [Arg_str cmd]);;
    print (Print "Type 'help' for available commands" []).

(** The loop of [interactive_mode]: it returns what is left of the input
    when it leaves. *)
Fixpoint interactive_loop (bc_util : loc) (stdin : list stdin_event)
  : Con (list stdin_event) :=
  print (Prompt (Str.newline_then "BC> "));;
  match stdin with
  | [] => print (Print (Str.newline_then "Goodbye!") []);; mret []
  | KeyboardInterrupt :: rest =>
      print (Print (Str.newline_then "Goodbye!") []);; mret rest
  | Line s :: rest =>
      let cmd := Str.lower (Str.strip s) in
      if Str.among cmd ["quit"; "exit"; "q"] then
        print (Print "Goodbye!" []);; mret rest
      else
        interactive_command bc_util cmd;;
        interactive_loop bc_util rest
  end.

Definition interactive_mode (bc_util : loc) (stdin : list stdin_event)
  : Con (list stdin_event) :=
  print (Print (Str.newline_then (Str.times "=" 60)) []);;
  print (Print "BOLOMETRIC CORRECTION UTILITY - Interactive Mode" []);;
  print (Print (Str.times "=" 60) []);;
  print_all commands_help;;
  print (Print (Str.times "-" 60) []);;
  interactive_loop bc_util stdin.

(** What [main] does once the table is loaded and the instance built:
    the part of its body under [# Handle different modes]. *)
Definition main_modes (args : Namespace.t) (argc : nat) (stdin : list stdin_event)
           (data bc_util : loc) : Con completion :=
  (if Namespace.info args then
     print (Print (Str.newline_then "Bolometric Correction Data Information:") []);;
     me ← in_class (get_self bc_util);
     print (Print "Temperature range: {bc_util.T_min:.0f} - {bc_util.T_max:.0f} K"
                  [Arg_scalar (T_min me); Arg_scalar (T_max me)]);;
     print (Print "log(T) range:      {bc_util.logT_min:.3f} - {bc_util.logT_max:.3f}"
                  [Arg_scalar (logT_min me); Arg_scalar (logT_max me)]);;
     print (Print "B-V range:         {bc_util.BV_min:.2f} - {bc_util.BV_max:.2f}"
                  [Arg_scalar (BV_min me); Arg_scalar (BV_max me)]);;
     bc ← in_class (DataFrame_getitem data BC);
     print (Print "BC range:          {data['BC'].min():.3f} - {data['BC'].max():.3f}"
                  [Arg_scalar (Series_min bc); Arg_scalar (Series_max bc)]);;
     df ← in_class (get_frame data);
     print (Print "Number of points:  {len(data)}" [Arg_int (Z.of_nat (length df))])
   else mret ());;
  (if Namespace.plot args then plots (Namespace.save_plots args) data else mret ());;
  match Namespace.temp args with
  | Some value =>
      bc ← in_class (get_BC_from_T bc_util (Scalar value) true);
      print (Print "T = {args.temp:.0f} K  →  BC = {bc:.3f}"
                   [Arg_float value; Arg_array bc])
  | None => mret ()
  end;;
  match Namespace.logt args with
  | Some value =>
      bc ← in_class (get_BC_from_logT bc_util (Scalar value) true);
      print (Print "log(T) = {args.logt:.3f}  →  BC = {bc:.3f}"
                   [Arg_float value; Arg_array bc])
  | None => mret ()
  end;;
  match Namespace.bv args with
  | Some value =>
      bc ← in_class (get_BC_from_BV bc_util (Scalar value) true);
      print (Print "B-V = {args.bv:.2f}  →  BC = {bc:.3f}"
                   [Arg_float value; Arg_array bc])
  | None => mret ()
  end;;
  done ← match Namespace.batch args with
         | Some (c :: name) => batch_process (c :: name) bc_util
         | _ => mret Returned
         end;
  match done with
  | SystemExit code => mret (SystemExit code)
  | Returned =>
      (if Namespace.interactive args then
         interactive_mode bc_util stdin;; mret ()
       else mret ());;
      (if (argc =? 1)%nat then print Parser_help else mret ());;
      mret Returned
  end.

(** [main], from the parsed arguments; [argc] is [len(sys.argv)]. *)
Definition main (args : Namespace.t) (argc : nat) (stdin : list stdin_event)
  : Con completion :=
  print (Print "Loading bolometric correction data..." []);;
  data ← in_class load_bolometric_data;
  bc_util ← in_class (__init__ data);
  print (Print "Data loaded successfully." []);;
  main_modes args argc stdin data bc_util.

End Console.

(** ** Vocabulary of the properties of the console programs *)

Definition is_From_class (c : console) : bool :=
  match c with From_class _ => true | _ => false end.

Definition is_Prompt (c : console) : bool :=
  match c with Prompt _ => true | _ => false end.

(** A result line is consistent with an instance when the correction it
    shows is the interpolant of its axis at the value it shows. *)
Definition consistent (me : BolometricCorrection) (c : console) : Prop :=
  forall (ax : axis) (value : float64) (bc : ndarray),
    c = result_line ax value bc -> bc = Scalar (interpolant ax me value).

(** An event at which [interactive_mode] leaves its loop: an interrupt,
    or one of the commands [quit], [exit], [q]. *)
Definition leaving (e : stdin_event) : bool :=
  match e with
  | KeyboardInterrupt => true
  | Line s => Str.among (Str.lower (Str.strip s)) ["quit"; "exit"; "q"]
  end.

(** The input after the first leaving event. *)
Fixpoint after_leave (stdin : list stdin_event) : list stdin_event :=
  match stdin with
  | [] => []
  | e :: rest => if leaving e then rest else after_leave rest
  end.

(** A console program that, from every heap, leaves the heap as it found
    it and writes only lines satisfying [P], whether it returns or
    raises. *)
Definition emits {A : Type} (P : console -> Prop) (m : Con A) : Prop :=
  forall h, heap (m h) = h /\ Forall P (output (m h)).

(** A console program that, from every heap satisfying [I], returns,
    leaves the heap as it found it, and whose result and lines satisfy
    [Q]. *)
Definition steady {A : Type} (I : gmap loc object -> Prop) (m : Con A)
           (Q : A -> list console -> Prop) : Prop :=
  forall h, I h ->
            heap (m h) = h /\ exists a, value (m h) = Ok a /\ Q a (output (m h)).

(** The heap holds the instance [me] at [bc_util]. *)
Definition holds (bc_util : loc) (me : BolometricCorrection) (h : gmap loc object) : Prop :=
  h !! bc_util = Some (BolometricCorrectionObj me).

(** An environment to run examples in: [float] reads plain decimals, the
    only file is [input.txt], with the lines the help of the argument
    parser gives as an example, and plotting does nothing. *)
Definition example_environment : Environment :=
  {| float := fun text =>
                n ← parse_number (Str.strip text); Some (float_of_number n);
     open_ := fun name =>
                if Str.eqb name (list_ascii_of_string "input.txt")
                then Opened (list_ascii_of_string "temp 5780
bv 0.65
logt 3.76
# Comments start with #
")
                else FileNotFoundError;
     plots := fun _ _ => mret () |}.

(** The heap holds the instance [me] at [bc_util], and the table of the
    instance, with the rows [df]. *)
Definition ready (bc_util : loc) (me : BolometricCorrection) (df : DataFrame)
           (h : gmap loc object) : Prop :=
  h !! bc_util = Some (BolometricCorrectionObj me) /\
  h !! data me = Some (DataFrameObj df).

(** What a query called from a console program writes: the warning of
    the class when it is verbose and the value is outside the bounds. *)
Definition query_lines (ax : axis) (me : BolometricCorrection) (value : float64)
           (verbose : bool) : list console :=
  map From_class (if verbose && outside ax me value then warning ax me else []).

(** The names [batch_process] knows an axis by. *)
Definition aliases (ax : axis) : list string :=
  match ax with
  | Temperature => ["temp"; "t"; "temperature"]
  | LogTemperature => ["logt"; "log"; "logtemp"]
  | ColorIndex => ["bv"; "color"; "b-v"]
  end.

(** The command of [interactive_mode] for an axis, and the line it prints
    when the value is not a number. *)
Definition keyword (ax : axis) : string :=
  match ax with
  | Temperature => "temp"
  | LogTemperature => "logt"
  | ColorIndex => "bv"
  end.

Definition error_line (ax : axis) : console :=
  Print match ax with
        | Temperature => "Error: Please provide a valid temperature value"
        | LogTemperature => "Error: Please provide a valid log(T) value"
        | ColorIndex => "Error: Please provide a valid B-V value"
        end
        [].

(** The line [main] prints for one of the options [--temp], [--logt],
    [--bv], and what the option adds to the output: the warning of the
    class, if any, then the line. *)
Definition option_line (ax : axis) (value : float64) (bc : ndarray) : console :=
  Print match ax with
        | Temperature => "T = {args.temp:.0f} K  →  BC = {bc:.3f}"
        | LogTemperature => "log(T) = {args.logt:.3f}  →  BC = {bc:.3f}"
        | ColorIndex => "B-V = {args.bv:.2f}  →  BC = {bc:.3f}"
        end
        [Arg_float value; Arg_array bc].

Definition option_answer (ax : axis) (me : BolometricCorrection) (o : option float64)
  : list console :=
  match o with
  | Some value =>
      query_lines ax me value true
      ++ [option_line ax value (Scalar (interpolant ax me value))]
  | None => []
  end.

(** The number of times [interactive_mode] prompts: once for each event
    up to the one it leaves at, and once more when the input ends before
    it leaves. *)
Fixpoint prompts (stdin : list stdin_event) : nat :=
  match stdin with
  | [] => 1
  | e :: rest => if leaving e then 1 else S (prompts rest)
  end.

(** An interpolator that accepts no data. *)
Definition rejecting : Interp1d :=
  fun _ _ _ _ _ => Raise (ValueError "x and y arrays must have at least 2 entries").

(** A line that is not a prompt and shows no correction other than the
    interpolant. *)
Definition plain (me : BolometricCorrection) (c : console) : Prop :=
  consistent me c /\ is_Prompt c = false.

(** The lines of the option [--info] of [main], for an instance and the
    table it was built from. *)
Definition information (me : BolometricCorrection) (table : DataFrame) : list console :=
  [Print (Str.newline_then "Bolometric Correction Data Information:") [];
   Print "Temperature range: {bc_util.T_min:.0f} - {bc_util.T_max:.0f} K"
         [Arg_scalar (T_min me); Arg_scalar (T_max me)];
   Print "log(T) range:      {bc_util.logT_min:.3f} - {bc_util.logT_max:.3f}"
         [Arg_scalar (logT_min me); Arg_scalar (logT_max me)];
   Print "B-V range:         {bc_util.BV_min:.2f} - {bc_util.BV_max:.2f}"
         [Arg_scalar (BV_min me); Arg_scalar (BV_max me)];
   Print "BC range:          {data['BC'].min():.3f} - {data['BC'].max():.3f}"
         [Arg_scalar (Series_min (getitem table BC));
          Arg_scalar (Series_max (getitem table BC))];
   Print "Number of points:  {len(data)}" [Arg_int (Z.of_nat (length table))]].

(** The heap [main] works in once the instance is built: the table it
    loaded at [data], the instance and its own table. *)
Definition prepared (data bc_util : loc) (me : BolometricCorrection)
           (table df : DataFrame) (h : gmap loc object) : Prop :=
  h !! data = Some (DataFrameObj table) /\ ready bc_util me df h.

(** Loading the table, then building the instance from it: the first two
    calls of [main]. *)
Definition load_and_build `{Interp1d} : Py loc :=
  data ← load_bolometric_data; __init__ data.

(** The command line [--temp 5780] and its like: no option but the ones
    given. *)
Definition command_line (temp : option float64) (batch : option (list ascii))
           (interactive : bool) : Namespace.t :=
  {| Namespace.temp := temp; Namespace.logt := None; Namespace.bv := None;
     Namespace.interactive := interactive; Namespace.plot := false;
     Namespace.save_plots := false; Namespace.batch := batch;
     Namespace.info := false;
     Namespace.output := list_ascii_of_string "results.txt" |}.


(** ** Vocabulary of the properties of the spline *)









(** ** The queries, run *)

(** Running a sequence: when the first computation returns without
    printing, the sequence continues from the heap it left. *)
Lemma bind_run_silent {A B : Type} (m : Py A) (k : A -> Py B)
      (h h1 : gmap loc object) (a : A) :
  m h = Outcome (Ok a) h1 [] ->
  (m ≫= k) h = k a h1.
Proof.
  intros Hm. unfold mbind, M_bind, bind. rewrite Hm. simpl.
  destruct (k a h1); reflexivity.
Qed.

Lemma bind_run_raise {A B : Type} (m : Py A) (k : A -> Py B)
      (h h1 : gmap loc object) (e : exception) (out : list line) :
  m h = Outcome (Raise e) h1 out ->
  (m ≫= k) h = Outcome (Raise e) h1 out.
Proof.
  intros Hm. unfold mbind, M_bind, bind. rewrite Hm. reflexivity.
Qed.

Lemma get_self_run (h : gmap loc object) (self : loc) (me : BolometricCorrection) :
  h !! self = Some (BolometricCorrectionObj me) ->
  get_self self h = Outcome (Ok me) h [].
Proof.
  intros Hself. unfold get_self, mbind, M_bind, bind, deref. simpl.
  rewrite Hself. reflexivity.
Qed.

Lemma get_BC_from_T_run (h : gmap loc object) (self : loc) (me : BolometricCorrection)
      (a : ndarray) (verbose : bool) :
  h !! self = Some (BolometricCorrectionObj me) ->
  get_BC_from_T self a verbose h =
    Outcome (Ok (apply (bc_from_T me) a)) h
            (if verbose && (any_lt a (T_min me) || any_gt a (T_max me))
             then [Warning_Temperature_outside_range (T_min me) (T_max me);
                   Extrapolation_will_be_used]
             else []).
Proof.
  intros Hself. unfold get_BC_from_T, mbind, M_bind, bind.
  rewrite (get_self_run _ _ _ Hself). simpl.
  destruct (verbose && _); reflexivity.
Qed.

Lemma get_BC_from_logT_run (h : gmap loc object) (self : loc) (me : BolometricCorrection)
      (a : ndarray) (verbose : bool) :
  h !! self = Some (BolometricCorrectionObj me) ->
  get_BC_from_logT self a verbose h =
    Outcome (Ok (apply (bc_from_logT me) a)) h
            (if verbose && (any_lt a (logT_min me) || any_gt a (logT_max me))
             then [Warning_logT_outside_range (logT_min me) (logT_max me);
                   Extrapolation_will_be_used]
             else []).
Proof.
  intros Hself. unfold get_BC_from_logT, mbind, M_bind, bind.
  rewrite (get_self_run _ _ _ Hself). simpl.
  destruct (verbose && _); reflexivity.
Qed.

Lemma get_BC_from_BV_run (h : gmap loc object) (self : loc) (me : BolometricCorrection)
      (a : ndarray) (verbose : bool) :
  h !! self = Some (BolometricCorrectionObj me) ->
  get_BC_from_BV self a verbose h =
    Outcome (Ok (apply (bc_from_BV me) a)) h
            (if verbose && (any_lt a (BV_min me) || any_gt a (BV_max me))
             then [Warning_BV_outside_range (BV_min me) (BV_max me);
                   Extrapolation_will_be_used]
             else []).
Proof.
  intros Hself. unfold get_BC_from_BV, mbind, M_bind, bind.
  rewrite (get_self_run _ _ _ Hself). simpl.
  destruct (verbose && _); reflexivity.
Qed.

(** A query on a reference that holds no instance raises, and touches
    nothing. *)
Lemma get_self_heap (h : gmap loc object) (self : loc) :
  heap (get_self self h) = h /\ output (get_self self h) = [].
Proof.
  unfold get_self, mbind, M_bind, bind, deref. simpl.
  destruct (h !! self) as [[df | me] | ]; simpl; auto.
Qed.

(** ** The order of binary64 values *)

Lemma SFcompare_antisym (x y : float64) :
  SFcompare y x = CompOpp <$> SFcompare x y.
Proof.
  destruct x as [[]|[]| |[] m1 e1], y as [[]|[]| |[] m2 e2]; simpl; try reflexivity;
    rewrite (Z.compare_antisym e1 e2);
    change (Pos.compare_cont Eq m2 m1) with (m2 ?= m1)%positive;
    change (Pos.compare_cont Eq m1 m2) with (m1 ?= m2)%positive;
    rewrite (Pos.compare_antisym m1 m2);
    destruct (e1 ?= e2); simpl; try reflexivity;
    destruct (m1 ?= m2)%positive; reflexivity.
Qed.

Lemma leb_not_gtb (x y : float64) :
  (x <=? y)%f64 = true -> (x >? y)%f64 = false.
Proof.
  unfold Float64.leb, Float64.gtb, SFleb, SFltb.
  rewrite (SFcompare_antisym x y).
  destruct (SFcompare x y) as [[]|]; simpl; congruence.
Qed.

Lemma leb_not_ltb (x y : float64) :
  (x <=? y)%f64 = true -> (y <? x)%f64 = false.
Proof. exact (leb_not_gtb x y). Qed.

Lemma ltb_nan_l (y : float64) : (nan <? y)%f64 = false.
Proof. reflexivity. Qed.

Lemma ltb_nan_r (x : float64) : (x <? nan)%f64 = false.
Proof. destruct x as [[]|[]| |[] m e]; reflexivity. Qed.

(** ** The constructor, run *)

Lemma get_frame_run (h : gmap loc object) (d : loc) (df : DataFrame) :
  h !! d = Some (DataFrameObj df) ->
  get_frame d h = Outcome (Ok df) h [].
Proof.
  intros Hd. unfold get_frame, mbind, M_bind, bind, deref. simpl.
  rewrite Hd. reflexivity.
Qed.

Lemma DataFrame_getitem_run (h : gmap loc object) (d : loc) (df : DataFrame) (c : column) :
  h !! d = Some (DataFrameObj df) ->
  DataFrame_getitem d c h = Outcome (Ok (getitem df c)) h [].
Proof.
  intros Hd. unfold DataFrame_getitem, mbind, M_bind, bind.
  rewrite (get_frame_run _ _ _ Hd). reflexivity.
Qed.

Lemma DataFrame_copy_run (h : gmap loc object) (d : loc) (df : DataFrame) :
  h !! d = Some (DataFrameObj df) ->
  DataFrame_copy d h =
    Outcome (Ok (fresh (dom h))) (<[fresh (dom h) := DataFrameObj df]> h) [].
Proof.
  intros Hd. unfold DataFrame_copy.
  rewrite (bind_run_silent _ _ _ _ _ (get_frame_run _ _ _ Hd)). reflexivity.
Qed.

Lemma DataFrame_sort_values_run (h : gmap loc object) (d : loc) (df : DataFrame)
      (by_ : column) :
  h !! d = Some (DataFrameObj df) ->
  DataFrame_sort_values d by_ h =
    Outcome (Ok (fresh (dom h)))
            (<[fresh (dom h) := DataFrameObj (sort_values df by_)]> h) [].
Proof.
  intros Hd. unfold DataFrame_sort_values.
  rewrite (bind_run_silent _ _ _ _ _ (get_frame_run _ _ _ Hd)). reflexivity.
Qed.

Lemma init_run `{Interp1d} (h : gmap loc object) (d : loc) (df : DataFrame) :
  h !! d = Some (DataFrameObj df) ->
  __init__ d h =
    let h1 := <[fresh (dom h) := DataFrameObj df]> h in
    let self_data := fresh (dom h1) in
    let h2 := <[self_data := DataFrameObj (sort_values df T)]> h1 in
    match attributes self_data (sort_values df T) with
    | Ok me =>
        Outcome (Ok (fresh (dom h2))) (<[fresh (dom h2) := BolometricCorrectionObj me]> h2) []
    | Raise e => Outcome (Raise e) h2 []
    end.
Proof.
  intros Hd. cbv zeta.
  set (h1 := <[fresh (dom h) := DataFrameObj df]> h).
  set (self_data := fresh (dom h1)).
  set (sorted := sort_values df T).
  set (h2 := <[self_data := DataFrameObj sorted]> h1).
  assert (H1 : h1 !! fresh (dom h) = Some (DataFrameObj df))
    by apply lookup_insert_eq.
  assert (H2 : h2 !! self_data = Some (DataFrameObj sorted))
    by apply lookup_insert_eq.
  unfold __init__, attributes.
  rewrite (bind_run_silent _ _ _ _ _ (DataFrame_copy_run _ _ _ Hd)). fold h1.
  rewrite (bind_run_silent _ _ _ _ _ (DataFrame_sort_values_run _ _ _ T H1)).
  fold self_data sorted h2.
  rewrite !(bind_run_silent _ _ _ _ _ (DataFrame_getitem_run _ _ _ _ H2)).
  destruct (interp1d (to_float_array (getitem sorted T)) _ _ _ _) as [f_T | e];
    [ | reflexivity ].
  rewrite (bind_run_silent _ _ h2 h2 f_T) by reflexivity.
  rewrite !(bind_run_silent _ _ _ _ _ (DataFrame_getitem_run _ _ _ _ H2)).
  destruct (interp1d (to_float_array (getitem sorted logT)) _ _ _ _) as [f_logT | e];
    [ | reflexivity ].
  rewrite (bind_run_silent _ _ h2 h2 f_logT) by reflexivity.
  rewrite !(bind_run_silent _ _ _ _ _ (DataFrame_getitem_run _ _ _ _ H2)).
  destruct (interp1d (to_float_array (getitem sorted B_V)) _ _ _ _) as [f_BV | e];
    [ | reflexivity ].
  rewrite (bind_run_silent _ _ h2 h2 f_BV) by reflexivity.
  rewrite !(bind_run_silent _ _ _ _ _ (DataFrame_getitem_run _ _ _ _ H2)).
  reflexivity.
Qed.

Lemma attributes_inv `{Interp1d} (self_data : loc) (sorted : DataFrame)
      (me : BolometricCorrection) :
  attributes self_data sorted = Ok me ->
  data me = self_data /\
  interp1d (to_float_array (getitem sorted T)) (to_float_array (getitem sorted BC))
           "cubic" false "extrapolate" = Ok (bc_from_T me) /\
  interp1d (to_float_array (getitem sorted logT)) (to_float_array (getitem sorted BC))
           "cubic" false "extrapolate" = Ok (bc_from_logT me) /\
  interp1d (to_float_array (getitem sorted B_V)) (to_float_array (getitem sorted BC))
           "cubic" false "extrapolate" = Ok (bc_from_BV me) /\
  T_min me = Series_min (getitem sorted T) /\
  T_max me = Series_max (getitem sorted T) /\
  logT_min me = Series_min (getitem sorted logT) /\
  logT_max me = Series_max (getitem sorted logT) /\
  BV_min me = Series_min (getitem sorted B_V) /\
  BV_max me = Series_max (getitem sorted B_V).
Proof.
  unfold attributes.
  destruct (interp1d (to_float_array (getitem sorted T)) _ _ _ _) as [f_T | e];
    [ | discriminate ].
  destruct (interp1d (to_float_array (getitem sorted logT)) _ _ _ _) as [f_logT | e];
    [ | discriminate ].
  destruct (interp1d (to_float_array (getitem sorted B_V)) _ _ _ _) as [f_BV | e];
    [ | discriminate ].
  intros [= <-]. simpl. repeat split; reflexivity.
Qed.

(** What a successful construction leaves in the heap: the instance, at a
    new reference, whose [data] is a new frame holding the sorted rows. *)
Lemma init_ok `{Interp1d} (h : gmap loc object) (d self : loc) (df : DataFrame) :
  h !! d = Some (DataFrameObj df) ->
  value (__init__ d h) = Ok self ->
  exists me,
    attributes (data me) (sort_values df T) = Ok me /\
    heap (__init__ d h) !! self = Some (BolometricCorrectionObj me) /\
    heap (__init__ d h) !! data me = Some (DataFrameObj (sort_values df T)) /\
    h !! self = None /\ h !! data me = None /\ data me <> d.
Proof.
  intros Hd. rewrite (init_run _ _ _ Hd). cbv zeta.
  set (h1 := <[fresh (dom h) := DataFrameObj df]> h).
  set (self_data := fresh (dom h1)).
  set (h2 := <[self_data := DataFrameObj (sort_values df T)]> h1).
  destruct (attributes self_data (sort_values df T)) as [me | e] eqn:Hme;
    simpl; [ | discriminate ].
  intros [= <-]. exists me.
  destruct (attributes_inv _ _ _ Hme) as [Hdata _].
  assert (Hfresh1 : fresh (dom h) ∉ dom h) by apply is_fresh.
  assert (Hfresh2 : self_data ∉ dom h1) by apply is_fresh.
  assert (Hfresh3 : fresh (dom h2) ∉ dom h2) by apply is_fresh.
  assert (Hsub1 : dom h ⊆ dom h1)
    by (unfold h1; rewrite dom_insert_L; apply union_subseteq_r).
  assert (Hsub2 : dom h1 ⊆ dom h2)
    by (unfold h2; rewrite dom_insert_L; apply union_subseteq_r).
  assert (Hin2 : self_data ∈ dom h2)
    by (unfold h2; rewrite dom_insert_L; apply elem_of_union_l, elem_of_singleton;
        reflexivity).
  rewrite Hdata. repeat split.
  - exact Hme.
  - apply lookup_insert_eq.
  - rewrite lookup_insert_ne by (intros E; rewrite E in Hfresh3; contradiction).
    apply lookup_insert_eq.
  - apply not_elem_of_dom. intros Hin. apply Hfresh3, Hsub2, Hsub1, Hin.
  - apply not_elem_of_dom. intros Hin. apply Hfresh2, Hsub1, Hin.
  - intros E. apply Hfresh2, Hsub1. rewrite E. apply elem_of_dom. eauto.
Qed.

(** ** The embedded table, loaded *)

Lemma read_csv_data_text :
  read_csv (strip (list_ascii_of_string data_text)) = Some embedded_table.
Proof. vm_compute. reflexivity. Qed.

Lemma load_bolometric_data_run (h : gmap loc object) :
  load_bolometric_data h =
    Outcome (Ok (fresh (dom h))) (<[fresh (dom h) := DataFrameObj embedded_table]> h) [].
Proof.
  unfold load_bolometric_data, read_frame. rewrite read_csv_data_text. reflexivity.
Qed.


(** ** C1: boundary classification *)

(** C1.  The bounds an instance records for an axis are the minimum and the
    maximum of that axis's column in the table it stores, computed by the
    constructor.  A query value [v] with [min <= v <= max] is not flagged as
    extrapolated; a value with [v < min] or [v > max] is.  This holds on
    the three axes (and for every [v], finite or not). *)
Theorem boundary_classification `{Interp1d}
        (h : gmap loc object) (d : loc) (df : DataFrame) (self : loc) (v : float64) :
  h !! d = Some (DataFrameObj df) ->
  value (__init__ d h) = Ok self ->
  let sorted := sort_values df T in
  let h' := heap (__init__ d h) in
  let lo c := as_float64 (Series_min (getitem sorted c)) in
  let hi c := as_float64 (Series_max (getitem sorted c)) in
  (exists me,
      h' !! self = Some (BolometricCorrectionObj me) /\
      h' !! data me = Some (DataFrameObj sorted) /\
      T_min me = Series_min (getitem sorted T) /\
      T_max me = Series_max (getitem sorted T) /\
      logT_min me = Series_min (getitem sorted logT) /\
      logT_max me = Series_max (getitem sorted logT) /\
      BV_min me = Series_min (getitem sorted B_V) /\
      BV_max me = Series_max (getitem sorted B_V)) /\
  ((lo T <=? v)%f64 = true -> (v <=? hi T)%f64 = true ->
   extrapolated (get_BC_from_T self (Scalar v) true h') = false) /\
  ((v <? lo T)%f64 = true \/ (v >? hi T)%f64 = true ->
   extrapolated (get_BC_from_T self (Scalar v) true h') = true) /\
  ((lo logT <=? v)%f64 = true -> (v <=? hi logT)%f64 = true ->
   extrapolated (get_BC_from_logT self (Scalar v) true h') = false) /\
  ((v <? lo logT)%f64 = true \/ (v >? hi logT)%f64 = true ->
   extrapolated (get_BC_from_logT self (Scalar v) true h') = true) /\
  ((lo B_V <=? v)%f64 = true -> (v <=? hi B_V)%f64 = true ->
   extrapolated (get_BC_from_BV self (Scalar v) true h') = false) /\
  ((v <? lo B_V)%f64 = true \/ (v >? hi B_V)%f64 = true ->
   extrapolated (get_BC_from_BV self (Scalar v) true h') = true).
Proof.
  intros Hd Hok sorted h' lo hi.
  destruct (init_ok h d self df Hd Hok) as (me & Hme & Hself & Hdata & _).
  destruct (attributes_inv _ _ _ Hme)
    as (_ & _ & _ & _ & HTmin & HTmax & HLmin & HLmax & HBmin & HBmax).
  fold sorted in HTmin, HTmax, HLmin, HLmax, HBmin, HBmax, Hdata.
  fold h' in Hself, Hdata.
  split; [ exists me; repeat split; assumption | ].
  rewrite (get_BC_from_T_run h' self me _ true Hself).
  rewrite (get_BC_from_logT_run h' self me _ true Hself).
  rewrite (get_BC_from_BV_run h' self me _ true Hself).
  unfold extrapolated, any_lt, any_gt, lo, hi.
  rewrite HTmin, HTmax, HLmin, HLmax, HBmin, HBmax.
  cbn [output elements existsb andb]. rewrite !orb_false_r.
  repeat split.
  - intros Hlo Hhi. rewrite (leb_not_ltb _ _ Hlo), (leb_not_gtb _ _ Hhi). reflexivity.
  - intros [-> | ->]; rewrite ?orb_true_r; reflexivity.
  - intros Hlo Hhi. rewrite (leb_not_ltb _ _ Hlo), (leb_not_gtb _ _ Hhi). reflexivity.
  - intros [-> | ->]; rewrite ?orb_true_r; reflexivity.
  - intros Hlo Hhi. rewrite (leb_not_ltb _ _ Hlo), (leb_not_gtb _ _ Hhi). reflexivity.
  - intros [-> | ->]; rewrite ?orb_true_r; reflexivity.
Qed.

Lemma boundary_classification_witness :
  let h' := heap (__init__ (H := NaturalSpline.reference) 1%positive (heap loaded)) in
  extrapolated (get_BC_from_T 4%positive (Scalar (of_int 5780)) true h') = false /\
  extrapolated (get_BC_from_T 4%positive (Scalar (of_int 100000)) true h') = true.
Proof.
  split.
  - refine (proj1 (proj2 (boundary_classification
                            (H := NaturalSpline.reference) (heap loaded) 1%positive
                            embedded_table 4%positive (of_int 5780) _ _)) _ _);
      vm_compute; reflexivity.
  - refine (proj1 (proj2 (proj2 (boundary_classification
                            (H := NaturalSpline.reference) (heap loaded) 1%positive
                            embedded_table 4%positive (of_int 100000) _ _))) _);
      [ vm_compute; reflexivity | vm_compute; reflexivity | right; vm_compute; reflexivity ].
Defined.

(** ** The three queries at once *)

Lemma any_outside (ax : axis) (me : BolometricCorrection) (a : ndarray) :
  any_lt a (lower ax me) || any_gt a (upper ax me) = existsb (outside ax me) (elements a).
Proof.
  unfold any_lt, any_gt, outside.
  induction (elements a) as [ | x l IH ]; simpl; [ reflexivity | ].
  rewrite <- IH.
  destruct (x <? _)%f64, (x >? _)%f64, (existsb _ l), (existsb _ l); reflexivity.
Qed.

Lemma query_run (ax : axis) (h : gmap loc object) (self : loc) (me : BolometricCorrection)
      (a : ndarray) (verbose : bool) :
  h !! self = Some (BolometricCorrectionObj me) ->
  query ax self a verbose h =
    Outcome (Ok (apply (interpolant ax me) a)) h
            (if verbose && existsb (outside ax me) (elements a)
             then warning ax me else []).
Proof.
  intros Hself. rewrite <- any_outside.
  destruct ax; simpl.
  - apply get_BC_from_T_run, Hself.
  - apply get_BC_from_logT_run, Hself.
  - apply get_BC_from_BV_run, Hself.
Qed.

Lemma query_extrapolated (ax : axis) (h : gmap loc object) (self : loc)
      (me : BolometricCorrection) (a : ndarray) :
  h !! self = Some (BolometricCorrectionObj me) ->
  extrapolated (query ax self a true h) = existsb (outside ax me) (elements a).
Proof.
  intros Hself. rewrite (query_run ax h self me a true Hself).
  unfold extrapolated. simpl. destruct (existsb _ _); reflexivity.
Qed.

(** A query leaves the heap as it found it, whatever it is called on. *)
Lemma query_heap (ax : axis) (h : gmap loc object) (self : loc) (a : ndarray)
      (verbose : bool) :
  heap (query ax self a verbose h) = h.
Proof.
  destruct (h !! self) as [[df | me] | ] eqn:Hself.
  - destruct ax; unfold query, get_BC_from_T, get_BC_from_logT, get_BC_from_BV;
      unfold mbind at 1, M_bind, bind; unfold get_self, mbind, M_bind, bind, deref;
      simpl; rewrite Hself; reflexivity.
  - rewrite (query_run ax h self me a verbose Hself). reflexivity.
  - destruct ax; unfold query, get_BC_from_T, get_BC_from_logT, get_BC_from_BV;
      unfold mbind at 1, M_bind, bind; unfold get_self, mbind, M_bind, bind, deref;
      simpl; rewrite Hself; reflexivity.
Qed.

(** ** The constructor and the heap *)

Lemma get_frame_raise (h : gmap loc object) (d : loc) :
  (forall df, h !! d <> Some (DataFrameObj df)) ->
  exists e, get_frame d h = Outcome (Raise e) h [].
Proof.
  intros Hd. unfold get_frame, mbind, M_bind, bind, deref. simpl.
  destruct (h !! d) as [[df | me] | ]; simpl; eauto.
  destruct (Hd df). reflexivity.
Qed.

(** Called on a reference that holds no frame, the constructor raises at
    its first statement. *)
Lemma init_not_a_frame `{Interp1d} (h : gmap loc object) (d : loc) :
  (forall df, h !! d <> Some (DataFrameObj df)) ->
  exists e, __init__ d h = Outcome (Raise e) h [].
Proof.
  intros Hd. destruct (get_frame_raise h d Hd) as [e He]. exists e.
  unfold __init__, DataFrame_copy.
  apply bind_run_raise, bind_run_raise, He.
Qed.

Lemma insert_fresh_lookup (h : gmap loc object) (o o' : object) (l : loc) :
  h !! l = Some o -> <[fresh (dom h) := o']> h !! l = Some o.
Proof.
  intros Hl. rewrite lookup_insert_ne; [ exact Hl | ].
  intros E. apply (is_fresh (dom h)). rewrite E. apply elem_of_dom. eauto.
Qed.

(** The constructor only adds objects: whatever was in the heap is still
    there, unchanged, whether it returns or raises. *)
Lemma init_preserves `{Interp1d} (h : gmap loc object) (d l : loc) (o : object) :
  h !! l = Some o -> heap (__init__ d h) !! l = Some o.
Proof.
  intros Hl.
  destruct (h !! d) as [[df | me] | ] eqn:Hd.
  - rewrite (init_run _ _ _ Hd). cbv zeta.
    destruct (attributes _ _) as [me | e]; simpl;
      repeat apply insert_fresh_lookup; exact Hl.
  - destruct (init_not_a_frame h d) as [e ->]; [ congruence | exact Hl ].
  - destruct (init_not_a_frame h d) as [e ->]; [ congruence | exact Hl ].
Qed.

(** ** C6: batches *)

(** C6.  Called on a sequence of values, a query returns a sequence of the
    same length whose i-th value is what the query returns on the i-th
    value alone; the call is flagged as extrapolated exactly when some
    element lies outside the bounds of the axis ([x < min] or [x > max]).
    This holds on the three axes (and for every value, finite or not). *)
Theorem batch_query (ax : axis) (h : gmap loc object) (self : loc)
        (me : BolometricCorrection) (l : list float64) :
  h !! self = Some (BolometricCorrectionObj me) ->
  exists r : list float64,
    value (query ax self (Vector l) true h) = Ok (Vector r) /\
    length r = length l /\
    (forall (i : nat) (x : float64),
        l !! i = Some x ->
        exists y, r !! i = Some y /\
                  value (query ax self (Scalar x) true h) = Ok (Scalar y)) /\
    (extrapolated (query ax self (Vector l) true h) = true <->
     exists x, x ∈ l /\
               ((x <? as_float64 (lower ax me))%f64 = true \/
                (x >? as_float64 (upper ax me))%f64 = true)).
Proof.
  intros Hself. exists (map (interpolant ax me) l).
  rewrite (query_extrapolated ax h self me _ Hself).
  rewrite (query_run ax h self me _ true Hself). simpl.
  split; [ reflexivity | ].
  split; [ apply length_map | ].
  split.
  - intros i x Hi. exists (interpolant ax me x). split.
    + rewrite list_lookup_fmap, Hi. reflexivity.
    + rewrite (query_run ax h self me _ true Hself). reflexivity.
  - rewrite existsb_exists. unfold outside.
    split.
    + intros (x & Hin & Hout). exists x. split.
      * apply list_elem_of_In, Hin.
      * apply orb_true_iff, Hout.
    + intros (x & Hin & Hout). exists x. split.
      * apply list_elem_of_In, Hin.
      * apply orb_true_iff, Hout.
Qed.

(** ** C7: the value does not depend on the flag *)

(** C7.  The value a query returns is the interpolant applied to the query
    value, element by element: it is the same with [verbose=True] and with
    [verbose=False], and the same expression whether or not the value lies
    within the bounds.  This holds on the three axes. *)
Theorem value_independent_of_classification (ax : axis) (h : gmap loc object)
        (self : loc) (me : BolometricCorrection) (a : ndarray) :
  h !! self = Some (BolometricCorrectionObj me) ->
  value (query ax self a true h) = Ok (apply (interpolant ax me) a) /\
  value (query ax self a false h) = Ok (apply (interpolant ax me) a) /\
  value (query ax self a true h) = value (query ax self a false h).
Proof.
  intros Hself.
  rewrite !(query_run ax h self me a _ Hself). simpl. auto.
Qed.

(** ** The utility built from the embedded table *)

Lemma loaded_table : heap loaded !! 1%positive = Some (DataFrameObj embedded_table).
Proof.
  unfold loaded. rewrite load_bolometric_data_run. simpl.
  apply lookup_insert_eq.
Qed.

Lemma reference_built :
  value (__init__ (H := NaturalSpline.reference) 1%positive (heap loaded)) = Ok 4%positive.
Proof. vm_compute. reflexivity. Qed.

Lemma reference_instance :
  exists me,
    reference_heap !! 4%positive = Some (BolometricCorrectionObj me) /\
    reference_heap !! data me = Some (DataFrameObj (sort_values embedded_table T)) /\
    attributes (H := NaturalSpline.reference) (data me) (sort_values embedded_table T)
    = Ok me.
Proof.
  destruct (init_ok (H := NaturalSpline.reference) _ _ _ _ loaded_table reference_built)
    as (me & Hme & Hself & Hdata & _).
  exists me. auto.
Qed.

Lemma batch_query_witness :
  exists r : list float64,
    value (query Temperature 4%positive (Vector [of_int 5780; of_int 100000]) true
                 reference_heap) = Ok (Vector r) /\
    length r = 2%nat.
Proof.
  destruct reference_instance as (me & Hself & _).
  destruct (batch_query Temperature reference_heap 4%positive me
                        [of_int 5780; of_int 100000] Hself)
    as (r & Hvalue & Hlength & _).
  exists r. split; assumption.
Defined.

Lemma value_independent_of_classification_witness :
  value (query Temperature 4%positive (Scalar (of_int 100000)) true reference_heap) =
  value (query Temperature 4%positive (Scalar (of_int 100000)) false reference_heap).
Proof.
  destruct reference_instance as (me & Hself & _).
  exact (proj2 (proj2 (value_independent_of_classification
                         Temperature reference_heap 4%positive me
                         (Scalar (of_int 100000)) Hself))).
Defined.

(** ** C3: non-finite query values *)

Lemma nan_query_returns :
  value (get_BC_from_T 4%positive (Scalar nan) true reference_heap) = Ok (Scalar nan) /\
  output (get_BC_from_T 4%positive (Scalar nan) true reference_heap) = [] /\
  ~ (exists e, value (get_BC_from_T 4%positive (Scalar nan) true reference_heap) = Raise e).
Proof.
  assert (Hv : value (get_BC_from_T 4%positive (Scalar nan) true reference_heap)
               = Ok (Scalar nan))
    by (vm_compute; reflexivity).
  split; [ exact Hv | ].
  split; [ vm_compute; reflexivity | ].
  intros [e He]. rewrite Hv in He. discriminate.
Qed.

(** C3, as the code has it.  A query value that is not finite is not
    rejected: no query validates its argument.  The call returns what the
    interpolant gives for that value, and leaves the heap, hence the
    instance, as it was; a NaN is never flagged as extrapolated, since
    every comparison with NaN is false.  This holds on the three axes. *)
Theorem non_finite_query_returns (ax : axis) (h : gmap loc object) (self : loc)
        (me : BolometricCorrection) (x : float64) (verbose : bool) :
  h !! self = Some (BolometricCorrectionObj me) ->
  isfinite x = false ->
  value (query ax self (Scalar x) verbose h) = Ok (Scalar (interpolant ax me x)) /\
  heap (query ax self (Scalar x) verbose h) = h /\
  (isnan x = true -> extrapolated (query ax self (Scalar x) true h) = false).
Proof.
  intros Hself _.
  rewrite (query_extrapolated ax h self me _ Hself).
  rewrite (query_run ax h self me _ verbose Hself). simpl.
  split; [ reflexivity | ]. split; [ reflexivity | ].
  destruct x; try discriminate. intros _.
  unfold outside, Float64.gtb. rewrite ltb_nan_l, ltb_nan_r. reflexivity.
Qed.

Lemma non_finite_query_returns_witness :
  exists y, value (query Temperature 4%positive (Scalar inf) true reference_heap)
            = Ok (Scalar y).
Proof.
  destruct reference_instance as (me & Hself & _).
  exists (interpolant Temperature me inf).
  exact (proj1 (non_finite_query_returns Temperature reference_heap 4%positive me inf
                                         true Hself eq_refl)).
Defined.

(** ** C10: what construction and queries leave untouched *)

(** C10.  The constructor works on a copy: every object that was in the
    heap before the call, the caller's table among them, is there after
    it with the same content, whether the call returns or raises.  The
    table the instance stores is a new frame at a new reference, holding
    the rows sorted by [T].  No query changes the heap, so none changes
    the stored table, the interpolants or the bounds of an instance. *)
Theorem construction_leaves_table_unchanged `{Interp1d} (h : gmap loc object) (d : loc) :
  (forall (l : loc) (o : object), h !! l = Some o -> heap (__init__ d h) !! l = Some o) /\
  (forall (df : DataFrame) (self : loc),
      h !! d = Some (DataFrameObj df) ->
      value (__init__ d h) = Ok self ->
      heap (__init__ d h) !! d = Some (DataFrameObj df) /\
      exists me,
        heap (__init__ d h) !! self = Some (BolometricCorrectionObj me) /\
        heap (__init__ d h) !! data me = Some (DataFrameObj (sort_values df T)) /\
        data me <> d /\ h !! data me = None /\ h !! self = None) /\
  (forall (ax : axis) (h' : gmap loc object) (self : loc) (a : ndarray) (verbose : bool),
      heap (query ax self a verbose h') = h').
Proof.
  split; [ intros l o; apply init_preserves | ].
  split; [ | intros ax h' self a verbose; apply query_heap ].
  intros df self Hd Hok.
  split; [ apply init_preserves, Hd | ].
  destruct (init_ok h d self df Hd Hok) as (me & _ & Hself & Hdata & Hnew & Hnew' & Hne).
  exists me. auto.
Qed.

(** ** C5: construction and the size of the table *)










(** ** C2: the tabulated values are reproduced *)

Lemma scalar_value_Some (o : outcome object line ndarray) (y : float64) :
  scalar_value o = Some y -> value o = Ok (Scalar y).
Proof.
  unfold scalar_value. destruct (value o) as [[x | v] | e]; congruence.
Qed.

Lemma reproduced_spec (h : gmap loc object) (self : loc) (tol : float64) (r : Row) :
  reproduced h self tol r = true ->
  exists y1 y2 y3 : float64,
    (value (query Temperature self (Scalar (abscissa Temperature r)) true h)
     = Ok (Scalar y1) /\
     value (query LogTemperature self (Scalar (abscissa LogTemperature r)) true h)
     = Ok (Scalar y2) /\
     value (query ColorIndex self (Scalar (abscissa ColorIndex r)) true h)
     = Ok (Scalar y3)) /\
    (within tol y1 (val_BC r) = true /\ within tol y2 (val_BC r) = true /\
     within tol y3 (val_BC r) = true) /\
    (within tol y1 y2 = true /\ within tol y2 y3 = true /\ within tol y1 y3 = true) /\
    (extrapolated (query Temperature self (Scalar (abscissa Temperature r)) true h)
     = false /\
     extrapolated (query LogTemperature self (Scalar (abscissa LogTemperature r)) true h)
     = false /\
     extrapolated (query ColorIndex self (Scalar (abscissa ColorIndex r)) true h)
     = false).
Proof.
  unfold reproduced. cbv zeta.
  destruct (scalar_value (query Temperature _ _ _ _)) as [y1 | ] eqn:E1;
    [ | discriminate ].
  destruct (scalar_value (query LogTemperature _ _ _ _)) as [y2 | ] eqn:E2;
    [ | discriminate ].
  destruct (scalar_value (query ColorIndex _ _ _ _)) as [y3 | ] eqn:E3;
    [ | discriminate ].
  rewrite !andb_true_iff, !negb_true_iff.
  intros [[[[[[[[H1 H2] H3] H12] H23] H13] X1] X2] X3].
  exists y1, y2, y3.
  repeat split; auto using scalar_value_Some.
Qed.

Lemma embedded_table_reproduced :
  (let h := reference_heap in
   forallb (reproduced h 4%positive tolerance) embedded_table) = true.
Proof. vm_compute. reflexivity. Qed.

(** C2.  With the interpolator written from the specification, and the
    utility built from the embedded table: queried at the temperature, at
    the log-temperature and at the colour index of a row of the table, the
    three axes return the tabulated correction of that row within [1e-9],
    none of the three queries is flagged as extrapolated, and the three
    results agree with one another within [1e-9]. *)
Theorem tabulated_values_reproduced (r : Row) :
  r ∈ embedded_table ->
  exists y1 y2 y3 : float64,
    (value (query Temperature 4%positive (Scalar (of_int (val_T r))) true reference_heap)
     = Ok (Scalar y1) /\
     value (query LogTemperature 4%positive (Scalar (val_logT r)) true reference_heap)
     = Ok (Scalar y2) /\
     value (query ColorIndex 4%positive (Scalar (val_B_V r)) true reference_heap)
     = Ok (Scalar y3)) /\
    (within tolerance y1 (val_BC r) = true /\ within tolerance y2 (val_BC r) = true /\
     within tolerance y3 (val_BC r) = true) /\
    (within tolerance y1 y2 = true /\ within tolerance y2 y3 = true /\
     within tolerance y1 y3 = true) /\
    (extrapolated (query Temperature 4%positive (Scalar (of_int (val_T r))) true
                         reference_heap) = false /\
     extrapolated (query LogTemperature 4%positive (Scalar (val_logT r)) true
                         reference_heap) = false /\
     extrapolated (query ColorIndex 4%positive (Scalar (val_B_V r)) true
                         reference_heap) = false).
Proof.
  intros Hin.
  apply (reproduced_spec reference_heap 4%positive tolerance r).
  pose proof embedded_table_reproduced as Hall. cbv zeta in Hall.
  rewrite forallb_forall in Hall.
  apply Hall, list_elem_of_In, Hin.
Qed.

Lemma tabulated_values_reproduced_witness :
  exists y1 : float64,
    value (query Temperature 4%positive (Scalar (of_int 56728)) true reference_heap)
    = Ok (Scalar y1) /\
    within tolerance y1 (of_decimal true 4720 3) = true.
Proof.
  destruct (tabulated_values_reproduced
              (mkRow (of_decimal true 35 2) (of_decimal false 47538 4)
                     (of_decimal true 4720 3) 56728))
    as (y1 & y2 & y3 & (H1 & _) & (W1 & _) & _).
  - apply list_elem_of_here.
  - exists y1. split; [ exact H1 | exact W1 ].
Defined.

(** ** C9: two queries on the embedded table *)

Lemma solar_query_value :
  value (get_BC_from_T 4%positive (Scalar (of_int 5780)) true reference_heap)
  = Ok (Scalar (S754_finite true 5744687786217348 (-56))).
Proof. vm_compute. reflexivity. Qed.

Lemma hot_query_value :
  value (get_BC_from_T 4%positive (Scalar (of_int 100000)) true reference_heap)
  = Ok (Scalar (S754_finite true 5103041856311654 (-48))).
Proof. vm_compute. reflexivity. Qed.

(** At 5780 K the interpolant gives about -0.0797, which is above -0.15:
    the value is not in the range from -0.16 to -0.15. *)
Lemma solar_bc_outside_claimed_range :
  exists y : float64,
    value (get_BC_from_T 4%positive (Scalar (of_int 5780)) true reference_heap)
    = Ok (Scalar y) /\
    (of_decimal true 15 2 <? y)%f64 = true /\
    ((of_decimal true 16 2 <=? y)%f64 && (y <=? of_decimal true 15 2)%f64) = false.
Proof.
  eexists. split; [ exact solar_query_value | ].
  split; vm_compute; reflexivity.
Qed.

(** C9, as the code has it.  With the interpolator written from the
    specification and the embedded table, the query at 5780 K returns a
    correction between -0.080 and -0.079 (the rows next to it are
    T = 5784 with BC = -0.079 and T = 5751 with BC = -0.085) and is not
    flagged; the query at 100000 K returns a finite correction and is
    flagged as extrapolated. *)
Theorem solar_and_hot_queries :
  (exists y : float64,
      value (get_BC_from_T 4%positive (Scalar (of_int 5780)) true reference_heap)
      = Ok (Scalar y) /\
      (of_decimal true 80 3 <=? y)%f64 = true /\
      (y <=? of_decimal true 79 3)%f64 = true /\
      extrapolated (get_BC_from_T 4%positive (Scalar (of_int 5780)) true reference_heap)
      = false) /\
  (exists y : float64,
      value (get_BC_from_T 4%positive (Scalar (of_int 100000)) true reference_heap)
      = Ok (Scalar y) /\
      isfinite y = true /\
      extrapolated (get_BC_from_T 4%positive (Scalar (of_int 100000)) true reference_heap)
      = true) /\
  mkRow (of_decimal false 63 2) (of_decimal false 37623 4) (of_decimal true 79 3) 5784
    ∈ embedded_table /\
  mkRow (of_decimal false 64 2) (of_decimal false 37598 4) (of_decimal true 85 3) 5751
    ∈ embedded_table.
Proof.
  split; [ | split; [ | split ] ].
  - eexists. split; [ exact solar_query_value | ].
    repeat split; vm_compute; reflexivity.
  - eexists. split; [ exact hot_query_value | ].
    repeat split; vm_compute; reflexivity.
  - apply list_elem_of_In. unfold embedded_table.
    do 98 right. left. reflexivity.
  - apply list_elem_of_In. unfold embedded_table.
    do 99 right. left. reflexivity.
Qed.

(** ** Bounds on large powers *)

Module DecimalBoundsFacts.
Import DecimalBounds.

Lemma trim_contains (b : bounds) (v : Z) : contains b v -> contains (trim b) v.
Proof.
  unfold contains, trim. cbv zeta. simpl.
  set (s := Z.max 0 (Z.log2 (hi b) * 3 / 10 - digits_kept)).
  assert (Hs : 0 <= s) by (unfold s; lia).
  assert (Hp : 0 < 10 ^ s) by (apply Z.pow_pos_nonneg; lia).
  intros (Hlo & Hex & Hl & Hh).
  assert (Hpe : 0 < 10 ^ ex b) by (apply Z.pow_pos_nonneg; lia).
  rewrite Z.pow_add_r by lia.
  split; [ apply Z.div_pos; lia | ].
  split; [ lia | ].
  pose proof (Z.mul_div_le (lo b) (10 ^ s) Hp) as Hd.
  pose proof (Z.mul_succ_div_gt (hi b + 10 ^ s - 1) (10 ^ s) Hp) as Hu.
  split; nia.
Qed.

Lemma times_contains (a b : bounds) (v w : Z) :
  contains a v -> contains b w -> contains (times a b) (v * w).
Proof.
  intros (Hlo & Hex & Hl & Hh) (Hlo' & Hex' & Hl' & Hh').
  apply trim_contains. unfold contains. simpl.
  assert (Hpe : 0 < 10 ^ ex a) by (apply Z.pow_pos_nonneg; lia).
  assert (Hpe' : 0 < 10 ^ ex b) by (apply Z.pow_pos_nonneg; lia).
  rewrite Z.pow_add_r by lia.
  split; [ nia | ]. split; [ lia | ].
  assert (0 <= lo a * 10 ^ ex a) by nia.
  assert (0 <= lo b * 10 ^ ex b) by nia.
  split.
  - transitivity ((lo a * 10 ^ ex a) * (lo b * 10 ^ ex b)); [ lia | ].
    apply Z.mul_le_mono_nonneg; lia.
  - transitivity ((hi a * 10 ^ ex a) * (hi b * 10 ^ ex b)); [ | lia ].
    apply Z.mul_le_mono_nonneg; lia.
Qed.

Lemma exactly_contains (t : Z) : 0 <= t -> contains (exactly t) t.
Proof. intros Ht. unfold contains. simpl. lia. Qed.

Lemma power_contains (t : Z) (n : positive) :
  0 <= t -> contains (power t n) (t ^ Zpos n).
Proof.
  intros Ht. induction n as [ n IH | n IH | ]; simpl power.
  - replace (t ^ Zpos n~1) with ((t ^ Zpos n * t ^ Zpos n) * t).
    + apply times_contains; [ apply times_contains; exact IH | apply exactly_contains, Ht ].
    + rewrite Pos2Z.inj_xI, Z.pow_add_r, Z.pow_1_r by lia.
      rewrite <- Z.pow_add_r by lia. do 2 f_equal. lia.
  - replace (t ^ Zpos n~0) with (t ^ Zpos n * t ^ Zpos n).
    + apply times_contains; exact IH.
    + rewrite Pos2Z.inj_xO. rewrite <- Z.pow_add_r by lia. f_equal. lia.
  - rewrite Z.pow_1_r. apply exactly_contains, Ht.
Qed.

Lemma power_le_power10_sound (t : Z) (n : positive) (m : Z) :
  0 <= t -> power_le_power10 t n m = true -> t ^ Zpos n <= 10 ^ m.
Proof.
  intros Ht. unfold power_le_power10. cbv zeta.
  destruct (power_contains t n Ht) as (Hlo & Hex & Hl & Hh).
  intros Hc. apply andb_prop in Hc as [He Hc].
  apply Z.leb_le in He, Hc.
  replace m with ((m - ex (power t n)) + ex (power t n)) at 1 by lia.
  rewrite Z.pow_add_r by lia.
  assert (0 < 10 ^ ex (power t n)) by (apply Z.pow_pos_nonneg; lia).
  nia.
Qed.

Lemma power10_lt_power_sound (t : Z) (n : positive) (m : Z) :
  0 <= t -> power10_lt_power m t n = true -> 10 ^ m < t ^ Zpos n.
Proof.
  intros Ht. unfold power10_lt_power. cbv zeta.
  destruct (power_contains t n Ht) as (Hlo & Hex & Hl & Hh).
  intros Hc. apply andb_prop in Hc as [He Hc].
  apply Z.leb_le in He. apply Z.ltb_lt in Hc.
  replace m with ((m - ex (power t n)) + ex (power t n)) at 1 by lia.
  rewrite Z.pow_add_r by lia.
  assert (0 < 10 ^ ex (power t n)) by (apply Z.pow_pos_nonneg; lia).
  nia.
Qed.

End DecimalBoundsFacts.

Lemma temperature_is_floor_spec (rec : list number) :
  temperature_is_floor rec = true ->
  exists (b_v bc : number) (m t : Z),
    rec = [b_v; (false, m, Some 4%nat); bc; (false, t, None)] /\
    t ^ 10000 <= 10 ^ m < (t + 1) ^ 10000.
Proof.
  unfold temperature_is_floor.
  destruct rec as [ | b_v [ | [[[] m] [[ | [ | [ | [ | [ | k]]]]] | ]]
                             [ | bc [ | [[[] t] [ k' | ]] [ | ? ?]]]]];
    try discriminate.
  rewrite !andb_true_iff, Z.leb_le. intros [[Ht Hle] Hlt].
  exists b_v, bc, m, t. split; [ reflexivity | ].
  split.
  - apply (DecimalBoundsFacts.power_le_power10_sound t 10000 m Ht Hle).
  - apply (DecimalBoundsFacts.power10_lt_power_sound (t + 1) 10000 m); [ lia | exact Hlt ].
Qed.

(** ** The order of the rows *)

Ltac compare_cases :=
  repeat match goal with
         | |- context [Pos.compare_cont Eq ?a ?b] =>
             change (Pos.compare_cont Eq a b) with (Pos.compare a b)
         | H : context [Pos.compare_cont Eq ?a ?b] |- _ =>
             change (Pos.compare_cont Eq a b) with (Pos.compare a b) in H
         end;
  repeat match goal with
         | H : context [(?a ?= ?b)%positive] |- _ =>
             destruct (Pos.compare_spec a b); simpl in H; try discriminate H
         | H : context [(?a ?= ?b)%Z] |- _ =>
             destruct (Z.compare_spec a b); simpl in H; try discriminate H
         end;
  repeat match goal with
         | |- context [(?a ?= ?b)%Z] => destruct (Z.compare_spec a b); simpl
         | |- context [(?a ?= ?b)%positive] => destruct (Pos.compare_spec a b); simpl
         end;
  try reflexivity; try lia.

Lemma ltb_trans (x y z : float64) :
  (x <? y)%f64 = true -> (y <? z)%f64 = true -> (x <? z)%f64 = true.
Proof.
  unfold Float64.ltb, SFltb.
  destruct x as [[]|[]| |[] m1 e1], y as [[]|[]| |[] m2 e2], z as [[]|[]| |[] m3 e3];
    simpl; try discriminate; try reflexivity; intros H1 H2; compare_cases.
Qed.

Lemma row_lt_trans (r1 r2 r3 : Row) :
  row_lt r1 r2 = true -> row_lt r2 r3 = true -> row_lt r1 r3 = true.
Proof.
  unfold row_lt. rewrite !andb_true_iff, !Z.ltb_lt.
  intros [[HT HL] HB] [[HT' HL'] HB'].
  repeat split; [ lia | eapply ltb_trans; eassumption | eapply ltb_trans; eassumption ].
Qed.

Lemma chain_tail {A : Type} (R : A -> A -> bool) (x : A) (l : list A) :
  chain R (x :: l) = true -> chain R l = true.
Proof.
  destruct l as [ | y l ]; simpl; [ reflexivity | ].
  intros H. apply andb_prop in H. tauto.
Qed.

Lemma chain_head {A : Type} (R : A -> A -> bool) :
  (forall x y z, R x y = true -> R y z = true -> R x z = true) ->
  forall (l : list A) (x y : A) (j : nat),
    chain R (x :: l) = true -> l !! j = Some y -> R x y = true.
Proof.
  intros Htrans l. induction l as [ | y0 l IH ]; intros x y j Hc Hj.
  - discriminate.
  - simpl in Hc. apply andb_prop in Hc as [Hxy0 Hc].
    destruct j as [ | j ]; simpl in Hj.
    + injection Hj as <-. exact Hxy0.
    + apply (Htrans x y0 y Hxy0). apply (IH y0 y j Hc Hj).
Qed.

Lemma chain_pairs {A : Type} (R : A -> A -> bool) :
  (forall x y z, R x y = true -> R y z = true -> R x z = true) ->
  forall (l : list A) (i j : nat) (x y : A),
    chain R l = true -> (i < j)%nat -> l !! i = Some x -> l !! j = Some y ->
    R x y = true.
Proof.
  intros Htrans l. induction l as [ | x0 l IH ]; intros i j x y Hc Hij Hi Hj.
  - discriminate.
  - destruct j as [ | j ]; [ lia | ]. simpl in Hj.
    destruct i as [ | i ]; simpl in Hi.
    + injection Hi as <-. apply (chain_head R Htrans l x0 y j Hc Hj).
    + apply (IH i j x y (chain_tail R x0 l Hc)); [ lia | exact Hi | exact Hj ].
Qed.

(** ** The model of pandas: what [sort_values] computes *)

Lemma insert_row_Permutation (by_ : column) (r : Row) (l : list Row) :
  insert_row by_ r l ≡ₚ r :: l.
Proof.
  induction l as [ | r' l IH ]; simpl; [ reflexivity | ].
  destruct (key_le by_ r r'); [ reflexivity | ].
  rewrite IH. apply Permutation_swap.
Qed.

(** Sorting keeps the rows: the sorted frame holds the rows of the frame
    it was made from, each as many times. *)
Lemma sort_values_Permutation (df : DataFrame) (by_ : column) :
  sort_values df by_ ≡ₚ df.
Proof.
  unfold sort_values. induction df as [ | r df IH ]; simpl; [ reflexivity | ].
  rewrite insert_row_Permutation, IH. reflexivity.
Qed.

Lemma insert_row_T_sorted (r : Row) (l : list Row) :
  chain (fun r1 r2 => val_T r1 <=? val_T r2) l = true ->
  chain (fun r1 r2 => val_T r1 <=? val_T r2) (insert_row T r l) = true.
Proof.
  induction l as [ | r' l IH ]; intros Hc; [ reflexivity | ].
  simpl insert_row. destruct (val_T r <=? val_T r') eqn:Hle.
  - change (((val_T r <=? val_T r') && chain (fun r1 r2 => val_T r1 <=? val_T r2) (r' :: l))
            = true).
    rewrite Hle, Hc. reflexivity.
  - specialize (IH (chain_tail _ _ _ Hc)).
    destruct l as [ | r'' l ]; simpl in *.
    + apply Z.leb_gt in Hle. rewrite andb_true_r. apply Z.leb_le. lia.
    + destruct (val_T r <=? val_T r'') eqn:Hle'.
      * apply Z.leb_gt in Hle.
        apply andb_true_intro. split; [ apply Z.leb_le; lia | exact IH ].
      * apply andb_prop in Hc as [Hc1 Hc2].
        apply andb_true_intro. split; [ exact Hc1 | exact IH ].
Qed.

(** The frame sorted by [T] is in ascending order of temperature, for
    every frame. *)
Lemma sort_values_T_sorted (df : DataFrame) :
  chain (fun r1 r2 => val_T r1 <=? val_T r2) (sort_values df T) = true.
Proof.
  unfold sort_values. induction df as [ | r df IH ]; simpl; [ reflexivity | ].
  apply insert_row_T_sorted, IH.
Qed.

Lemma sort_values_T_ascending (df : DataFrame) (i j : nat) (r1 r2 : Row) :
  (i < j)%nat ->
  sort_values df T !! i = Some r1 ->
  sort_values df T !! j = Some r2 ->
  val_T r1 <= val_T r2.
Proof.
  intros Hij Hi Hj. apply Z.leb_le.
  apply (chain_pairs (fun r1 r2 => val_T r1 <=? val_T r2)) with
    (l := sort_values df T) (i := i) (j := j); auto using sort_values_T_sorted.
  intros x y z Hxy Hyz. apply Z.leb_le. apply Z.leb_le in Hxy, Hyz. lia.
Qed.

(** ** C8: the order of the stored table *)

Lemma sorted_embedded_table : sort_values embedded_table T = reverse embedded_table.
Proof. vm_compute. reflexivity. Qed.

Lemma sorted_embedded_chain : chain row_lt (sort_values embedded_table T) = true.
Proof. vm_compute. reflexivity. Qed.

Lemma embedded_records_rows : mapM row_of_record embedded_records = Some embedded_table.
Proof. vm_compute. reflexivity. Qed.

Lemma embedded_records_floor : forallb temperature_is_floor embedded_records = true.
Proof. vm_compute. reflexivity. Qed.

(** The row of colour index 1.78 has log-temperature 3.4860 and
    temperature 3061, while [3061^10000 <= 10^34859], that is
    [log10 3061 <= 3.4859]: the tabulated log-temperature is not the
    decimal logarithm of the tabulated temperature, and differs from it
    by at least one unit of its last digit. *)
Lemma log_temperature_is_not_log10 :
  embedded_records !! 213%nat
  = Some [(false, 178, Some 2%nat); (false, 34860, Some 4%nat);
          (true, 4544, Some 3%nat); (false, 3061, None)] /\
  3061 ^ 10000 <= 10 ^ 34859 /\
  3061 ^ 10000 <> 10 ^ 34860.
Proof.
  assert (Hle : 3061 ^ 10000 <= 10 ^ 34859).
  { apply (DecimalBoundsFacts.power_le_power10_sound 3061 10000 34859).
    - discriminate.
    - vm_compute. reflexivity. }
  assert (Hpow : 10 ^ 34859 < 10 ^ 34860).
  { apply Z.pow_lt_mono_r; [ reflexivity | discriminate | reflexivity ]. }
  split; [ vm_compute; reflexivity | ].
  split; [ exact Hle | ].
  intros E. rewrite E in Hle.
  apply (Z.lt_irrefl (10 ^ 34859)).
  apply Z.lt_le_trans with (m := 10 ^ 34860); assumption.
Qed.

(** C8, as the code has it.  The frame [load_bolometric_data] returns is
    in the order of the text; the table an instance stores is the copy
    the constructor sorts by temperature: for every table it holds the
    same rows in ascending order of temperature.  For the embedded table that
    copy is the text in reverse order, and it is at once strictly
    ascending in temperature, strictly ascending in log-temperature and
    strictly descending in colour index.  The tabulated log-temperature
    is not exactly the decimal logarithm of the tabulated temperature:
    in every row the temperature is the integer part of ten to the power
    of the log-temperature, [T^10000 <= 10^(10000 logT) < (T + 1)^10000]. *)
Theorem stored_table_order :
  (forall (df : DataFrame) (i j : nat) (r1 r2 : Row),
      (i < j)%nat ->
      sort_values df T !! i = Some r1 ->
      sort_values df T !! j = Some r2 ->
      val_T r1 <= val_T r2) /\
  (forall df : DataFrame, sort_values df T ≡ₚ df) /\
  (forall (H : Interp1d) (self : loc),
      value (__init__ 1%positive (heap loaded)) = Ok self ->
      exists me,
        heap (__init__ 1%positive (heap loaded)) !! self
        = Some (BolometricCorrectionObj me) /\
        heap (__init__ 1%positive (heap loaded)) !! data me
        = Some (DataFrameObj (sort_values embedded_table T))) /\
  heap loaded !! 1%positive = Some (DataFrameObj embedded_table) /\
  sort_values embedded_table T = reverse embedded_table /\
  (forall (i j : nat) (r1 r2 : Row),
      (i < j)%nat ->
      sort_values embedded_table T !! i = Some r1 ->
      sort_values embedded_table T !! j = Some r2 ->
      val_T r1 < val_T r2 /\
      (val_logT r1 <? val_logT r2)%f64 = true /\
      (val_B_V r2 <? val_B_V r1)%f64 = true) /\
  mapM row_of_record embedded_records = Some embedded_table /\
  (forall rec : list number,
      rec ∈ embedded_records ->
      exists (b_v bc : number) (m t : Z),
        rec = [b_v; (false, m, Some 4%nat); bc; (false, t, None)] /\
        t ^ 10000 <= 10 ^ m < (t + 1) ^ 10000).
Proof.
  split; [ exact sort_values_T_ascending | ].
  split; [ intros df; apply sort_values_Permutation | ].
  split.
  { intros H self Hok.
    destruct (init_ok _ _ _ _ loaded_table Hok) as (me & _ & Hself & Hdata & _).
    exists me. split; assumption. }
  split; [ exact loaded_table | ].
  split; [ exact sorted_embedded_table | ].
  split.
  { intros i j r1 r2 Hij Hi Hj.
    pose proof (chain_pairs row_lt row_lt_trans _ i j r1 r2
                            sorted_embedded_chain Hij Hi Hj) as Hlt.
    unfold row_lt in Hlt. rewrite !andb_true_iff, Z.ltb_lt in Hlt. tauto. }
  split; [ exact embedded_records_rows | ].
  intros rec Hin. apply temperature_is_floor_spec.
  pose proof embedded_records_floor as Hall.
  rewrite forallb_forall in Hall. apply Hall, list_elem_of_In, Hin.
Qed.

Lemma stored_table_order_witness :
  val_T (mkRow (of_decimal false 180 2) (of_decimal false 34678 4)
               (of_decimal true 5535 3) 2936)
  < val_T (mkRow (of_decimal false 179 2) (of_decimal false 34772 4)
                 (of_decimal true 5004 3) 3000).
Proof.
  refine (proj1 (proj1 (proj2 (proj2 (proj2 (proj2 (proj2 stored_table_order)))))
                       0%nat 1%nat _ _ _ _ _)).
  - lia.
  - vm_compute. reflexivity.
  - vm_compute. reflexivity.
Defined.

Lemma construction_leaves_table_unchanged_witness :
  heap (__init__ (H := NaturalSpline.reference) 1%positive (heap loaded)) !! 1%positive
  = Some (DataFrameObj embedded_table).
Proof.
  exact (proj1 (construction_leaves_table_unchanged
                  (H := NaturalSpline.reference) (heap loaded) 1%positive)
               1%positive (DataFrameObj embedded_table) loaded_table).
Defined.

(** ** The model of pandas: what [min] and [max] compute *)

Lemma fold_left_min_spec (v : list Z) (z : Z) :
  (fold_left Z.min v z = z \/ In (fold_left Z.min v z) v) /\
  fold_left Z.min v z <= z /\
  (forall x, In x v -> fold_left Z.min v z <= x).
Proof.
  revert z. induction v as [ | y v IH ]; intros z; simpl.
  - split; [ left; reflexivity | ]. split; [ lia | tauto ].
  - destruct (IH (Z.min z y)) as (Hin & Hle & Hall).
    split; [ | split ].
    + destruct Hin as [-> | Hin]; [ | tauto ].
      destruct (Z.min_spec z y) as [[_ ->] | [_ ->]]; tauto.
    + lia.
    + intros x [<- | Hx]; [ lia | apply Hall, Hx ].
Qed.

Lemma fold_left_max_spec (v : list Z) (z : Z) :
  (fold_left Z.max v z = z \/ In (fold_left Z.max v z) v) /\
  z <= fold_left Z.max v z /\
  (forall x, In x v -> x <= fold_left Z.max v z).
Proof.
  revert z. induction v as [ | y v IH ]; intros z; simpl.
  - split; [ left; reflexivity | ]. split; [ lia | tauto ].
  - destruct (IH (Z.max z y)) as (Hin & Hle & Hall).
    split; [ | split ].
    + destruct Hin as [-> | Hin]; [ | tauto ].
      destruct (Z.max_spec z y) as [[_ ->] | [_ ->]]; tauto.
    + lia.
    + intros x [<- | Hx]; [ lia | apply Hall, Hx ].
Qed.

(** On a column of integers that is not empty, [min()] and [max()] are
    values of the column, below and above every value of the column. *)
Lemma Series_min_max_int (z : Z) (v : list Z) :
  exists lo hi : Z,
    Series_min (Int64Series (z :: v)) = Int64 lo /\
    Series_max (Int64Series (z :: v)) = Int64 hi /\
    In lo (z :: v) /\ In hi (z :: v) /\
    (forall x, In x (z :: v) -> lo <= x <= hi).
Proof.
  exists (fold_left Z.min v z), (fold_left Z.max v z).
  destruct (fold_left_min_spec v z) as (Hin & Hle & Hall).
  destruct (fold_left_max_spec v z) as (Hin' & Hle' & Hall').
  repeat split; try reflexivity.
  - simpl. destruct Hin as [-> | Hin]; tauto.
  - simpl. destruct Hin' as [-> | Hin']; tauto.
  - destruct H as [<- | Hx]; [ exact Hle | apply Hall, Hx ].
  - destruct H as [<- | Hx]; [ exact Hle' | apply Hall', Hx ].
Qed.

(** On values that are not NaN, [<] is a strict weak order: if [x < z],
    any [y] is above [x] or below [z]. *)
Lemma ltb_cotrans (x y z : float64) :
  isnan y = false ->
  (x <? z)%f64 = true -> (x <? y)%f64 = true \/ (y <? z)%f64 = true.
Proof.
  unfold Float64.ltb, SFltb.
  destruct x as [[]|[]| |[] m1 e1], y as [[]|[]| |[] m2 e2], z as [[]|[]| |[] m3 e3];
    simpl; try discriminate; try tauto; intros _ H1; compare_cases;
    try (left; reflexivity); try (right; reflexivity).
Qed.

Lemma ltb_irrefl (x : float64) : (x <? x)%f64 = false.
Proof.
  unfold Float64.ltb, SFltb.
  destruct x as [[]|[]| |[] m e]; simpl; try reflexivity;
    rewrite Z.compare_refl;
    change (Pos.compare_cont Eq m m) with (Pos.compare m m);
    rewrite Pos.compare_refl; reflexivity.
Qed.

Section Extremum.

(** [better x y]: [x] is to be preferred to [y]; [<] for a minimum,
    [>] for a maximum. *)
Variable better : float64 -> float64 -> bool.
Hypothesis better_irrefl : forall x, better x x = false.
Hypothesis better_trans :
  forall x y z, better x y = true -> better y z = true -> better x z = true.
Hypothesis better_cotrans :
  forall x y z, isnan y = false ->
                better x z = true -> better x y = true \/ better y z = true.

Let step (acc x : float64) : float64 :=
  if isnan x then acc
  else if isnan acc then x
  else if better x acc then x else acc.

Lemma extremum_from (v : list float64) (acc : float64) :
  isnan acc = false ->
  isnan (fold_left step v acc) = false /\
  (fold_left step v acc = acc \/ In (fold_left step v acc) v) /\
  better acc (fold_left step v acc) = false /\
  (forall x, In x v -> isnan x = false -> better x (fold_left step v acc) = false).
Proof.
  revert acc. induction v as [ | y v IH ]; intros acc Hacc; simpl.
  - split; [ exact Hacc | ]. split; [ left; reflexivity | ].
    split; [ apply better_irrefl | tauto ].
  - assert (E : step acc y
                = if isnan y then acc else if better y acc then y else acc)
      by (unfold step; rewrite Hacc; reflexivity).
    rewrite E. clear E. destruct (isnan y) eqn:Hy; [ | destruct (better y acc) eqn:Hya ].
    + destruct (IH acc Hacc) as (Hm & Hin & Hb & Hall).
      split; [ exact Hm | ]. split; [ tauto | ]. split; [ exact Hb | ].
      intros x [<- | Hx] Hnan; [ congruence | apply Hall; assumption ].
    + destruct (IH y Hy) as (Hm & Hin & Hb & Hall).
      split; [ exact Hm | ]. split; [ destruct Hin as [-> | Hin]; auto | ]. split.
      * destruct (better acc (fold_left step v y)) eqn:E; [ | reflexivity ].
        rewrite (better_trans _ _ _ Hya E) in Hb. discriminate.
      * intros x [<- | Hx] Hnan; [ exact Hb | apply Hall; assumption ].
    + destruct (IH acc Hacc) as (Hm & Hin & Hb & Hall).
      split; [ exact Hm | ]. split; [ tauto | ]. split; [ exact Hb | ].
      intros x [<- | Hx] Hnan; [ | apply Hall; assumption ].
      destruct (better y (fold_left step v acc)) eqn:E; [ | reflexivity ].
      destruct (better_cotrans _ acc _ Hacc E) as [H | H]; congruence.
Qed.

Lemma extremum_spec (v : list float64) (x : float64) :
  In x v -> isnan x = false ->
  isnan (fold_left step v nan) = false /\
  In (fold_left step v nan) v /\
  better x (fold_left step v nan) = false.
Proof.
  induction v as [ | y v IH ]; intros Hin Hx; [ destruct Hin | ].
  simpl.
  assert (E : step nan y = if isnan y then nan else y)
    by (unfold step; destruct (isnan y); reflexivity).
  rewrite E. clear E. destruct (isnan y) eqn:Hy.
  - destruct Hin as [<- | Hin]; [ congruence | ].
    destruct (IH Hin Hx) as (Hm & Hmem & Hb). tauto.
  - destruct (extremum_from v y Hy) as (Hm & Hmem & Hb & Hall).
    split; [ exact Hm | ]. split; [ destruct Hmem as [-> | Hmem]; auto | ].
    destruct Hin as [<- | Hin]; [ exact Hb | apply Hall; assumption ].
Qed.

End Extremum.

(** [min()] and [max()] of a column of floats: when the column has a value
    that is not NaN, the result is such a value of the column, and no
    value of the column is below the minimum or above the maximum. *)
Lemma nanmin_spec (v : list float64) (x : float64) :
  In x v -> isnan x = false ->
  isnan (nanmin v) = false /\ In (nanmin v) v /\ (x <? nanmin v)%f64 = false.
Proof.
  apply (extremum_spec Float64.ltb ltb_irrefl ltb_trans ltb_cotrans).
Qed.

Lemma nanmax_spec (v : list float64) (x : float64) :
  In x v -> isnan x = false ->
  isnan (nanmax v) = false /\ In (nanmax v) v /\ (x >? nanmax v)%f64 = false.
Proof.
  apply (extremum_spec Float64.gtb).
  - intros a. apply ltb_irrefl.
  - intros a b c Hab Hbc. unfold Float64.gtb in *. eapply ltb_trans; eassumption.
  - intros a b c Hb Hac. unfold Float64.gtb in *.
    destruct (ltb_cotrans c b a Hb Hac); tauto.
Qed.

(** The bounds of a frame enclose its rows: no tabulated log-temperature
    or colour index is below the minimum or above the maximum of its
    column, and every tabulated temperature lies between the integer
    minimum and maximum of its column. *)
Lemma column_bounds_enclose (df : DataFrame) (r : Row) :
  In r df ->
  (isnan (val_logT r) = false ->
   (val_logT r <? as_float64 (Series_min (getitem df logT)))%f64 = false /\
   (val_logT r >? as_float64 (Series_max (getitem df logT)))%f64 = false) /\
  (isnan (val_B_V r) = false ->
   (val_B_V r <? as_float64 (Series_min (getitem df B_V)))%f64 = false /\
   (val_B_V r >? as_float64 (Series_max (getitem df B_V)))%f64 = false) /\
  (exists lo hi : Z,
      Series_min (getitem df T) = Int64 lo /\
      Series_max (getitem df T) = Int64 hi /\
      lo <= val_T r <= hi).
Proof.
  intros Hin. split; [ | split ].
  - intros Hnan. simpl.
    assert (Hin' : In (val_logT r) (map val_logT df)) by (apply in_map, Hin).
    destruct (nanmin_spec _ _ Hin' Hnan) as (_ & _ & Hmin).
    destruct (nanmax_spec _ _ Hin' Hnan) as (_ & _ & Hmax).
    split; assumption.
  - intros Hnan. simpl.
    assert (Hin' : In (val_B_V r) (map val_B_V df)) by (apply in_map, Hin).
    destruct (nanmin_spec _ _ Hin' Hnan) as (_ & _ & Hmin).
    destruct (nanmax_spec _ _ Hin' Hnan) as (_ & _ & Hmax).
    split; assumption.
  - assert (Hin' : In (val_T r) (map val_T df)) by (apply in_map, Hin).
    simpl getitem. destruct (map val_T df) as [ | z v ]; [ destruct Hin' | ].
    destruct (Series_min_max_int z v) as (lo & hi & Hlo & Hhi & _ & _ & Hall).
    exists lo, hi. split; [ exact Hlo | ]. split; [ exact Hhi | ].
    apply Hall, Hin'.
Qed.

(** ** C4: the interpolants are natural cubic splines *)














(** ** Console programs: what they leave untouched and what they write *)

Lemma emits_ret {A : Type} (P : console -> Prop) (a : A) : emits P (mret a).
Proof. intros h. split; [ reflexivity | constructor ]. Qed.

Lemma emits_raise {A : Type} (P : console -> Prop) (e : exception) :
  emits P (raise e : Con A).
Proof. intros h. split; [ reflexivity | constructor ]. Qed.

Lemma emits_print (P : console -> Prop) (l : console) : P l -> emits P (print l).
Proof. intros Hl h. split; [ reflexivity | repeat constructor; exact Hl ]. Qed.

Lemma emits_bind {A B : Type} (P : console -> Prop) (m : Con A) (k : A -> Con B) :
  emits P m -> (forall a, emits P (k a)) -> emits P (m ≫= k).
Proof.
  intros Hm Hk h. destruct (Hm h) as [Hh Hout].
  unfold mbind, M_bind, bind.
  destruct (value (m h)) as [a | e]; simpl.
  - destruct (Hk a (heap (m h))) as [Hh' Hout'].
    split; [ congruence | apply Forall_app; split; assumption ].
  - split; assumption.
Qed.

Lemma emits_try_except {A : Type} (P : console -> Prop) (body : Con A)
      (caught : exception -> bool) (handler : exception -> Con A) :
  emits P body -> (forall e, emits P (handler e)) ->
  emits P (try_except body caught handler).
Proof.
  intros Hm Hk h. destruct (Hm h) as [Hh Hout].
  unfold try_except.
  destruct (value (body h)) as [a | e]; [ split; assumption | ].
  destruct (caught e); [ | split; assumption ].
  destruct (Hk e (heap (body h))) as [Hh' Hout']. simpl.
  split; [ congruence | apply Forall_app; split; assumption ].
Qed.

(** A method of the class that leaves the heap as it is and prints
    nothing leaves no trace on the console. *)
Lemma emits_in_class_silent {A : Type} (P : console -> Prop) (m : Py A) :
  (forall h, heap (m h) = h /\ output (m h) = []) -> emits P (in_class m).
Proof.
  intros Hm h. destruct (Hm h) as [Hh Hout]. unfold in_class. simpl.
  rewrite Hout. split; [ exact Hh | constructor ].
Qed.

(** Called with [verbose=False], a query prints nothing, whatever it is
    called on. *)
Lemma query_silent (ax : axis) (h : gmap loc object) (self : loc) (a : ndarray) :
  heap (query ax self a false h) = h /\ output (query ax self a false h) = [].
Proof.
  split; [ apply query_heap | ].
  destruct (h !! self) as [[df | me] | ] eqn:Hself.
  - destruct ax; unfold query, get_BC_from_T, get_BC_from_logT, get_BC_from_BV;
      unfold mbind at 1, M_bind, bind; unfold get_self, mbind, M_bind, bind, deref;
      simpl; rewrite Hself; reflexivity.
  - rewrite (query_run ax h self me a false Hself). reflexivity.
  - destruct ax; unfold query, get_BC_from_T, get_BC_from_logT, get_BC_from_BV;
      unfold mbind at 1, M_bind, bind; unfold get_self, mbind, M_bind, bind, deref;
      simpl; rewrite Hself; reflexivity.
Qed.

Section ConsoleFacts.

Context `{Interp1d} `{Environment}.

Lemma emits_float_or_raise (P : console -> Prop) (text : list ascii) :
  emits P (float_or_raise text).
Proof.
  unfold float_or_raise. destruct (float text); [ apply emits_ret | apply emits_raise ].
Qed.

Lemma emits_batch_body (bc_util : loc) (i : nat) (line : list ascii) :
  emits (fun c => is_From_class c = false) (batch_body bc_util i line).
Proof.
  unfold batch_body. cbv zeta.
  destruct (Str.eqb _ _ || Str.startswith _ _); [ apply emits_ret | ].
  destruct (Str.split _) as [ | part0 [ | part1 parts ] ];
    try (apply emits_print; reflexivity).
  apply emits_try_except; [ | intros e; apply emits_print; reflexivity ].
  apply emits_bind; [ apply emits_float_or_raise | intros value ].
  destruct (Str.among _ _).
  { apply emits_bind; [ | intros bc; apply emits_print; reflexivity ].
    apply emits_in_class_silent. intros h. apply (query_silent Temperature). }
  destruct (Str.among _ _).
  { apply emits_bind; [ | intros bc; apply emits_print; reflexivity ].
    apply emits_in_class_silent. intros h. apply (query_silent LogTemperature). }
  destruct (Str.among _ _).
  { apply emits_bind; [ | intros bc; apply emits_print; reflexivity ].
    apply emits_in_class_silent. intros h. apply (query_silent ColorIndex). }
  apply emits_print. reflexivity.
Qed.

Lemma emits_for_enumerate {A : Type} (P : console -> Prop)
      (body : nat -> A -> Con unit) (l : list A) :
  (forall i x, emits P (body i x)) -> forall i, emits P (for_enumerate body i l).
Proof.
  intros Hbody. induction l as [ | x l IH ]; intros i; simpl.
  - apply emits_ret.
  - apply emits_bind; [ apply Hbody | intros _; apply IH ].
Qed.

End ConsoleFacts.

(** ** Console programs run on a heap that holds the instance *)

Lemma steady_ret {A : Type} (I : gmap loc object -> Prop) (a : A)
      (Q : A -> list console -> Prop) :
  Q a [] -> steady I (mret a) Q.
Proof. intros HQ h _. split; [ reflexivity | ]. exists a. split; [ reflexivity | exact HQ ]. Qed.

Lemma steady_print (I : gmap loc object -> Prop) (l : console)
      (Q : unit -> list console -> Prop) :
  Q () [l] -> steady I (print l) Q.
Proof. intros HQ h _. split; [ reflexivity | ]. exists (). split; [ reflexivity | exact HQ ]. Qed.

Lemma steady_bind {A B : Type} (I : gmap loc object -> Prop) (m : Con A) (k : A -> Con B)
      (Q1 : A -> list console -> Prop) (Q : B -> list console -> Prop) :
  steady I m Q1 ->
  (forall a out1, Q1 a out1 -> steady I (k a) (fun b out2 => Q b (out1 ++ out2))) ->
  steady I (m ≫= k) Q.
Proof.
  intros Hm Hk h HI. destruct (Hm h HI) as (Hh & a & Ha & HQ1).
  unfold mbind, M_bind, bind. rewrite Ha, Hh.
  destruct (Hk a _ HQ1 h HI) as (Hh' & b & Hb & HQ). simpl.
  split; [ exact Hh' | ]. exists b. split; [ exact Hb | exact HQ ].
Qed.

Lemma steady_weaken {A : Type} (I : gmap loc object -> Prop) (m : Con A)
      (Q Q' : A -> list console -> Prop) :
  (forall a out, Q a out -> Q' a out) -> steady I m Q -> steady I m Q'.
Proof.
  intros HQ Hm h HI. destruct (Hm h HI) as (Hh & a & Ha & Hq).
  split; [ exact Hh | ]. exists a. split; [ exact Ha | apply HQ, Hq ].
Qed.

(** A body that returns is not affected by the handlers around it. *)
Lemma steady_try_except {A : Type} (I : gmap loc object -> Prop) (body : Con A)
      (caught : exception -> bool) (handler : exception -> Con A)
      (Q : A -> list console -> Prop) :
  steady I body Q -> steady I (try_except body caught handler) Q.
Proof.
  intros Hm h HI. destruct (Hm h HI) as (Hh & a & Ha & Hq).
  unfold try_except. rewrite Ha. split; [ exact Hh | ]. exists a. split; assumption.
Qed.

Lemma in_class_query_run (ax : axis) (h : gmap loc object) (bc_util : loc)
      (me : BolometricCorrection) (value : float64) (verbose : bool) :
  h !! bc_util = Some (BolometricCorrectionObj me) ->
  in_class (query ax bc_util (Scalar value) verbose) h
  = Outcome (Ok (Scalar (interpolant ax me value))) h (query_lines ax me value verbose).
Proof.
  intros Hself. unfold in_class, query_lines.
  rewrite (query_run ax h bc_util me _ verbose Hself). simpl.
  rewrite orb_false_r. reflexivity.
Qed.

(** The result lines of the three axes are told apart by their text. *)
Lemma result_line_inj (ax ax' : axis) (value value' : float64) (bc bc' : ndarray) :
  result_line ax value bc = result_line ax' value' bc' ->
  ax = ax' /\ value = value' /\ bc = bc'.
Proof.
  destruct ax, ax'; unfold result_line; intros E; try discriminate E;
    injection E as -> ->; auto.
Qed.

Lemma consistent_result (me : BolometricCorrection) (ax : axis) (value : float64) :
  consistent me (result_line ax value (Scalar (interpolant ax me value))).
Proof.
  intros ax' value' bc' E. apply result_line_inj in E as (<- & <- & <-). reflexivity.
Qed.

Lemma consistent_From_class (me : BolometricCorrection) (l : line) :
  consistent me (From_class l).
Proof. intros ax value bc E. destruct ax; discriminate E. Qed.

Ltac not_a_result :=
  let ax := fresh "ax" in
  let E := fresh "E" in
  intros ax ? ? E; destruct ax; discriminate E.

Lemma run_bind {A B : Type} (m : Con A) (k : A -> Con B) (h h1 : gmap loc object)
      (a : A) (out : list console) :
  m h = Outcome (Ok a) h1 out ->
  (m ≫= k) h = Outcome (value (k a h1)) (heap (k a h1)) (out ++ output (k a h1)).
Proof. intros Hm. unfold mbind, M_bind, bind. rewrite Hm. reflexivity. Qed.

Lemma run_bind_ret {A B : Type} (a : A) (k : A -> Con B) (h : gmap loc object) :
  (mret a ≫= k) h = k a h.
Proof.
  unfold mbind, M_bind, bind, mret, M_ret, ret. simpl. destruct (k a h); reflexivity.
Qed.

Lemma run_bind_raise {A B : Type} (m : Con A) (k : A -> Con B) (h h1 : gmap loc object)
      (e : exception) (out : list console) :
  m h = Outcome (Raise e) h1 out ->
  (m ≫= k) h = Outcome (Raise e) h1 out.
Proof. intros Hm. unfold mbind, M_bind, bind. rewrite Hm. reflexivity. Qed.

Lemma steady_run {A : Type} (I : gmap loc object -> Prop) (m : Con A)
      (Q : A -> list console -> Prop) (h : gmap loc object) :
  steady I m Q -> I h -> exists a out, m h = Outcome (Ok a) h out /\ Q a out.
Proof.
  intros Hm HI. destruct (Hm h HI) as (Hh & a & Ha & HQ).
  exists a, (output (m h)). split; [ | exact HQ ].
  destruct (m h); simpl in *. congruence.
Qed.

Lemma steady_print_exact (I : gmap loc object -> Prop) (l : console) :
  steady I (print l) (fun _ out => out = [l]).
Proof. apply steady_print. reflexivity. Qed.

Lemma steady_ext {A : Type} (I : gmap loc object -> Prop) (m m' : Con A)
      (Q : A -> list console -> Prop) :
  (forall h, m h = m' h) -> steady I m' Q -> steady I m Q.
Proof. intros E Hm h HI. rewrite E. apply Hm, HI. Qed.

Lemma steady_strengthen {A : Type} (I I' : gmap loc object -> Prop) (m : Con A)
      (Q : A -> list console -> Prop) :
  (forall h, I' h -> I h) -> steady I m Q -> steady I' m Q.
Proof. intros HI Hm h Hh. apply Hm, HI, Hh. Qed.

(** A method of the class that returns [a] and prints nothing. *)
Lemma steady_in_class {A : Type} (I : gmap loc object -> Prop) (m : Py A) (a : A) :
  (forall h, I h -> m h = Outcome (Ok a) h []) ->
  steady I (in_class m) (fun a' out => a' = a /\ out = []).
Proof.
  intros Hm h HI. unfold in_class. rewrite (Hm h HI). simpl.
  split; [ reflexivity | ]. exists a. auto.
Qed.

Lemma steady_print_all (I : gmap loc object -> Prop) (ls : list console) :
  steady I (print_all ls) (fun _ out => out = ls).
Proof.
  induction ls as [ | l ls IH ]; simpl.
  - apply steady_ret. reflexivity.
  - eapply steady_bind; [ apply steady_print_exact | ].
    intros [] out1 ->. eapply steady_weaken; [ | exact IH ].
    intros [] out ->. reflexivity.
Qed.

Section ConsoleRuns.

Context `{Interp1d} `{Environment}.

(** [float] rejects the text: the handler of [ValueError] runs. *)
Lemma try_float_rejects {A : Type} (text : list ascii) (k : float64 -> Con A)
      (handler : exception -> Con A) (h : gmap loc object) :
  float text = None ->
  try_except (float_or_raise text ≫= k) is_ValueError handler h
  = handler (ValueError "could not convert string to float") h.
Proof.
  intros Hf. unfold try_except, float_or_raise. rewrite Hf.
  rewrite (run_bind_raise _ _ h h _ [] eq_refl). simpl.
  destruct (handler _ h); reflexivity.
Qed.

Lemma try_float_accepts {A : Type} (text : list ascii) (k : float64 -> Con A)
      (handler : exception -> Con A) (h : gmap loc object) (value : float64) :
  float text = Some value ->
  try_except (float_or_raise text ≫= k) is_ValueError handler h
  = try_except (k value) is_ValueError handler h.
Proof.
  intros Hf. unfold try_except, float_or_raise. rewrite Hf.
  rewrite run_bind_ret. reflexivity.
Qed.

(** A query followed by the line that shows its result. *)
Lemma steady_answer (ax : axis) (bc_util : loc) (me : BolometricCorrection)
      (value : float64) (verbose : bool) (show : float64 -> ndarray -> console) :
  steady (holds bc_util me)
         (bc ← in_class (query ax bc_util (Scalar value) verbose); print (show value bc))
         (fun _ out => out = query_lines ax me value verbose
                             ++ [show value (Scalar (interpolant ax me value))]).
Proof.
  intros h Hself. rewrite (run_bind _ _ _ _ _ _ (in_class_query_run ax h bc_util me value verbose Hself)).
  simpl. split; [ reflexivity | ]. exists (). auto.
Qed.

End ConsoleRuns.

(** ** [batch_process] *)

Lemma among_aliases (cmd : list ascii) (ax ax' : axis) :
  Str.among cmd (aliases ax) = true -> ax' <> ax ->
  Str.among cmd (aliases ax') = false.
Proof.
  unfold Str.among, Str.eqb. intros Hin Hax.
  apply existsb_exists in Hin as (w & Hw & Hcmd).
  apply bool_decide_eq_true in Hcmd. subst cmd.
  destruct ax, ax'; try (destruct Hax; reflexivity);
    simpl in Hw; intuition (subst w; vm_compute; reflexivity).
Qed.

Lemma split_nonempty_strip (line : list ascii) (part : list ascii)
      (parts : list (list ascii)) :
  Str.split line = part :: parts -> Str.eqb line [] = false.
Proof.
  intros Hsplit. unfold Str.eqb. apply bool_decide_eq_false. intros ->. discriminate.
Qed.

Section BatchFacts.

Context `{Interp1d} `{Environment}.

Lemma batch_body_steady (bc_util : loc) (me : BolometricCorrection) (i : nat)
      (line : list ascii) :
  steady (holds bc_util me) (batch_body bc_util i line)
         (fun _ out => (length out <= 1)%nat /\ Forall (consistent me) out).
Proof.
  unfold batch_body. cbv zeta.
  destruct (Str.eqb _ _ || Str.startswith _ _).
  { apply steady_ret. simpl. split; [ lia | constructor ]. }
  destruct (Str.split _) as [ | part0 [ | part1 parts ] ].
  1, 2: apply steady_print; simpl; split; [ lia | ];
        repeat constructor; not_a_result.
  destruct (float part1) as [ value | ] eqn:Hfloat.
  - eapply steady_ext; [ intros h; apply (try_float_accepts _ _ _ _ _ Hfloat) | ].
    apply steady_try_except.
    destruct (Str.among _ _).
    { eapply steady_weaken; [ | apply (steady_answer Temperature _ _ _ false
                                         (result_line Temperature)) ].
      intros [] out ->. unfold query_lines. simpl. split; [ lia | ].
      repeat constructor. apply consistent_result. }
    destruct (Str.among _ _).
    { eapply steady_weaken; [ | apply (steady_answer LogTemperature _ _ _ false
                                         (result_line LogTemperature)) ].
      intros [] out ->. unfold query_lines. simpl. split; [ lia | ].
      repeat constructor. apply consistent_result. }
    destruct (Str.among _ _).
    { eapply steady_weaken; [ | apply (steady_answer ColorIndex _ _ _ false
                                         (result_line ColorIndex)) ].
      intros [] out ->. unfold query_lines. simpl. split; [ lia | ].
      repeat constructor. apply consistent_result. }
    apply steady_print. simpl. split; [ lia | ]. repeat constructor. not_a_result.
  - intros h Hself. rewrite (try_float_rejects _ _ _ _ Hfloat). simpl.
    split; [ reflexivity | ]. exists (). split; [ reflexivity | ].
    split; [ lia | ]. repeat constructor. not_a_result.
Qed.

Lemma steady_for_enumerate {A : Type} (I : gmap loc object -> Prop)
      (P : console -> Prop) (body : nat -> A -> Con unit) (l : list A) :
  (forall i x, steady I (body i x)
                      (fun _ out => (length out <= 1)%nat /\ Forall P out)) ->
  forall i, steady I (for_enumerate body i l)
                   (fun _ out => (length out <= length l)%nat /\ Forall P out).
Proof.
  intros Hbody. induction l as [ | x l IH ]; intros i; simpl.
  - apply steady_ret. split; [ simpl; lia | constructor ].
  - eapply steady_bind; [ apply Hbody | ].
    intros [] out1 [Hlen1 HP1]. eapply steady_weaken; [ | apply IH ].
    intros [] out2 [Hlen2 HP2]. rewrite length_app.
    split; [ lia | apply Forall_app; split; assumption ].
Qed.

Lemma batch_process_steady (filename : list ascii) (bc_util : loc)
      (me : BolometricCorrection) :
  steady (holds bc_util me) (batch_process filename bc_util)
         (fun done out =>
            match open_ filename with
            | Opened content =>
                done = Returned /\
                exists answers,
                  out = Print (Str.newline_then "Processing batch file: {filename}")
                              [Arg_str filename]
                        :: Print (Str.times "-" 50) [] :: answers /\
                  (length answers <= length (readlines content))%nat /\
                  Forall (consistent me) answers
            | FileNotFoundError =>
                done = SystemExit 1 /\
                out = [Print "Error: File '{filename}' not found" [Arg_str filename]]
            | OpenFailed e =>
                done = SystemExit 1 /\
                out = [Print "Error processing file: {e}" [Arg_exception e]]
            end).
Proof.
  unfold batch_process. destruct (open_ filename) as [ content | | e ].
  - apply steady_try_except. cbv zeta.
    eapply steady_bind; [ apply steady_print_exact | ].
    intros [] out1 ->.
    eapply steady_bind; [ apply steady_print_exact | ].
    intros [] out2 ->.
    eapply steady_bind;
      [ apply (steady_for_enumerate _ (consistent me)); intros i x;
        apply batch_body_steady | ].
    intros [] answers [Hlen Hall]. apply steady_ret.
    split; [ reflexivity | ]. exists answers.
    split; [ | split; assumption ].
    simpl. rewrite app_nil_r. reflexivity.
  - eapply steady_bind; [ apply steady_print_exact | ].
    intros [] out1 ->. apply steady_ret. split; reflexivity.
  - eapply steady_bind; [ apply steady_print_exact | ].
    intros [] out1 ->. apply steady_ret. split; reflexivity.
Qed.

(** X1.  [batch_process] never shows the warning of the class: whatever
    the file holds and whatever the heap holds, none of the lines it
    writes comes from the class (the queries are called with
    [verbose=False]), and it leaves the heap as it found it. *)
Theorem batch_process_never_warns (filename : list ascii) (bc_util : loc)
        (h : gmap loc object) :
  heap (batch_process filename bc_util h) = h /\
  Forall (fun c => is_From_class c = false) (output (batch_process filename bc_util h)).
Proof.
  revert h.
  change (emits (fun c => is_From_class c = false) (batch_process filename bc_util)).
  unfold batch_process. destruct (open_ filename) as [ content | | e ].
  - apply emits_try_except.
    + cbv zeta.
      apply emits_bind; [ apply emits_print; reflexivity | intros _ ].
      apply emits_bind; [ apply emits_print; reflexivity | intros _ ].
      apply emits_bind; [ | intros _; apply emits_ret ].
      apply emits_for_enumerate. intros i x. apply emits_batch_body.
    + intros e. apply emits_bind; [ apply emits_print; reflexivity | intros _ ].
      apply emits_ret.
  - apply emits_bind; [ apply emits_print; reflexivity | intros _; apply emits_ret ].
  - apply emits_bind; [ apply emits_print; reflexivity | intros _; apply emits_ret ].
Qed.

(** X2.  With an instance at hand, [batch_process] returns when the file
    could be read, whatever its lines are: no line of the file makes it
    raise or leave.  When the file cannot be opened it ends the process
    with status 1. *)
Theorem batch_process_completion (filename : list ascii) (bc_util : loc)
        (me : BolometricCorrection) (h : gmap loc object) :
  h !! bc_util = Some (BolometricCorrectionObj me) ->
  value (batch_process filename bc_util h)
  = Ok (match open_ filename with Opened _ => Returned | _ => SystemExit 1 end).
Proof.
  intros Hself.
  destruct (batch_process_steady filename bc_util me h Hself) as (_ & done & -> & HQ).
  destruct (open_ filename); destruct HQ as [-> _]; reflexivity.
Qed.

(** X3.  When the file could be read, [batch_process] writes its two
    header lines and then at most one line for each line of the file; in
    every result line among them the correction shown is the interpolant
    of the axis of the line at the value shown. *)
Theorem batch_process_output (filename content : list ascii) (bc_util : loc)
        (me : BolometricCorrection) (h : gmap loc object) :
  h !! bc_util = Some (BolometricCorrectionObj me) ->
  open_ filename = Opened content ->
  exists answers,
    output (batch_process filename bc_util h)
    = Print (Str.newline_then "Processing batch file: {filename}") [Arg_str filename]
      :: Print (Str.times "-" 50) [] :: answers /\
    (length answers <= length (readlines content))%nat /\
    Forall (consistent me) answers.
Proof.
  intros Hself Hopen.
  destruct (batch_process_steady filename bc_util me h Hself) as (_ & done & _ & HQ).
  rewrite Hopen in HQ. destruct HQ as [_ HQ]. exact HQ.
Qed.

(** X4.  [batch_process] reads the value before it looks at the command:
    a line whose second field is not a number is reported as an invalid
    value, whatever its first field is, a known command or not, and
    whatever the heap holds. *)
Theorem batch_line_invalid_value (bc_util : loc) (i : nat) (line part0 part1 : list ascii)
        (rest : list (list ascii)) (h : gmap loc object) :
  Str.startswith ["#"%char] (Str.strip line) = false ->
  Str.split (Str.strip line) = part0 :: part1 :: rest ->
  float part1 = None ->
  batch_body bc_util i line h
  = Outcome (Ok ()) h
            [Print "Line {i}: Invalid value '{parts[1]}' - {line}"
                   [Arg_int (Z.of_nat i); Arg_str part1; Arg_str (Str.strip line)]].
Proof.
  intros Hcomment Hsplit Hfloat. unfold batch_body. cbv zeta.
  rewrite (split_nonempty_strip _ _ _ Hsplit), Hcomment, Hsplit. cbn [orb].
  rewrite (try_float_rejects _ _ _ _ Hfloat). reflexivity.
Qed.

(** X5.  A line of the batch file whose first field is one of the names
    of an axis, in any case, and whose second field is a number is
    answered by one line, the result line of that axis with the
    interpolant at the number; further fields are ignored, and a value
    outside the range of the table is answered without a warning. *)
Theorem batch_line_answer (ax : axis) (bc_util : loc) (me : BolometricCorrection)
        (i : nat) (line part0 part1 : list ascii) (rest : list (list ascii))
        (value : float64) (h : gmap loc object) :
  h !! bc_util = Some (BolometricCorrectionObj me) ->
  Str.startswith ["#"%char] (Str.strip line) = false ->
  Str.split (Str.strip line) = part0 :: part1 :: rest ->
  Str.among (Str.lower part0) (aliases ax) = true ->
  float part1 = Some value ->
  batch_body bc_util i line h
  = Outcome (Ok ()) h [result_line ax value (Scalar (interpolant ax me value))].
Proof.
  intros Hself Hcomment Hsplit Hcmd Hfloat. unfold batch_body. cbv zeta.
  rewrite (split_nonempty_strip _ _ _ Hsplit), Hcomment, Hsplit. cbn [orb].
  rewrite (try_float_accepts _ _ _ _ _ Hfloat).
  change (Str.among (Str.lower part0) ["temp"; "t"; "temperature"])
    with (Str.among (Str.lower part0) (aliases Temperature)).
  change (Str.among (Str.lower part0) ["logt"; "log"; "logtemp"])
    with (Str.among (Str.lower part0) (aliases LogTemperature)).
  change (Str.among (Str.lower part0) ["bv"; "color"; "b-v"])
    with (Str.among (Str.lower part0) (aliases ColorIndex)).
  assert (Hrun : forall ax', ax' = ax ->
            try_except
              (bc ← in_class (query ax' bc_util (Scalar value) false);
               print (result_line ax' value bc))
              is_ValueError
              (fun _ =>
                 print (Print "Line {i}: Invalid value '{parts[1]}' - {line}"
                              [Arg_int (Z.of_nat i); Arg_str part1;
                               Arg_str (Str.strip line)])) h
            = Outcome (Ok ()) h [result_line ax value (Scalar (interpolant ax me value))]).
  { intros ax' ->.
    destruct (steady_run _ _ _ h
                (steady_try_except _ _ is_ValueError
                   (fun _ =>
                      print (Print "Line {i}: Invalid value '{parts[1]}' - {line}"
                                   [Arg_int (Z.of_nat i); Arg_str part1;
                                    Arg_str (Str.strip line)])) _
                   (steady_answer ax bc_util me value false (result_line ax))) Hself)
      as ([] & out & -> & ->).
    reflexivity. }
  destruct ax.
  - rewrite Hcmd. apply (Hrun Temperature eq_refl).
  - rewrite (among_aliases _ _ Temperature Hcmd) by discriminate.
    rewrite Hcmd. apply (Hrun LogTemperature eq_refl).
  - rewrite (among_aliases _ _ Temperature Hcmd) by discriminate.
    rewrite (among_aliases _ _ LogTemperature Hcmd) by discriminate.
    rewrite Hcmd. apply (Hrun ColorIndex eq_refl).
Qed.

End BatchFacts.

(** ** The model of [str]: what [strip], [lower] and [split] give *)

Lemma lstrip_head (s t : list ascii) (c : ascii) :
  Str.lstrip s = c :: t -> Str.isspace c = false.
Proof.
  induction s as [ | d s IH ]; simpl; [ discriminate | ].
  destruct (Str.isspace d) eqn:Hd; [ exact IH | ].
  intros [= <- _]. exact Hd.
Qed.

(** A stripped text is empty or ends with a character that is not white
    space. *)
Lemma strip_ends (s : list ascii) :
  Str.strip s = [] \/ exists t c, Str.strip s = t ++ [c] /\ Str.isspace c = false.
Proof.
  unfold Str.strip.
  destruct (Str.lstrip (reverse (Str.lstrip s))) as [ | c t ] eqn:E;
    [ left; reflexivity | right ].
  exists (reverse t), c. split; [ apply reverse_cons | ].
  eapply lstrip_head, E.
Qed.

Lemma isspace_lower_char (c : ascii) : Str.isspace (Str.lower_char c) = Str.isspace c.
Proof. destruct c as [[] [] [] [] [] [] [] []]; reflexivity. Qed.

Lemma startswith_app (p s : list ascii) :
  Str.startswith p s = true -> exists tail, s = p ++ tail.
Proof.
  revert s. induction p as [ | c p IH ]; intros s; simpl.
  - intros _. exists s. reflexivity.
  - destruct s as [ | d s ]; [ discriminate | ].
    intros Hs. apply andb_true_iff in Hs as [Hc Hs].
    apply Ascii.eqb_eq in Hc as ->.
    destruct (IH s Hs) as [tail ->]. exists tail. reflexivity.
Qed.

Lemma split_from_word (w cur s : list ascii) :
  Forall (fun c => Str.isspace c = false) w ->
  Str.split_from cur (w ++ s) = Str.split_from (reverse w ++ cur) s.
Proof.
  intros Hw. revert cur. induction Hw as [ | c w Hc Hw IH ]; intros cur; simpl.
  - reflexivity.
  - rewrite Hc, IH, reverse_cons, <- app_assoc. reflexivity.
Qed.

Lemma split_from_ends (t cur : list ascii) (c : ascii) :
  Str.isspace c = false -> Str.split_from cur (t ++ [c]) <> [].
Proof.
  intros Hc. revert cur. induction t as [ | d t IH ]; intros cur; simpl.
  - rewrite Hc. simpl. discriminate.
  - destruct (Str.isspace d); [ | apply IH ].
    destruct cur; [ apply IH | discriminate ].
Qed.

(** A stripped command that starts with a word and a blank has a second
    field. *)
Lemma command_has_value (s w : list ascii) :
  Forall (fun c => Str.isspace c = false) w -> w <> [] ->
  Str.startswith (w ++ [" "%char]) (Str.lower (Str.strip s)) = true ->
  exists part1 rest, Str.split (Str.lower (Str.strip s)) = w :: part1 :: rest.
Proof.
  intros Hw Hne Hstart.
  destruct (startswith_app _ _ Hstart) as [tail Hcmd].
  assert (Hlast : exists t c, tail = t ++ [c] /\ Str.isspace c = false).
  { destruct (strip_ends s) as [E | (t & c & E & Hc)].
    - rewrite E in Hcmd. destruct w; discriminate.
    - rewrite E in Hcmd. unfold Str.lower in Hcmd. rewrite map_app in Hcmd. simpl in Hcmd.
      destruct (exists_last (l := tail)) as (t' & c' & ->).
      + intros ->. rewrite app_nil_r in Hcmd.
        apply app_inj_tail in Hcmd as [_ Hc'].
        rewrite <- isspace_lower_char, Hc' in Hc. discriminate.
      + exists t', c'. split; [ reflexivity | ].
        rewrite app_assoc in Hcmd. apply app_inj_tail in Hcmd as [_ <-].
        rewrite isspace_lower_char. exact Hc. }
  destruct Hlast as (t & c & -> & Hc).
  rewrite Hcmd. unfold Str.split. rewrite <- app_assoc.
  rewrite (split_from_word w [] _ Hw), app_nil_r. simpl.
  destruct (reverse w) as [ | x y ] eqn:E.
  { apply (f_equal reverse) in E. rewrite reverse_involutive in E. contradiction. }
  rewrite <- E, reverse_involutive.
  destruct (Str.split_from [] (t ++ [c])) as [ | part1 rest ] eqn:E';
    [ destruct (split_from_ends _ _ _ Hc E') | ].
  exists part1, rest. reflexivity.
Qed.

Lemma keyword_word (ax : axis) :
  Forall (fun c => Str.isspace c = false) (list_ascii_of_string (keyword ax)) /\
  list_ascii_of_string (keyword ax) <> [].
Proof. destruct ax; split; try discriminate; repeat constructor. Qed.

(** ** [interactive_mode] *)

Section InteractiveFacts.

Context `{Interp1d} `{Environment}.

Lemma interactive_query_run (ax : axis) (bc_util : loc) (me : BolometricCorrection)
      (text error : string) (cmd : list ascii) (h : gmap loc object) :
  h !! bc_util = Some (BolometricCorrectionObj me) ->
  interactive_query (query ax) text error bc_util cmd h
  = Outcome (Ok ()) h
            match Str.split cmd with
            | _ :: part1 :: _ =>
                match float part1 with
                | Some value =>
                    query_lines ax me value true
                    ++ [Print text [Arg_float value;
                                    Arg_array (Scalar (interpolant ax me value))]]
                | None => [Print error []]
                end
            | _ => [Print error []]
            end.
Proof.
  intros Hself. unfold interactive_query.
  destruct (Str.split cmd) as [ | part0 [ | part1 rest ] ]; try reflexivity.
  destruct (float part1) as [ value | ] eqn:Hfloat.
  - rewrite (try_float_accepts _ _ _ _ _ Hfloat).
    destruct (steady_run _ _ _ h
                (steady_try_except _ _ is_ValueError (fun _ => print (Print error [])) _
                   (steady_answer ax bc_util me value true
                      (fun value bc => Print text [Arg_float value; Arg_array bc]))) Hself)
      as ([] & out & -> & ->).
    reflexivity.
  - rewrite (try_float_rejects _ _ _ _ Hfloat). reflexivity.
Qed.

(** The command of an axis reaches the query of that axis. *)
Lemma interactive_command_query (ax : axis) (bc_util : loc) (cmd : list ascii) :
  Str.startswith (list_ascii_of_string (keyword ax) ++ [" "%char]) cmd = true ->
  interactive_command bc_util cmd
  = interactive_query (query ax)
      match ax with
      | Temperature => "T = {value:.0f} K  →  BC = {bc:.3f}"
      | LogTemperature => "log(T) = {value:.3f}  →  BC = {bc:.3f}"
      | ColorIndex => "B-V = {value:.2f}  →  BC = {bc:.3f}"
      end
      match ax with
      | Temperature => "Error: Please provide a valid temperature value"
      | LogTemperature => "Error: Please provide a valid log(T) value"
      | ColorIndex => "Error: Please provide a valid B-V value"
      end
      bc_util cmd.
Proof.
  intros Hstart. destruct (startswith_app _ _ Hstart) as [tail ->].
  unfold interactive_command, Str.eqb.
  rewrite !bool_decide_eq_false_2 by (destruct ax; discriminate).
  destruct ax; reflexivity.
Qed.

End InteractiveFacts.

(** ** Lines that are neither prompts nor wrong results *)

Lemma steady_lines_ret {A : Type} (I : gmap loc object -> Prop) (P : console -> Prop)
      (a : A) :
  steady I (mret a) (fun _ out => Forall P out).
Proof. apply steady_ret. constructor. Qed.

Lemma steady_lines_print (I : gmap loc object -> Prop) (P : console -> Prop)
      (l : console) :
  P l -> steady I (print l) (fun _ out => Forall P out).
Proof. intros Hl. apply steady_print. repeat constructor. exact Hl. Qed.

Lemma steady_lines_bind {A B : Type} (I : gmap loc object -> Prop) (P : console -> Prop)
      (m : Con A) (k : A -> Con B) :
  steady I m (fun _ out => Forall P out) ->
  (forall a, steady I (k a) (fun _ out => Forall P out)) ->
  steady I (m ≫= k) (fun _ out => Forall P out).
Proof.
  intros Hm Hk. eapply steady_bind; [ exact Hm | ].
  intros a out1 H1. eapply steady_weaken; [ | apply Hk ].
  intros b out2 H2. apply Forall_app. split; assumption.
Qed.

(** The value a silent method of the class returns, then what follows. *)
Lemma steady_lines_after {A B : Type} (I : gmap loc object -> Prop)
      (P : console -> Prop) (m : Py A) (a : A) (k : A -> Con B) :
  (forall h, I h -> m h = Outcome (Ok a) h []) ->
  steady I (k a) (fun _ out => Forall P out) ->
  steady I (in_class m ≫= k) (fun _ out => Forall P out).
Proof.
  intros Hm Hk. eapply steady_bind; [ apply (steady_in_class I m a Hm) | ].
  intros a' out1 [-> ->]. exact Hk.
Qed.

Lemma filter_none {A : Type} (f : A -> bool) (l : list A) :
  Forall (fun x => f x = false) l -> List.filter f l = [].
Proof.
  induction 1 as [ | x l Hx _ IH ]; simpl; [ reflexivity | ]. rewrite Hx. exact IH.
Qed.

Ltac plain_line := split; [ not_a_result | reflexivity ].

Lemma plain_query_lines (me : BolometricCorrection) (ax : axis) (value : float64)
      (verbose : bool) :
  Forall (plain me) (query_lines ax me value verbose).
Proof.
  unfold query_lines. apply Forall_fmap, Forall_true. intros l.
  split; [ apply consistent_From_class | reflexivity ].
Qed.

Lemma plain_commands_help (me : BolometricCorrection) :
  Forall (plain me) commands_help.
Proof.
  unfold commands_help.
  repeat (apply List.Forall_cons; [ plain_line | ]). apply List.Forall_nil.
Qed.

Section InteractiveSession.

Context `{Interp1d} `{Environment}.

Lemma interactive_info_steady (bc_util : loc) (me : BolometricCorrection)
      (df : DataFrame) :
  steady (ready bc_util me df) (interactive_info bc_util)
         (fun _ out => Forall (plain me) out).
Proof.
  unfold interactive_info.
  apply steady_lines_bind; [ apply steady_lines_print; plain_line | intros _ ].
  apply (steady_lines_after _ _ _ me);
    [ intros h [Hself _]; apply get_self_run, Hself | ].
  apply steady_lines_bind; [ apply steady_lines_print; plain_line | intros _ ].
  apply steady_lines_bind; [ apply steady_lines_print; plain_line | intros _ ].
  apply steady_lines_bind; [ apply steady_lines_print; plain_line | intros _ ].
  apply (steady_lines_after _ _ _ (getitem df BC));
    [ intros h [_ Hdata]; apply DataFrame_getitem_run, Hdata | ].
  apply steady_lines_bind; [ apply steady_lines_print; plain_line | intros _ ].
  apply (steady_lines_after _ _ _ df);
    [ intros h [_ Hdata]; apply get_frame_run, Hdata | ].
  apply steady_lines_print. plain_line.
Qed.

Lemma interactive_query_steady (ax : axis) (bc_util : loc) (me : BolometricCorrection)
      (df : DataFrame) (text error : string) (cmd : list ascii) :
  (forall value bc, Print text [Arg_float value; Arg_array bc] = result_line ax value bc) ->
  steady (ready bc_util me df) (interactive_query (query ax) text error bc_util cmd)
         (fun _ out => Forall (plain me) out).
Proof.
  intros Hshow h [Hself _].
  rewrite (interactive_query_run ax bc_util me text error cmd h Hself). simpl.
  split; [ reflexivity | ]. exists (). split; [ reflexivity | ].
  assert (Herror : Forall (plain me) [Print error []]).
  { repeat constructor. not_a_result. }
  destruct (Str.split cmd) as [ | part0 [ | part1 rest ] ]; try exact Herror.
  destruct (float part1) as [ value | ]; [ | exact Herror ].
  apply Forall_app. split; [ apply plain_query_lines | ].
  repeat constructor. rewrite Hshow. apply consistent_result.
Qed.

Lemma interactive_command_steady (bc_util : loc) (me : BolometricCorrection)
      (df : DataFrame) (cmd : list ascii) :
  steady (ready bc_util me df) (interactive_command bc_util cmd)
         (fun _ out => Forall (plain me) out).
Proof.
  unfold interactive_command.
  destruct (Str.eqb cmd _).
  { eapply steady_weaken; [ | apply steady_print_all ].
    intros [] out ->. apply plain_commands_help. }
  destruct (Str.eqb cmd _); [ apply interactive_info_steady | ].
  destruct (Str.startswith _ cmd).
  { apply (interactive_query_steady Temperature). reflexivity. }
  destruct (Str.startswith _ cmd).
  { apply (interactive_query_steady LogTemperature). reflexivity. }
  destruct (Str.startswith _ cmd).
  { apply (interactive_query_steady ColorIndex). reflexivity. }
  destruct (Str.eqb cmd _); [ apply steady_lines_ret | ].
  apply steady_lines_bind; [ apply steady_lines_print; plain_line | intros _ ].
  apply steady_lines_print. plain_line.
Qed.

Lemma interactive_loop_steady (bc_util : loc) (me : BolometricCorrection)
      (df : DataFrame) (stdin : list stdin_event) :
  steady (ready bc_util me df) (interactive_loop bc_util stdin)
         (fun rest out =>
            rest = after_leave stdin /\
            length (List.filter is_Prompt out) = prompts stdin /\
            Forall (consistent me) out).
Proof.
  induction stdin as [ | [ s | ] stdin IH ];
    cbn [interactive_loop after_leave prompts leaving].
  - eapply steady_bind; [ apply steady_print_exact | ]. intros [] ? ->.
    eapply steady_bind; [ apply steady_print_exact | ]. intros [] ? ->.
    apply steady_ret. split; [ reflexivity | ]. split; [ reflexivity | ].
    repeat constructor; not_a_result.
  - eapply steady_bind; [ apply steady_print_exact | ]. intros [] ? ->.
    destruct (Str.among _ _).
    + eapply steady_bind; [ apply steady_print_exact | ]. intros [] ? ->.
      apply steady_ret. split; [ reflexivity | ]. split; [ reflexivity | ].
      repeat constructor; not_a_result.
    + eapply steady_bind; [ apply interactive_command_steady | ].
      intros [] out1 Hout1. eapply steady_weaken; [ | apply IH ].
      intros rest out2 (-> & Hcount & Hout2).
      split; [ reflexivity | ]. split.
      * cbn [app List.filter is_Prompt length]. rewrite List.filter_app, length_app.
        rewrite (filter_none is_Prompt out1), Hcount; [ reflexivity | ].
        eapply Forall_impl; [ exact Hout1 | ]. intros c [_ Hc]. exact Hc.
      * constructor; [ not_a_result | ].
        apply Forall_app. split; [ | exact Hout2 ].
        eapply Forall_impl; [ exact Hout1 | ]. intros c [Hc _]. exact Hc.
  - eapply steady_bind; [ apply steady_print_exact | ]. intros [] ? ->.
    eapply steady_bind; [ apply steady_print_exact | ]. intros [] ? ->.
    apply steady_ret. split; [ reflexivity | ]. split; [ reflexivity | ].
    repeat constructor; not_a_result.
Qed.

Lemma interactive_mode_steady (bc_util : loc) (me : BolometricCorrection)
      (df : DataFrame) (stdin : list stdin_event) :
  steady (ready bc_util me df) (interactive_mode bc_util stdin)
         (fun rest out =>
            rest = after_leave stdin /\
            length (List.filter is_Prompt out) = prompts stdin /\
            Forall (consistent me) out).
Proof.
  unfold interactive_mode.
  eapply steady_bind; [ apply steady_print_exact | ]. intros [] ? ->.
  eapply steady_bind; [ apply steady_print_exact | ]. intros [] ? ->.
  eapply steady_bind; [ apply steady_print_exact | ]. intros [] ? ->.
  eapply steady_bind; [ apply steady_print_all | ]. intros [] ? ->.
  eapply steady_bind; [ apply steady_print_exact | ]. intros [] ? ->.
  eapply steady_weaken; [ | apply interactive_loop_steady ].
  intros rest out (-> & Hcount & Hout).
  split; [ reflexivity | ]. split.
  - cbn [app List.filter is_Prompt commands_help]. exact Hcount.
  - repeat (apply List.Forall_cons; [ not_a_result | ]). exact Hout.
Qed.

(** X6.  A session of [interactive_mode] on an instance: it reads the
    input up to the first interrupt or [quit], [exit] or [q] command (in
    any case, blanks around it ignored) or to the end of the input, and
    leaves the rest unread; it prompts once for each event it reads and
    once more when the input ends first; it leaves the heap as it found
    it; and in every result line it writes, the correction shown is the
    interpolant of the axis of the line at the value shown.  No command
    makes it raise. *)
Theorem interactive_mode_session (bc_util : loc) (me : BolometricCorrection)
        (df : DataFrame) (stdin : list stdin_event) (h : gmap loc object) :
  h !! bc_util = Some (BolometricCorrectionObj me) ->
  h !! data me = Some (DataFrameObj df) ->
  value (interactive_mode bc_util stdin h) = Ok (after_leave stdin) /\
  heap (interactive_mode bc_util stdin h) = h /\
  length (List.filter is_Prompt (output (interactive_mode bc_util stdin h)))
  = prompts stdin /\
  Forall (consistent me) (output (interactive_mode bc_util stdin h)).
Proof.
  intros Hself Hdata.
  destruct (interactive_mode_steady bc_util me df stdin h (conj Hself Hdata))
    as (Hheap & rest & Hvalue & -> & Hcount & Hout).
  auto.
Qed.

(** X7.  In [interactive_mode], a command [temp], [logt] or [bv] followed
    by a blank always has a second field, since the line was stripped: the
    handler of [IndexError] is never needed.  The command is answered by
    the warning of the class, when the value is outside the range of the
    table, followed by the result line with the interpolant at the value;
    or by the error line of the axis when [float] rejects the field. *)
Theorem interactive_value_command (ax : axis) (bc_util : loc)
        (me : BolometricCorrection) (s : list ascii) (h : gmap loc object) :
  h !! bc_util = Some (BolometricCorrectionObj me) ->
  Str.startswith (list_ascii_of_string (keyword ax) ++ [" "%char])
                 (Str.lower (Str.strip s)) = true ->
  exists part1,
    Str.split (Str.lower (Str.strip s)) !! 1%nat = Some part1 /\
    interactive_command bc_util (Str.lower (Str.strip s)) h
    = Outcome (Ok ()) h
              match float part1 with
              | Some value =>
                  query_lines ax me value true
                  ++ [result_line ax value (Scalar (interpolant ax me value))]
              | None => [error_line ax]
              end.
Proof.
  intros Hself Hstart.
  destruct (keyword_word ax) as [Hword Hne].
  destruct (command_has_value s _ Hword Hne Hstart) as (part1 & rest & Hsplit).
  exists part1. split; [ rewrite Hsplit; reflexivity | ].
  rewrite (interactive_command_query ax bc_util _ Hstart).
  rewrite (interactive_query_run ax bc_util me _ _ _ h Hself), Hsplit.
  destruct ax; reflexivity.
Qed.

End InteractiveSession.

(** ** [main] *)

Lemma init_output `{Interp1d} (h : gmap loc object) (d : loc) :
  output (__init__ d h) = [].
Proof.
  destruct (h !! d) as [[df | me] | ] eqn:Hd.
  - rewrite (init_run _ _ _ Hd). cbv zeta. destruct (attributes _ _); reflexivity.
  - destruct (init_not_a_frame h d) as [e ->]; [ congruence | reflexivity ].
  - destruct (init_not_a_frame h d) as [e ->]; [ congruence | reflexivity ].
Qed.

Lemma load_and_build_run `{Interp1d} (h : gmap loc object) :
  load_and_build h
  = __init__ (fresh (dom h)) (<[fresh (dom h) := DataFrameObj embedded_table]> h).
Proof.
  unfold load_and_build.
  apply (bind_run_silent _ _ _ _ _ (load_bolometric_data_run h)).
Qed.

Section MainFacts.

Context `{Interp1d} `{Environment}.

(** [main] up to the modes, when the instance could be built. *)
Lemma main_run (args : Namespace.t) (argc : nat) (stdin : list stdin_event)
      (h : gmap loc object) (self : loc) :
  value (load_and_build h) = Ok self ->
  exists me,
    prepared (fresh (dom h)) self me embedded_table (sort_values embedded_table T)
             (heap (load_and_build h)) /\
    main args argc stdin h
    = let o := main_modes args argc stdin (fresh (dom h)) self (heap (load_and_build h)) in
      Outcome (value o) (heap o)
              (Print "Loading bolometric correction data..." []
               :: Print "Data loaded successfully." [] :: output o).
Proof.
  rewrite load_and_build_run.
  set (d := fresh (dom h)).
  set (h1 := <[d := DataFrameObj embedded_table]> h).
  intros Hself.
  assert (Hd : h1 !! d = Some (DataFrameObj embedded_table)) by apply lookup_insert_eq.
  destruct (init_ok h1 d self embedded_table Hd Hself) as (me & _ & Hme & Hdata & _).
  exists me. split.
  { split; [ apply init_preserves, Hd | split; assumption ]. }
  unfold main.
  rewrite (run_bind _ _ h h () [_] eq_refl).
  assert (Hload : in_class load_bolometric_data h = Outcome (Ok d) h1 []).
  { unfold in_class. rewrite load_bolometric_data_run. reflexivity. }
  rewrite (run_bind _ _ _ _ _ _ Hload).
  assert (Hinit : in_class (__init__ d) h1 = Outcome (Ok self) (heap (__init__ d h1)) []).
  { unfold in_class. rewrite Hself, init_output. reflexivity. }
  rewrite (run_bind _ _ _ _ _ _ Hinit).
  rewrite (run_bind _ _ (heap (__init__ d h1)) (heap (__init__ d h1)) () [_] eq_refl).
  reflexivity.
Qed.

(** X8.  When the instance cannot be built, [main] stops there: it has
    printed its first line only, not the line that reports success, and
    the exception of the constructor is the one it ends with. *)
Theorem main_construction_fails (args : Namespace.t) (argc : nat)
        (stdin : list stdin_event) (h : gmap loc object) (e : exception) :
  value (load_and_build h) = Raise e ->
  value (main args argc stdin h) = Raise e /\
  output (main args argc stdin h) = [Print "Loading bolometric correction data..." []].
Proof.
  rewrite load_and_build_run.
  set (d := fresh (dom h)).
  set (h1 := <[d := DataFrameObj embedded_table]> h).
  intros Hfail. unfold main.
  rewrite (run_bind _ _ h h () [_] eq_refl).
  assert (Hload : in_class load_bolometric_data h = Outcome (Ok d) h1 []).
  { unfold in_class. rewrite load_bolometric_data_run. reflexivity. }
  rewrite (run_bind _ _ _ _ _ _ Hload).
  assert (Hinit : in_class (__init__ d) h1 = Outcome (Raise e) (heap (__init__ d h1)) []).
  { unfold in_class. rewrite Hfail, init_output. reflexivity. }
  rewrite (run_bind_raise _ _ _ _ _ _ Hinit).
  split; reflexivity.
Qed.

Lemma main_information_steady (data bc_util : loc) (me : BolometricCorrection)
      (table df : DataFrame) :
  steady (prepared data bc_util me table df)
         (print (Print (Str.newline_then "Bolometric Correction Data Information:") []);;
          me ← in_class (get_self bc_util);
          print (Print "Temperature range: {bc_util.T_min:.0f} - {bc_util.T_max:.0f} K"
                       [Arg_scalar (T_min me); Arg_scalar (T_max me)]);;
          print (Print "log(T) range:      {bc_util.logT_min:.3f} - {bc_util.logT_max:.3f}"
                       [Arg_scalar (logT_min me); Arg_scalar (logT_max me)]);;
          print (Print "B-V range:         {bc_util.BV_min:.2f} - {bc_util.BV_max:.2f}"
                       [Arg_scalar (BV_min me); Arg_scalar (BV_max me)]);;
          bc ← in_class (DataFrame_getitem data BC);
          print (Print "BC range:          {data['BC'].min():.3f} - {data['BC'].max():.3f}"
                       [Arg_scalar (Series_min bc); Arg_scalar (Series_max bc)]);;
          df ← in_class (get_frame data);
          print (Print "Number of points:  {len(data)}" [Arg_int (Z.of_nat (length df))]))
         (fun _ out => out = information me table).
Proof.
  eapply steady_bind; [ apply steady_print_exact | ]. intros [] ? ->.
  eapply steady_bind;
    [ apply (steady_in_class _ (get_self bc_util) me);
      intros h (_ & Hself & _); apply get_self_run, Hself | ].
  intros ? ? [-> ->].
  eapply steady_bind; [ apply steady_print_exact | ]. intros [] ? ->.
  eapply steady_bind; [ apply steady_print_exact | ]. intros [] ? ->.
  eapply steady_bind; [ apply steady_print_exact | ]. intros [] ? ->.
  eapply steady_bind;
    [ apply (steady_in_class _ (DataFrame_getitem data BC) (getitem table BC));
      intros h (Hdata & _); apply DataFrame_getitem_run, Hdata | ].
  intros ? ? [-> ->].
  eapply steady_bind; [ apply steady_print_exact | ]. intros [] ? ->.
  eapply steady_bind;
    [ apply (steady_in_class _ (get_frame data) table);
      intros h (Hdata & _); apply get_frame_run, Hdata | ].
  intros ? ? [-> ->].
  eapply steady_weaken; [ | apply steady_print_exact ].
  intros [] out ->. reflexivity.
Qed.

Lemma main_option_steady (ax : axis) (bc_util : loc) (me : BolometricCorrection)
      (o : option float64) :
  steady (holds bc_util me)
         match o with
         | Some value =>
             bc ← in_class (query ax bc_util (Scalar value) true);
             print (option_line ax value bc)
         | None => mret ()
         end
         (fun _ out => out = option_answer ax me o).
Proof.
  destruct o as [ value | ]; [ | apply steady_ret; reflexivity ].
  apply (steady_answer ax bc_util me value true (option_line ax)).
Qed.

(** The modes up to the batch file: [--info] and the three options. *)
Lemma main_modes_steady (args : Namespace.t) (argc : nat) (stdin : list stdin_event)
      (data bc_util : loc) (me : BolometricCorrection) (table df : DataFrame)
      (Q : completion -> list console -> Prop) :
  Namespace.plot args = false ->
  steady (prepared data bc_util me table df)
         (done ← match Namespace.batch args with
                 | Some (c :: name) => batch_process (c :: name) bc_util
                 | _ => mret Returned
                 end;
          match done with
          | SystemExit code => mret (SystemExit code)
          | Returned =>
              (if Namespace.interactive args then
                 interactive_mode bc_util stdin;; mret ()
               else mret ());;
              (if (argc =? 1)%nat then print Parser_help else mret ());;
              mret Returned
          end)
         (fun done out =>
            Q done ((if Namespace.info args then information me table else [])
                    ++ option_answer Temperature me (Namespace.temp args)
                    ++ option_answer LogTemperature me (Namespace.logt args)
                    ++ option_answer ColorIndex me (Namespace.bv args)
                    ++ out)) ->
  steady (prepared data bc_util me table df)
         (main_modes args argc stdin data bc_util) Q.
Proof.
  intros Hplot Hrest. unfold main_modes. rewrite Hplot.
  eapply steady_bind.
  { instantiate (1 := fun _ out =>
                        out = if Namespace.info args then information me table else []).
    destruct (Namespace.info args);
      [ apply main_information_steady | apply steady_ret; reflexivity ]. }
  intros [] ? ->.
  eapply steady_bind; [ apply (steady_ret _ () (fun _ out => out = [])); reflexivity | ].
  intros [] ? ->.
  eapply steady_bind.
  { apply (steady_strengthen (holds bc_util me)); [ intros h (_ & Hself & _); exact Hself | ].
    apply (main_option_steady Temperature). }
  intros [] ? ->.
  eapply steady_bind.
  { apply (steady_strengthen (holds bc_util me)); [ intros h (_ & Hself & _); exact Hself | ].
    apply (main_option_steady LogTemperature). }
  intros [] ? ->.
  eapply steady_bind.
  { apply (steady_strengthen (holds bc_util me)); [ intros h (_ & Hself & _); exact Hself | ].
    apply (main_option_steady ColorIndex). }
  intros [] ? ->.
  eapply steady_weaken; [ | exact Hrest ].
  intros done out HQ. exact HQ.
Qed.

(** X9.  Without [--plot], [--batch] and [--interactive], and when the
    instance could be built, [main] returns and writes, in this order
    whatever the order on the command line: its two opening lines, the
    six lines of [--info] if asked, then for [--temp], [--logt] and
    [--bv], each if given, the warning of the class when the value is
    outside the range of the table followed by the line with the
    interpolant at the value; and the help of the parser when the command
    line had no argument. *)
Theorem main_options (args : Namespace.t) (argc : nat) (stdin : list stdin_event)
        (h : gmap loc object) (self : loc) :
  value (load_and_build h) = Ok self ->
  Namespace.plot args = false ->
  Namespace.batch args = None \/ Namespace.batch args = Some [] ->
  Namespace.interactive args = false ->
  exists me,
    heap (load_and_build h) !! self = Some (BolometricCorrectionObj me) /\
    value (main args argc stdin h) = Ok Returned /\
    output (main args argc stdin h)
    = Print "Loading bolometric correction data..." []
      :: Print "Data loaded successfully." []
      :: (if Namespace.info args then information me embedded_table else [])
      ++ option_answer Temperature me (Namespace.temp args)
      ++ option_answer LogTemperature me (Namespace.logt args)
      ++ option_answer ColorIndex me (Namespace.bv args)
      ++ (if (argc =? 1)%nat then [Parser_help] else []).
Proof.
  intros Hself Hplot Hbatch Hinteractive.
  destruct (main_run args argc stdin h self Hself) as (me & Hprepared & ->).
  exists me. split; [ apply Hprepared | ].
  cbv zeta.
  eapply (main_modes_steady args argc stdin _ _ _ _ _
            (fun done out =>
               done = Returned /\
               out = (if Namespace.info args then information me embedded_table else [])
                     ++ option_answer Temperature me (Namespace.temp args)
                     ++ option_answer LogTemperature me (Namespace.logt args)
                     ++ option_answer ColorIndex me (Namespace.bv args)
                     ++ (if (argc =? 1)%nat then [Parser_help] else [])) Hplot)
    in Hprepared as (_ & done & -> & -> & ->); [ split; reflexivity | ].
  rewrite Hinteractive.
  eapply steady_bind.
  { instantiate (1 := fun done out => done = Returned /\ out = []).
    destruct Hbatch as [-> | ->]; apply steady_ret; split; reflexivity. }
  intros ? ? [-> ->].
  eapply steady_bind; [ apply (steady_ret _ () (fun _ out => out = [])); reflexivity | ].
  intros [] ? ->.
  eapply steady_bind.
  { instantiate (1 := fun _ out => out = if (argc =? 1)%nat then [Parser_help] else []).
    destruct (argc =? 1)%nat; [ apply steady_print_exact | apply steady_ret; reflexivity ]. }
  intros [] ? ->.
  apply steady_ret. split; [ reflexivity | ].
  simpl. rewrite app_nil_r. reflexivity.
Qed.

Lemma quiet_information (me : BolometricCorrection) (table : DataFrame) :
  Forall (fun c => is_Prompt c = false /\ c <> Parser_help) (information me table).
Proof. repeat (apply List.Forall_cons; [ split; [ reflexivity | discriminate ] | ]). constructor. Qed.

Lemma quiet_option_answer (ax : axis) (me : BolometricCorrection) (o : option float64) :
  Forall (fun c => is_Prompt c = false /\ c <> Parser_help) (option_answer ax me o).
Proof.
  destruct o as [ value | ]; [ | constructor ].
  apply Forall_app. split.
  - unfold query_lines. apply Forall_fmap, Forall_true. intros l.
    split; [ reflexivity | discriminate ].
  - repeat constructor. discriminate.
Qed.

(** X10.  A batch file that cannot be opened ends [main] with status 1
    before it reaches the interactive mode: even with [--interactive] on
    the command line no prompt is shown, and the help of the parser is
    not printed. *)
Theorem main_batch_file_not_opened (args : Namespace.t) (argc : nat)
        (stdin : list stdin_event) (h : gmap loc object) (self : loc)
        (c : ascii) (name : list ascii) :
  value (load_and_build h) = Ok self ->
  Namespace.plot args = false ->
  Namespace.batch args = Some (c :: name) ->
  (forall content, open_ (c :: name) <> Opened content) ->
  value (main args argc stdin h) = Ok (SystemExit 1) /\
  Forall (fun c => is_Prompt c = false /\ c <> Parser_help)
         (output (main args argc stdin h)).
Proof.
  intros Hself Hplot Hbatch Hopen.
  destruct (main_run args argc stdin h self Hself) as (me & Hprepared & ->).
  cbv zeta.
  eapply (main_modes_steady args argc stdin _ _ _ _ _
            (fun done out =>
               done = SystemExit 1 /\
               Forall (fun c => is_Prompt c = false /\ c <> Parser_help) out) Hplot)
    in Hprepared as (_ & done & -> & -> & Hout).
  { split; [ reflexivity | ].
    repeat (apply List.Forall_cons; [ split; [ reflexivity | discriminate ] | ]).
    exact Hout. }
  rewrite Hbatch.
  eapply steady_bind.
  { apply (steady_strengthen (holds self me)); [ intros h' (_ & Hme & _); exact Hme | ].
    apply batch_process_steady. }
  intros done out HQ. cbn beta in HQ.
  destruct (open_ (c :: name)) as [ content | | e ];
    [ destruct (Hopen content); reflexivity | | ];
    destruct HQ as [-> ->]; apply steady_ret; (split; [ reflexivity | ]);
    repeat (apply Forall_app; split;
            [ first [ apply quiet_information | apply quiet_option_answer
                    | destruct (Namespace.info args);
                      [ apply quiet_information | constructor ] ] | ]);
    rewrite app_nil_r; repeat constructor; discriminate.
Qed.

End MainFacts.

(** ** The lines of a batch file, one by one *)

Lemma for_enumerate_run {A : Type} (I : gmap loc object -> Prop)
      (body : nat -> A -> Con unit) (l : list A) (h : gmap loc object) :
  (forall i x, steady I (body i x) (fun _ _ => True)) -> I h ->
  forall i,
    for_enumerate body i l h
    = Outcome (Ok ()) h (concat (imap (fun k x => output (body (i + k)%nat x h)) l)).
Proof.
  intros Hbody HI. induction l as [ | x l IH ]; intros i; [ reflexivity | ].
  cbn [for_enumerate imap concat].
  destruct (steady_run _ _ _ h (Hbody i x) HI) as ([] & out & Hrun & _).
  rewrite (run_bind _ _ _ _ _ _ Hrun), (IH (S i)), Nat.add_0_r, Hrun.
  cbn [value heap output]. f_equal. f_equal. f_equal.
  apply imap_ext. intros k y _. cbn. rewrite Nat.add_succ_r. reflexivity.
Qed.

Section BatchLines.

Context `{Interp1d} `{Environment}.

(** X11.  What [batch_process] writes for a file it could read is its two
    header lines followed, in the order of the file, by what the body of
    its loop writes for each line: the line at index [k] is handled with
    the number [k + 1], so the numbers in its messages count every line
    of the file, the blank lines and the comments too. *)
Theorem batch_process_lines (filename content : list ascii) (bc_util : loc)
        (me : BolometricCorrection) (h : gmap loc object) :
  h !! bc_util = Some (BolometricCorrectionObj me) ->
  open_ filename = Opened content ->
  output (batch_process filename bc_util h)
  = Print (Str.newline_then "Processing batch file: {filename}") [Arg_str filename]
    :: Print (Str.times "-" 50) []
    :: concat (imap (fun k line => output (batch_body bc_util (S k) line h))
                    (readlines content)).
Proof.
  intros Hself Hopen. unfold batch_process. rewrite Hopen.
  assert (Hloop := for_enumerate_run (holds bc_util me) (batch_body bc_util)
                     (readlines content) h
                     (fun i x => steady_weaken _ _ _ _ (fun _ _ _ => Logic.I)
                                   (batch_body_steady bc_util me i x))
                     Hself 1%nat).
  unfold try_except. cbv zeta.
  rewrite (run_bind _ _ h h () [_] eq_refl).
  rewrite (run_bind _ _ h h () [_] eq_refl).
  rewrite (run_bind _ _ _ _ _ _ Hloop).
  cbn. rewrite app_nil_r. reflexivity.
Qed.

End BatchLines.

(** ** The rows of the table lie within the bounds *)

(** X12.  The bounds the constructor records enclose the table it was
    given: queried at a log-temperature or at a colour index of any row
    of the table, an instance does not report an extrapolation, whatever
    the table and the interpolator are.  (A NaN in the column is not a
    value of the axis.) *)
Theorem tabulated_values_within_bounds `{Interp1d} (h : gmap loc object) (d self : loc)
        (df : DataFrame) (r : Row) :
  h !! d = Some (DataFrameObj df) ->
  value (__init__ d h) = Ok self ->
  In r df ->
  (isnan (val_logT r) = false ->
   extrapolated (get_BC_from_logT self (Scalar (val_logT r)) true (heap (__init__ d h)))
   = false) /\
  (isnan (val_B_V r) = false ->
   extrapolated (get_BC_from_BV self (Scalar (val_B_V r)) true (heap (__init__ d h)))
   = false).
Proof.
  intros Hd Hself Hin.
  destruct (init_ok h d self df Hd Hself) as (me & Hattr & Hme & _).
  destruct (attributes_inv _ _ _ Hattr)
    as (_ & _ & _ & _ & _ & _ & HlogT_min & HlogT_max & HBV_min & HBV_max).
  assert (Hin' : In r (sort_values df T)).
  { apply list_elem_of_In. rewrite sort_values_Permutation. apply list_elem_of_In, Hin. }
  destruct (column_bounds_enclose _ _ Hin') as (HlogT & HBV & _).
  split; intros Hnan.
  - rewrite (query_extrapolated LogTemperature _ _ me _ Hme).
    cbn [elements existsb]. unfold outside. cbn [lower upper].
    rewrite HlogT_min, HlogT_max. destruct (HlogT Hnan) as [-> ->]. reflexivity.
  - rewrite (query_extrapolated ColorIndex _ _ me _ Hme).
    cbn [elements existsb]. unfold outside. cbn [lower upper].
    rewrite HBV_min, HBV_max. destruct (HBV Hnan) as [-> ->]. reflexivity.
Qed.

(** ** The console programs, run on examples *)

Lemma reference_load_and_build :
  value (load_and_build (H := NaturalSpline.reference) ∅) = Ok 4%positive.
Proof.
  rewrite load_and_build_run. generalize reference_built.
  unfold loaded. rewrite load_bolometric_data_run. intros Hbuilt. exact Hbuilt.
Qed.

Lemma rejecting_load_and_build :
  value (load_and_build (H := rejecting) ∅)
  = Raise (ValueError "x and y arrays must have at least 2 entries").
Proof.
  rewrite load_and_build_run.
  rewrite (init_run _ _ _ (lookup_insert_eq _ _ _)). reflexivity.
Qed.

Lemma batch_process_completion_witness :
  value (batch_process (H0 := example_environment) (list_ascii_of_string "input.txt")
                       4%positive reference_heap) = Ok Returned.
Proof.
  destruct reference_instance as (me & Hself & _).
  exact (batch_process_completion (H0 := example_environment)
           (list_ascii_of_string "input.txt") 4%positive me reference_heap Hself).
Defined.

Lemma batch_process_output_witness :
  exists answers,
    output (batch_process (H0 := example_environment) (list_ascii_of_string "input.txt")
                          4%positive reference_heap)
    = Print (Str.newline_then "Processing batch file: {filename}")
            [Arg_str (list_ascii_of_string "input.txt")]
      :: Print (Str.times "-" 50) [] :: answers /\
    (length answers <= 4)%nat.
Proof.
  destruct reference_instance as (me & Hself & _).
  destruct (batch_process_output (H0 := example_environment)
              (list_ascii_of_string "input.txt") _ 4%positive me reference_heap
              Hself eq_refl)
    as (answers & Hout & Hlen & _).
  exists answers. split; [ exact Hout | exact Hlen ].
Defined.

Lemma batch_line_invalid_value_witness :
  output (batch_body (H0 := example_environment) 4%positive 7
                     (list_ascii_of_string "speed fast") ∅)
  = [Print "Line {i}: Invalid value '{parts[1]}' - {line}"
           [Arg_int 7; Arg_str (list_ascii_of_string "fast");
            Arg_str (list_ascii_of_string "speed fast")]].
Proof.
  rewrite (batch_line_invalid_value (H0 := example_environment) 4%positive 7
             (list_ascii_of_string "speed fast")
             (list_ascii_of_string "speed") (list_ascii_of_string "fast") [] ∅
             eq_refl eq_refl eq_refl).
  reflexivity.
Defined.

Lemma batch_line_answer_witness :
  exists me,
    reference_heap !! 4%positive = Some (BolometricCorrectionObj me) /\
    output (batch_body (H0 := example_environment) 4%positive 1
                       (list_ascii_of_string "Temp 100000 K") reference_heap)
    = [result_line Temperature (of_int 100000)
                   (Scalar (interpolant Temperature me (of_int 100000)))].
Proof.
  destruct reference_instance as (me & Hself & _).
  exists me. split; [ exact Hself | ].
  rewrite (batch_line_answer (H0 := example_environment) Temperature 4%positive me 1
             (list_ascii_of_string "Temp 100000 K")
             (list_ascii_of_string "Temp") (list_ascii_of_string "100000")
             [list_ascii_of_string "K"] (of_int 100000) reference_heap
             Hself eq_refl eq_refl eq_refl eq_refl).
  reflexivity.
Defined.

Lemma interactive_mode_session_witness :
  value (interactive_mode (H0 := example_environment) 4%positive
           [Line (list_ascii_of_string "temp 5780");
            Line (list_ascii_of_string " Quit ");
            Line (list_ascii_of_string "info")]
           reference_heap)
  = Ok [Line (list_ascii_of_string "info")].
Proof.
  destruct reference_instance as (me & Hself & Hdata & _).
  exact (proj1 (interactive_mode_session (H0 := example_environment) 4%positive me _
                  [Line (list_ascii_of_string "temp 5780");
                   Line (list_ascii_of_string " Quit ");
                   Line (list_ascii_of_string "info")]
                  reference_heap Hself Hdata)).
Defined.

Lemma interactive_value_command_witness :
  exists part1,
    Str.split (Str.lower (Str.strip (list_ascii_of_string " TEMP hot "))) !! 1%nat
    = Some part1 /\
    output (interactive_command (H0 := example_environment) 4%positive
              (Str.lower (Str.strip (list_ascii_of_string " TEMP hot "))) reference_heap)
    = [error_line Temperature].
Proof.
  destruct reference_instance as (me & Hself & _).
  destruct (interactive_value_command (H0 := example_environment) Temperature 4%positive
              me (list_ascii_of_string " TEMP hot ") reference_heap Hself eq_refl)
    as (part1 & Hpart & Hrun).
  exists part1. split; [ exact Hpart | ].
  rewrite Hrun. injection Hpart as <-. reflexivity.
Defined.

Lemma main_construction_fails_witness :
  output (main (H := rejecting) (H0 := example_environment)
               (command_line (Some (of_int 5780)) None false) 3 [] ∅)
  = [Print "Loading bolometric correction data..." []].
Proof.
  exact (proj2 (main_construction_fails (H := rejecting) (H0 := example_environment)
                  (command_line (Some (of_int 5780)) None false) 3 [] ∅ _
                  rejecting_load_and_build)).
Defined.

Lemma main_options_witness :
  value (main (H := NaturalSpline.reference) (H0 := example_environment)
              (command_line (Some (of_int 5780)) None false) 3 [] ∅)
  = Ok Returned.
Proof.
  destruct (main_options (H := NaturalSpline.reference) (H0 := example_environment)
              (command_line (Some (of_int 5780)) None false) 3 [] ∅ 4%positive
              reference_load_and_build eq_refl (or_introl eq_refl) eq_refl)
    as (me & _ & Hvalue & _).
  exact Hvalue.
Defined.

Lemma main_batch_file_not_opened_witness :
  value (main (H := NaturalSpline.reference) (H0 := example_environment)
              (command_line None (Some (list_ascii_of_string "missing.txt")) true) 4
              [Line (list_ascii_of_string "temp 5780")] ∅)
  = Ok (SystemExit 1).
Proof.
  refine (proj1 (main_batch_file_not_opened
                   (H := NaturalSpline.reference) (H0 := example_environment)
                   (command_line None (Some (list_ascii_of_string "missing.txt")) true) 4
                   [Line (list_ascii_of_string "temp 5780")] ∅ 4%positive
                   "m"%char (list_ascii_of_string "issing.txt")
                   reference_load_and_build eq_refl eq_refl _)).
  intros content. discriminate.
Defined.

Lemma batch_process_lines_witness :
  output (batch_process (H0 := example_environment)
                        (list_ascii_of_string "input.txt") 4%positive reference_heap)
  = Print (Str.newline_then "Processing batch file: {filename}")
          [Arg_str (list_ascii_of_string "input.txt")]
    :: Print (Str.times "-" 50) []
    :: concat (imap (fun k line =>
                       output (batch_body (H0 := example_environment) 4%positive (S k)
                                          line reference_heap))
                    [list_ascii_of_string "temp 5780
";
                     list_ascii_of_string "bv 0.65
";
                     list_ascii_of_string "logt 3.76
";
                     list_ascii_of_string "# Comments start with #
"]).
Proof.
  destruct reference_instance as (me & Hself & _).
  exact (batch_process_lines (H0 := example_environment)
           (list_ascii_of_string "input.txt") _ 4%positive me reference_heap
           Hself eq_refl).
Defined.

Lemma tabulated_values_within_bounds_witness :
  extrapolated (get_BC_from_logT 4%positive (Scalar (of_decimal false 47538 4)) true
                                 reference_heap) = false.
Proof.
  refine (proj1 (tabulated_values_within_bounds (H := NaturalSpline.reference)
                   (heap loaded) 1%positive 4%positive embedded_table
                   (mkRow (of_decimal true 35 2) (of_decimal false 47538 4)
                          (of_decimal true 4720 3) 56728)
                   loaded_table reference_built _) _).
  - left. reflexivity.
  - vm_compute. reflexivity.
Defined.
